(** * ds-cli: scheme inference and property flattening over Datastore JSON

    A shallow embedding of [src/main.py] (class [Datastore]) and of the
    Python built-ins it calls.  Python objects live in a heap of mutable
    dicts and lists; the methods are written in a state-and-exception monad
    over that heap and the process's standard output. *)

From Stdlib Require Import ZArith NArith List String Ascii Bool Lia.
From Stdlib Require Import Floats.SpecFloat.
From Stdlib Require Import DecimalString.
From stdpp Require Import base list.
Import ListNotations.

(** ** Python [str]: a sequence of Unicode code points *)

Module Str.

Definition pystr := list N.

(** A literal of the source file (ASCII only). *)
Definition str (s : string) : pystr :=
  List.map N_of_ascii (list_ascii_of_string s).

Definition eqb (a b : pystr) : bool := bool_decide (a = b).

Fixpoint startswith (p s : pystr) : bool :=
  match p, s with
  | [], _ => true
  | _ :: _, [] => false
  | a :: p', b :: s' => (a =? b)%N && startswith p' s'
  end.

(** [sub in s] *)
Fixpoint contains (sub s : pystr) : bool :=
  startswith sub s ||
  match s with
  | [] => false
  | _ :: s' => contains sub s'
  end.

(** [s.replace(old, new)] for a non-empty [old]: the occurrences are taken
    left to right and do not overlap.  [skip] counts the characters of a
    matched occurrence that are still to be dropped. *)
Fixpoint replace_from (old new : pystr) (skip : nat) (s : pystr) : pystr :=
  match s with
  | [] => []
  | c :: s' =>
      match skip with
      | S k => replace_from old new k s'
      | O =>
          if startswith old s
          then new ++ replace_from old new (length old - 1) s'
          else c :: replace_from old new 0 s'
      end
  end.

Definition replace (old new s : pystr) : pystr :=
  match old with
  | [] => new ++ flat_map (fun c => c :: new) s
  | _ :: _ => replace_from old new 0 s
  end.

(** [Py_UNICODE_ISSPACE]: the code points [str.strip()] removes. *)
Definition isspace (c : N) : bool :=
  ((9 <=? c) && (c <=? 13) || (28 <=? c) && (c <=? 32) ||
   (c =? 133) || (c =? 160) || (c =? 5760) ||
   (8192 <=? c) && (c <=? 8202) ||
   (c =? 8232) || (c =? 8233) || (c =? 8239) || (c =? 8287) ||
   (c =? 12288))%N.

Fixpoint lstrip (s : pystr) : pystr :=
  match s with
  | c :: s' => if isspace c then lstrip s' else s
  | [] => []
  end.

Definition rstrip (s : pystr) : pystr := rev (lstrip (rev s)).

(** [s.strip()] *)
Definition strip (s : pystr) : pystr := rstrip (lstrip s).

End Str.
Export Str.

(** ** [base64.b64decode] and [base64.b64encode] over bytes in [0, 256) *)

Module Base64.

Definition alphabet : list N :=
  Eval cbv in
    str "ABCDEFGHIJKLMNOPQRSTUVWXYZabcdefghijklmnopqrstuvwxyz0123456789+/".

Definition PAD : N := 61.

(** [table_b2a_base64] *)
Definition b2a (i : N) : N := nth (N.to_nat i) alphabet 0%N.

(** [table_a2b_base64]; [None] for a character outside the alphabet. *)
Definition a2b (c : N) : option N :=
  (if (65 <=? c) && (c <=? 90) then Some (c - 65)
   else if (97 <=? c) && (c <=? 122) then Some (c - 71)
   else if (48 <=? c) && (c <=? 57) then Some (c + 4)
   else if c =? 43 then Some 62
   else if c =? 47 then Some 63
   else None)%N.

(** [binascii.b2a_base64(data, newline=False)] *)
Fixpoint b64encode (data : list N) : list N :=
  match data with
  | [] => []
  | [a] =>
      [ b2a (N.shiftr a 2); b2a (N.shiftl (N.land a 3) 4); PAD; PAD ]
  | [a; b] =>
      [ b2a (N.shiftr a 2);
        b2a (N.lor (N.shiftl (N.land a 3) 4) (N.shiftr b 4));
        b2a (N.shiftl (N.land b 15) 2); PAD ]
  | a :: b :: c :: rest =>
      b2a (N.shiftr a 2)
      :: b2a (N.lor (N.shiftl (N.land a 3) 4) (N.shiftr b 4))
      :: b2a (N.lor (N.shiftl (N.land b 15) 2) (N.shiftr c 6))
      :: b2a (N.land c 63)
      :: b64encode rest
  end.

Inductive error := IncorrectPadding | InvalidLength.

Definition emit (b : N) (r : error + list N) : error + list N :=
  match r with
  | inr bs => inr (N.land b 255 :: bs)
  | inl e => inl e
  end.

(** The decoding loop of [binascii.a2b_base64] with [strict_mode] off:
    characters outside the alphabet are skipped, a pad sequence that
    completes a quad ends the input, and a quad left incomplete is an
    error. *)
Fixpoint a2b_loop (quad_pos leftchar pads : N) (input : list N)
  : error + list N :=
  match input with
  | [] =>
      if (quad_pos =? 0)%N then inr []
      else if (quad_pos =? 1)%N then inl InvalidLength
      else inl IncorrectPadding
  | this_ch :: rest =>
      if (this_ch =? PAD)%N then
        if (2 <=? quad_pos)%N then
          if (4 <=? quad_pos + (pads + 1))%N then inr []
          else a2b_loop quad_pos leftchar (pads + 1) rest
        else a2b_loop quad_pos leftchar pads rest
      else
        match a2b this_ch with
        | None => a2b_loop quad_pos leftchar pads rest
        | Some v =>
            if (quad_pos =? 0)%N then a2b_loop 1 v 0 rest
            else if (quad_pos =? 1)%N then
              emit (N.lor (N.shiftl leftchar 2) (N.shiftr v 4))
                   (a2b_loop 2 (N.land v 15) 0 rest)
            else if (quad_pos =? 2)%N then
              emit (N.lor (N.shiftl leftchar 4) (N.shiftr v 2))
                   (a2b_loop 3 (N.land v 3) 0 rest)
            else
              emit (N.lor (N.shiftl leftchar 6) v)
                   (a2b_loop 0 0 0 rest)
        end
  end.

Definition a2b_base64 (input : list N) : error + list N :=
  a2b_loop 0 0 0 input.

End Base64.

(** ** UTF-8: [str.encode("utf-8")] and [bytes.decode("utf-8")], both strict *)

Module Utf8.

(** The encoding of one code point; [None] for a surrogate or a value
    beyond U+10FFFF, which strict encoding refuses. *)
Definition encode_cp (c : N) : option (list N) :=
  (if c <? 128 then Some [c]
   else if c <? 2048 then
     Some [ N.lor 192 (N.shiftr c 6); N.lor 128 (N.land c 63) ]
   else if c <? 65536 then
     if (55296 <=? c) && (c <=? 57343) then None
     else Some [ N.lor 224 (N.shiftr c 12);
                 N.lor 128 (N.land (N.shiftr c 6) 63);
                 N.lor 128 (N.land c 63) ]
   else if c <? 1114112 then
     Some [ N.lor 240 (N.shiftr c 18);
            N.lor 128 (N.land (N.shiftr c 12) 63);
            N.lor 128 (N.land (N.shiftr c 6) 63);
            N.lor 128 (N.land c 63) ]
   else None)%N.

Fixpoint encode (s : pystr) : option (list N) :=
  match s with
  | [] => Some []
  | c :: s' =>
      match encode_cp c, encode s' with
      | Some bs, Some rest => Some (bs ++ rest)
      | _, _ => None
      end
  end.

Definition is_cont (b : N) : bool := ((128 <=? b) && (b <=? 191))%N.

Definition cons_cp (c : N) (r : option pystr) : option pystr :=
  match r with
  | Some s => Some (c :: s)
  | None => None
  end.

(** Strict decoding: overlong forms, surrogates, values beyond U+10FFFF,
    stray continuation bytes and truncated sequences are refused
    ([None] stands for [UnicodeDecodeError]). *)
Fixpoint decode (bs : list N) : option pystr :=
  match bs with
  | [] => Some []
  | b0 :: r =>
      if (b0 <? 128)%N then cons_cp b0 (decode r)
      else if (b0 <? 194)%N then None
      else if (b0 <? 224)%N then
        match r with
        | b1 :: r1 =>
            if is_cont b1
            then cons_cp (N.lor (N.shiftl (N.land b0 31) 6) (N.land b1 63))
                         (decode r1)
            else None
        | _ => None
        end
      else if (b0 <? 240)%N then
        match r with
        | b1 :: b2 :: r2 =>
            if is_cont b1 && is_cont b2
               && negb ((b0 =? 224) && (b1 <? 160))%N
               && negb ((b0 =? 237) && (160 <=? b1))%N
            then cons_cp (N.lor (N.shiftl (N.land b0 15) 12)
                            (N.lor (N.shiftl (N.land b1 63) 6) (N.land b2 63)))
                         (decode r2)
            else None
        | _ => None
        end
      else if (b0 <? 245)%N then
        match r with
        | b1 :: b2 :: b3 :: r3 =>
            if is_cont b1 && is_cont b2 && is_cont b3
               && negb ((b0 =? 240) && (b1 <? 144))%N
               && negb ((b0 =? 244) && (144 <=? b1))%N
            then cons_cp (N.lor (N.shiftl (N.land b0 7) 18)
                            (N.lor (N.shiftl (N.land b1 63) 12)
                               (N.lor (N.shiftl (N.land b2 63) 6)
                                  (N.land b3 63))))
                         (decode r3)
            else None
        | _ => None
        end
      else None
  end.

End Utf8.

(** ** Python values, objects and exceptions *)

Module Py.

(** A location is an index into the heap. *)
Abbreviation loc := nat.

(** Scalars are immutable and held by value; dicts and lists are objects
    of the heap and held by reference. *)
Inductive value :=
| VNone
| VBool (b : bool)
| VInt (n : Z)
| VFloat (f : spec_float)
| VStr (s : pystr)
| VRef (l : loc).

(** The keys of a dict read from JSON are always [str]. *)
Inductive object :=
| ODict (items : list (pystr * value))
| OList (elems : list value).

(** The operation that raised a [TypeError] or a [ValueError]. *)
Inductive builtin := Subscript | Iter | Hash | Int | B64decode | SetItem.

Inductive exn :=
| Exception (args : list value)
| KeyError (key : value)
| IndexError
| TypeError (op : builtin)
| ValueError (op : builtin)
| OverflowError
| AttributeError (attr : string)
| BinasciiError (e : Base64.error)
| UnicodeDecodeError
| JSONDecodeError.

Inductive outcome (A : Type) :=
| Return (a : A)
| Raise (e : exn).
Arguments Return {A} a.
Arguments Raise {A} e.

(** What the interpreter fixes for one process and the source cannot see:
    which element [set.pop()] removes, given the elements in the order they
    were added (the slot is taken modulo the size), and the numeric
    literals [int()] accepts in a [str]. *)
Class Interpreter := {
  set_pop_slot : list pystr -> nat;
  int_of_str : pystr -> option Z
}.

(** *** Association lists: the entries of a dict in insertion order *)

Section Assoc.
Context {K V : Type} (eqb : K -> K -> bool).

Fixpoint lookup_key (k : K) (l : list (K * V)) : option V :=
  match l with
  | [] => None
  | (k', v) :: r => if eqb k' k then Some v else lookup_key k r
  end.

(** [d[k] = v]: an existing key keeps its place, a new one goes last. *)
Fixpoint set_key (k : K) (v : V) (l : list (K * V)) : list (K * V) :=
  match l with
  | [] => [(k, v)]
  | (k', v') :: r =>
      if eqb k' k then (k', v) :: r else (k', v') :: set_key k v r
  end.

(** In-place update of the object stored under [k]. *)
Fixpoint alter_key (f : V -> V) (k : K) (l : list (K * V)) : list (K * V) :=
  match l with
  | [] => []
  | (k', v) :: r =>
      if eqb k' k then (k', f v) :: r else (k', v) :: alter_key f k r
  end.
End Assoc.

(** *** Equality of hashable values, as dict lookup decides it *)

Definition Z_of_bool (b : bool) : Z := if b then 1%Z else 0%Z.

(** What a hashable value is compared by.  Numbers compare by their exact
    value whatever their type ([True == 1 == 1.0]): a non-zero number is
    kept as an odd mantissa and a binary exponent. *)
Inductive dict_key :=
| KNone
| KStr (s : pystr)
| KNum (mantissa exponent : Z)
| KInf (negative : bool)
| KNan.

Fixpoint odd_part (m : positive) (e : Z) : positive * Z :=
  match m with
  | xO m' => odd_part m' (e + 1)
  | _ => (m, e)
  end.

Definition num_key (negative : bool) (m : positive) (e : Z) : dict_key :=
  let (m', e') := odd_part m e in
  KNum (if negative then Zneg m' else Zpos m') e'.

Definition int_key (n : Z) : dict_key :=
  match n with
  | Z0 => KNum 0 0
  | Zpos m => num_key false m 0
  | Zneg m => num_key true m 0
  end.

(** [None] for a dict or a list, which cannot be hashed.  The json module
    hands out one [NaN] object, which a dict finds again by identity. *)
Definition key_of (v : value) : option dict_key :=
  match v with
  | VNone => Some KNone
  | VBool b => Some (int_key (Z_of_bool b))
  | VInt n => Some (int_key n)
  | VFloat (S754_zero _) => Some (KNum 0 0)
  | VFloat (S754_finite s m e) => Some (num_key s m e)
  | VFloat (S754_infinity s) => Some (KInf s)
  | VFloat S754_nan => Some KNan
  | VStr s => Some (KStr s)
  | VRef _ => None
  end.

#[global] Instance dict_key_eq_dec : EqDecision dict_key.
Proof. solve_decision. Defined.

(** [a == b] where at least one side is a scalar. *)
Definition py_eqb (a b : value) : bool :=
  match key_of a, key_of b with
  | Some x, Some y => bool_decide (x = y)
  | _, _ => false
  end.

Definition hashable (v : value) : bool :=
  match v with
  | VRef _ => false
  | _ => true
  end.

(** *** Sets of tags, in the order the tags were added *)

Definition set_add (x : pystr) (s : list pystr) : list pystr :=
  if existsb (Str.eqb x) s then s else s ++ [x].

(** [s.pop()] *)
Definition set_pop `{Interpreter} (s : list pystr) : outcome pystr :=
  match nth_error s (set_pop_slot s mod length s) with
  | Some x => Return x
  | None => Raise (KeyError (VStr (str "pop from an empty set")))
  end.

(** *** Reading the heap *)

Abbreviation heap := (list object).

Definition as_dict (h : heap) (v : value) : option (list (pystr * value)) :=
  match v with
  | VRef l =>
      match h !! l with
      | Some (ODict d) => Some d
      | _ => None
      end
  | _ => None
  end.

(** [obj.get(key, {})] and [obj.get(key, [])].  The default is a fresh
    empty container that is only read afterwards; [None] stands for it,
    both as the receiver and as the result. *)
Definition get_or_empty (h : heap) (obj : option value) (key : pystr)
  : outcome (option value) :=
  match obj with
  | None => Return None
  | Some v =>
      match as_dict h v with
      | Some d => Return (lookup_key Str.eqb key d)
      | None => Raise (AttributeError "get")
      end
  end.

(** [obj.items()] *)
Definition items (h : heap) (obj : option value)
  : outcome (list (pystr * value)) :=
  match obj with
  | None => Return []
  | Some v =>
      match as_dict h v with
      | Some d => Return d
      | None => Raise (AttributeError "items")
      end
  end.

(** [obj[key]] for a [str] key. *)
Definition subscript_str (h : heap) (obj : option value) (key : pystr)
  : outcome value :=
  match obj with
  | None => Raise (KeyError (VStr key))
  | Some (VRef l) =>
      match h !! l with
      | Some (ODict d) =>
          match lookup_key Str.eqb key d with
          | Some x => Return x
          | None => Raise (KeyError (VStr key))
          end
      | _ => Raise (TypeError Subscript)
      end
  | Some _ => Raise (TypeError Subscript)
  end.

Definition index {A} (xs : list A) (i : Z) : option A :=
  let n := Z.of_nat (length xs) in
  if ((0 <=? i) && (i <? n))%Z then nth_error xs (Z.to_nat i)
  else if ((- n <=? i) && (i <? 0))%Z then nth_error xs (Z.to_nat (n + i))
  else None.

(** [obj[i]] for an [int] index. *)
Definition subscript_int (h : heap) (obj : value) (i : Z) : outcome value :=
  match obj with
  | VRef l =>
      match h !! l with
      | Some (ODict _) => Raise (KeyError (VInt i))
      | Some (OList xs) =>
          match index xs i with
          | Some x => Return x
          | None => Raise IndexError
          end
      | None => Raise (TypeError Subscript)
      end
  | VStr s =>
      match index s i with
      | Some c => Return (VStr [c])
      | None => Raise IndexError
      end
  | _ => Raise (TypeError Subscript)
  end.

(** The values [for x in obj] visits: the keys of a dict, the elements of
    a list, the characters of a [str]. *)
Definition iterate (h : heap) (obj : option value) : outcome (list value) :=
  match obj with
  | None => Return []
  | Some (VRef l) =>
      match h !! l with
      | Some (ODict d) => Return (List.map (fun kv => VStr (fst kv)) d)
      | Some (OList xs) => Return xs
      | None => Raise (TypeError Iter)
      end
  | Some (VStr s) => Return (List.map (fun c => VStr [c]) s)
  | Some _ => Raise (TypeError Iter)
  end.

(** *** Conversions *)

(** [int(v)] *)
Definition int `{Interpreter} (v : value) : outcome Z :=
  match v with
  | VInt n => Return n
  | VBool b => Return (Z_of_bool b)
  | VFloat (S754_zero _) => Return 0%Z
  | VFloat (S754_finite s m e) =>
      let mag := if (0 <=? e)%Z then (Zpos m * 2 ^ e)%Z
                 else Z.shiftr (Zpos m) (- e) in
      Return (if s then (- mag)%Z else mag)
  | VFloat (S754_infinity _) => Raise OverflowError
  | VFloat S754_nan => Raise (ValueError Int)
  | VStr s =>
      match int_of_str s with
      | Some n => Return n
      | None => Raise (ValueError Int)
      end
  | VNone | VRef _ => Raise (TypeError Int)
  end.

(** [b64decode(v)]: a [str] argument must be ASCII. *)
Definition b64decode (v : value) : outcome (list N) :=
  match v with
  | VStr s =>
      if forallb (fun c => (c <? 128)%N) s then
        match Base64.a2b_base64 s with
        | inr bs => Return bs
        | inl e => Raise (BinasciiError e)
        end
      else Raise (ValueError B64decode)
  | _ => Raise (TypeError B64decode)
  end.

(** [bs.decode("utf-8")] *)
Definition decode_utf8 (bs : list N) : outcome value :=
  match Utf8.decode bs with
  | Some s => Return (VStr s)
  | None => Raise UnicodeDecodeError
  end.

End Py.
Export Py.

(** ** The process: heap, standard output, and the monad of the methods *)

Module Run.

(** The inferred scheme: kind, then property, then a tag or [None]. *)
Definition scheme := list (value * list (pystr * option pystr)).

(** [{"key": {"kind": .., "id": ..}, "properties": ..}] *)
Record flat_entity := FlatEntity {
  key_kind : value;
  key_id : Z;
  properties : value
}.

(** What [print] wrote.  Serialisation is not modelled: an event carries
    the object printed and the heap it was printed from. *)
Inductive event :=
| PrintYaml (sch : scheme) (entities : list flat_entity) (h : heap)
| PrintRepr (data : value) (h : heap)
| PrintText (s : pystr).

Record state := State {
  objects : heap;
  stdout : list event
}.

(** A method runs from a state to a state and either returns or raises;
    what it wrote before raising stays written. *)
Definition M (A : Type) : Type := state -> state * outcome A.

Definition ret {A} (a : A) : M A := fun st => (st, Return a).

Definition raise {A} (e : exn) : M A := fun st => (st, Raise e).

Definition bind {A B} (m : M A) (k : A -> M B) : M B :=
  fun st =>
    match m st with
    | (st', Return a) => k a st'
    | (st', Raise e) => (st', Raise e)
    end.

Notation "'let*' x ':=' m 'in' k" := (bind m (fun x => k))
  (at level 10, x pattern, m at level 100, k at level 200).

(** An operation that only reads the heap. *)
Definition read {A} (f : heap -> outcome A) : M A :=
  fun st => (st, f (objects st)).

(** A new object, at the next free location. *)
Definition alloc (o : object) : M value :=
  fun st => (State (objects st ++ [o]) (stdout st),
             Return (VRef (length (objects st)))).

Definition print (e : heap -> event) : M unit :=
  fun st => (State (objects st) (stdout st ++ [e (objects st)]), Return tt).

(** [obj[key] = v] *)
Definition store_item (obj : value) (key : pystr) (v : value) : M unit :=
  fun st =>
    match obj with
    | VRef l =>
        match objects st !! l with
        | Some (ODict d) =>
            (State (<[l := ODict (set_key Str.eqb key v d)]> (objects st))
                   (stdout st), Return tt)
        | _ => (st, Raise (TypeError SetItem))
        end
    | _ => (st, Raise (TypeError SetItem))
    end.

(** A [for] loop whose body updates local variables [s]. *)
Fixpoint for_each {A S} (body : S -> A -> M S) (xs : list A) (s : S) : M S :=
  match xs with
  | [] => ret s
  | x :: xs' => let* s' := body s x in for_each body xs' s'
  end.

(** *** JSON documents and [response.json()] *)

#[warnings="-register-all"]
Inductive json :=
| JNull
| JBool (b : bool)
| JInt (n : Z)
| JFloat (f : spec_float)
| JStr (s : pystr)
| JArr (elems : list json)
| JObj (members : list (pystr * json)).

(** Parsing builds fresh objects; a repeated member name keeps its first
    place and its last value. *)
Fixpoint load (j : json) : M value :=
  match j with
  | JNull => ret VNone
  | JBool b => ret (VBool b)
  | JInt n => ret (VInt n)
  | JFloat f => ret (VFloat f)
  | JStr s => ret (VStr s)
  | JArr elems =>
      let* vs :=
        (fix load_all (js : list json) : M (list value) :=
           match js with
           | [] => ret []
           | j' :: js' =>
               let* v := load j' in
               let* vs := load_all js' in
               ret (v :: vs)
           end) elems in
      alloc (OList vs)
  | JObj members =>
      let* d :=
        (fix load_members (ms : list (pystr * json))
                          (d : list (pystr * value))
           : M (list (pystr * value)) :=
           match ms with
           | [] => ret d
           | (k, j') :: ms' =>
               let* v := load j' in
               load_members ms' (set_key Str.eqb k v d)
           end) members [] in
      alloc (ODict d)
  end.

(** A [requests.Response]: the status, the body as text, and the body as
    parsed JSON ([None] when the body is not a JSON document). *)
Record response := Response {
  status_code : Z;
  text : pystr;
  body : option json
}.

(** [response.json()] *)
Definition response_json (r : response) : M value :=
  match body r with
  | Some j => load j
  | None => raise JSONDecodeError
  end.

End Run.
Export Run.

(** ** class Datastore *)

Module Datastore.

Section Methods.
Context `{Interpreter}.

(** The sets of tags under construction: [scheme[kind][property]]. *)
Definition tag_sets := list (value * list (pystr * list pystr)).

(** [data.get("batch", {}).get("entityResults", [])], as iterated by
    [for _entity in ...]. *)
Definition entity_results (data : value) : M (list value) :=
  let* batch := read (fun h => get_or_empty h (Some data) (str "batch")) in
  let* results := read (fun h => get_or_empty h batch (str "entityResults")) in
  read (fun h => iterate h results).

(** [entity["key"]["path"][0]] *)
Definition key_segment (entity : option value) : M value :=
  let* key := read (fun h => subscript_str h entity (str "key")) in
  let* path := read (fun h => subscript_str h (Some key) (str "path")) in
  read (fun h => subscript_int h path 0).

(** [entity["key"]["path"][0]["kind"]] *)
Definition entity_kind (entity : option value) : M value :=
  let* segment := key_segment entity in
  read (fun h => subscript_str h (Some segment) (str "kind")).

(** The test of lines 89-92 on one key of [opt]. *)
Definition is_tag (value : pystr) : bool :=
  negb (Str.eqb (replace (str "Value") [] value) (str "null"))
  && negb (Str.eqb value (str "excludeFromIndexes")).

(** Lines 88-93: [for value in opt: ...]. *)
Definition scan_value (kind : value) (property : pystr)
    (scheme : tag_sets) (value : Py.value) : M tag_sets :=
  match value with
  | VStr value =>
      if is_tag value then
        ret (alter_key py_eqb
               (alter_key Str.eqb
                  (set_add (replace (str "Value") [] value)) property)
               kind scheme)
      else ret scheme
  | _ => raise (AttributeError "replace")
  end.

(** Lines 85-93: the body of [for property, opt in ...items()]. *)
Definition scan_property (kind : value) (scheme : tag_sets)
    (item : pystr * value) : M tag_sets :=
  let (property, opt) := item in
  let scheme :=
    match lookup_key py_eqb kind scheme with
    | Some props =>
        match lookup_key Str.eqb property props with
        | None => alter_key py_eqb (set_key Str.eqb property []) kind scheme
        | Some _ => scheme
        end
    | None => scheme
    end in
  let* values := read (fun h => iterate h (Some opt)) in
  for_each (scan_value kind property) values scheme.

(** Lines 77-93: the body of [for _entity in ...]. *)
Definition scan_entity (scheme : tag_sets) (_entity : value) : M tag_sets :=
  let* entity := read (fun h => get_or_empty h (Some _entity) (str "entity")) in
  let* kind := entity_kind entity in
  if hashable kind then
    let scheme :=
      match lookup_key py_eqb kind scheme with
      | None => set_key py_eqb kind [] scheme
      | Some _ => scheme
      end in
    let* props := read (fun h => get_or_empty h entity (str "properties")) in
    let* its := read (fun h => items h props) in
    for_each (scan_property kind) its scheme
  else raise (TypeError Hash).

(** Lines 96-100: one set becomes one of its tags, or [None]. *)
Definition collapse_property (done : list (pystr * option pystr))
    (item : pystr * list pystr) : M (list (pystr * option pystr)) :=
  let (property, values) := item in
  if (1 <=? length values)%nat then
    let* tag := read (fun _ => set_pop values) in
    ret (done ++ [(property, Some tag)])
  else ret (done ++ [(property, None)]).

(** Lines 95-100. *)
Definition collapse_kind (done : scheme)
    (item : value * list (pystr * list pystr)) : M scheme :=
  let (kind, props) := item in
  let* props' := for_each collapse_property props [] in
  ret (done ++ [(kind, props')]).

Definition generate_scheme (data : value) : M scheme :=
  let* results := entity_results data in
  let* sets := for_each scan_entity results [] in
  for_each collapse_kind sets [].

(** Lines 107-114: [for k, v in opt.items(): ...], leaving at the first
    key that contains "Value". *)
Fixpoint parse_items (properties : value) (property : pystr)
    (its : list (pystr * value)) : M unit :=
  match its with
  | [] => ret tt
  | (k, v) :: rest =>
      if contains (str "Value") k then
        if Str.eqb k (str "blobValue") then
          let* bs := read (fun _ => b64decode v) in
          let* s := read (fun _ => decode_utf8 bs) in
          store_item properties property s
        else store_item properties property v
      else parse_items properties property rest
  end.

(** Lines 105-114: the body of [for property, opt in properties.items()].
    The loop overwrites only the value of the key it is visiting, so the
    pairs it visits are those the dict held on entry. *)
Definition parse_property (properties : value) (_ : unit)
    (item : pystr * value) : M unit :=
  let (property, opt) := item in
  let* _ := store_item properties property VNone in
  let* its := read (fun h => items h (Some opt)) in
  parse_items properties property its.

Definition _parse_properties (properties : value) : M value :=
  let* its := read (fun h => items h (Some properties)) in
  let* _ := for_each (parse_property properties) its tt in
  ret properties.

(** Lines 129-141: the body of the loop of [format_response]. *)
Definition flatten_entity (entities : list flat_entity) (_entity : value)
  : M (list flat_entity) :=
  let* entity := read (fun h => get_or_empty h (Some _entity) (str "entity")) in
  let* kind := entity_kind entity in
  let* segment := key_segment entity in
  let* id_field := read (fun h => subscript_str h (Some segment) (str "id")) in
  let* id := read (fun _ => int id_field) in
  let* props := read (fun h => get_or_empty h entity (str "properties")) in
  let* props :=
    match props with
    | Some p => ret p
    | None => alloc (ODict [])
    end in
  let* props := _parse_properties props in
  ret (entities ++ [FlatEntity kind id props]).

Definition format_response (response : Run.response)
    (format style : value) : M unit :=
  if (status_code response =? 200)%Z then
    let* data := response_json response in
    let* scheme := generate_scheme data in
    let* entities :=
      if py_eqb style (VStr (str "scheme")) then
        let* results := entity_results data in
        for_each flatten_entity results []
      else ret [] in
    if py_eqb format (VStr (str "yaml")) then
      print (PrintYaml scheme entities)
    else if py_eqb format (VStr (str "json")) then
      print (PrintRepr data)
    else print (fun _ => PrintText (text response))
  else ret tt.

(** [response] is what [requests.post] returned for the query. *)
Definition get_scheme (response : Run.response) : M scheme :=
  if (status_code response =? 200)%Z then
    let* data := response_json response in
    generate_scheme data
  else
    raise (Exception [VStr (str "Error:"); VInt (status_code response);
                      VStr (text response)]).

(** [response] is what [requests.get(self.DATASTORE_HOST)] returned. *)
Definition test_connection (response : Run.response) : bool :=
  Str.eqb (strip (text response)) (str "Ok").

End Methods.

End Datastore.

(** ** An interpreter to run the model on examples *)

Module Example.

Definition digit (c : N) : option Z :=
  if ((48 <=? c) && (c <=? 57))%N then Some (Z.of_N (c - 48)) else None.

Fixpoint digits (acc : Z) (s : pystr) : option Z :=
  match s with
  | [] => Some acc
  | c :: s' =>
      match digit c with
      | Some d => digits (10 * acc + d) s'
      | None => None
      end
  end.

(** An optional sign, then one or more ASCII decimal digits. *)
Definition decimal (s : pystr) : option Z :=
  match s with
  | [] => None
  | c :: s' =>
      if (c =? 45)%N then
        match s' with [] => None | _ => option_map Z.opp (digits 0 s') end
      else if (c =? 43)%N then
        match s' with [] => None | _ => digits 0 s' end
      else digits 0 s
  end.

(** [set.pop()] takes the tag that was added first. *)
Definition interpreter : Interpreter :=
  {| set_pop_slot := fun _ => 0; int_of_str := decimal |}.

(** One entity of the given kind whose key carries [id_member]. *)
Definition entity_json (kind : string) (id_member : pystr * json)
    (props : list (pystr * json)) : json :=
  JObj [ (str "entity",
          JObj [ (str "key",
                  JObj [ (str "path",
                          JArr [ JObj [ (str "kind", JStr (str kind));
                                        id_member ] ]) ]);
                 (str "properties", JObj props) ]) ].

Definition batch_json (entities : list json) : json :=
  JObj [ (str "batch", JObj [ (str "entityResults", JArr entities) ]) ].

Definition ok_response (j : json) : response := Response 200 [] (Some j).

Definition empty_state : state := State [] [].

(** The state and the object [response.json()] gives for a document. *)
Definition loaded (j : json) : state * value :=
  match load j empty_state with
  | (st, Return v) => (st, v)
  | (st, Raise _) => (st, VNone)
  end.

Definition tagged (key : string) (payload : json) : json :=
  JObj [ (str key, payload) ].

(** One Task with a boolean, an unindexed blob, a null and a property that
    carries only a "meaning". *)
Definition task_json : json :=
  batch_json
    [ entity_json "Task" (str "id", JStr (str "42"))
        [ (str "done", tagged "booleanValue" (JBool true));
          (str "note", JObj [ (str "excludeFromIndexes", JBool true);
                              (str "blobValue", JStr (str "aGVsbG8=")) ]);
          (str "tag", tagged "nullValue" JNull);
          (str "m", tagged "meaning" (JInt 3)) ] ].

Definition task_state : state := Eval vm_compute in fst (loaded task_json).
Definition task_data : value := Eval vm_compute in snd (loaded task_json).

(** The properties of the Task, flattened. *)
Definition task_flattened : list (pystr * value) :=
  [ (str "done", VBool true); (str "note", VStr (str "hello"));
    (str "tag", VNone); (str "m", VNone) ].

Definition task_scheme : scheme :=
  [ (VStr (str "Task"),
     [ (str "done", Some (str "boolean"));
       (str "note", Some (str "blob"));
       (str "tag", None);
       (str "m", Some (str "meaning")) ]) ].

(** A Task whose key has a name and no id. *)
Definition named_json : json :=
  batch_json [ entity_json "Task" (str "name", JStr (str "sample")) [] ].

Definition named_state : state := Eval vm_compute in fst (loaded named_json).
Definition named_data : value := Eval vm_compute in snd (loaded named_json).

(** A Task whose property "p" carries only the key "null". *)
Definition null_key_json : json :=
  batch_json
    [ entity_json "Task" (str "id", JStr (str "1"))
        [ (str "p", tagged "null" (JInt 1)) ] ].

Definition null_key_state : state :=
  Eval vm_compute in fst (loaded null_key_json).
Definition null_key_data : value :=
  Eval vm_compute in snd (loaded null_key_json).

End Example.

(** ** Vocabulary of the statements *)

Module Spec.

(** All byte values, and all base64 digits. *)
Definition below (n : nat) : list N := List.map N.of_nat (seq 0 n).

(** A code point that strict UTF-8 can encode. *)
Definition scalar (c : N) : Prop :=
  (c < 55296 \/ 57343 < c < 1114112)%N.

(** The payload of [{"blobValue": ...}] for the text whose UTF-8 bytes are
    [bs]: [b64encode(bs).decode("ascii")]. *)
Definition blob_payload (bs : list N) : value := VStr (Base64.b64encode bs).

(** The checks the base64 lemmas run over all bytes and all digits. *)
Definition digit_ok (s : N) : bool :=
  match Base64.a2b (Base64.b2a s) with
  | Some s' => (s' =? s)%N
  | None => false
  end && negb (Base64.b2a s =? Base64.PAD)%N && (Base64.b2a s <? 128)%N.

Definition first_ok (a b : N) : bool :=
  let s0 := N.shiftr a 2 in
  let s1 := N.lor (N.shiftl (N.land a 3) 4) (N.shiftr b 4) in
  ((s0 <? 64) && (s1 <? 64)
   && (N.land (N.lor (N.shiftl s0 2) (N.shiftr s1 4)) 255 =? a)
   && (N.land s1 15 =? N.shiftr b 4))%N.

Definition second_ok (b c : N) : bool :=
  let s2 := N.lor (N.shiftl (N.land b 15) 2) (N.shiftr c 6) in
  let s3 := N.land c 63 in
  ((s2 <? 64) && (s3 <? 64)
   && (N.land (N.lor (N.shiftl (N.shiftr b 4) 4) (N.shiftr s2 2)) 255 =? b)
   && (N.land (N.lor (N.shiftl (N.land s2 3) 6) s3) 255 =? c))%N.

Definition and_then {A B} (o : outcome A) (k : A -> outcome B) : outcome B :=
  match o with
  | Return a => k a
  | Raise e => Raise e
  end.

(** *** What a batch shows of a (kind, property) pair *)

(** [entity["key"]["path"][0]] *)
Definition segment_in (h : heap) (entity : option value) : outcome value :=
  and_then (subscript_str h entity (str "key")) (fun key =>
  and_then (subscript_str h (Some key) (str "path")) (fun path =>
  subscript_int h path 0)).

Definition kind_in (h : heap) (entity : option value) : outcome value :=
  and_then (segment_in h entity) (fun segment =>
  subscript_str h (Some segment) (str "kind")).

(** The same, from an entity result. *)
Definition segment_of (h : heap) (_entity : value) : outcome value :=
  and_then (get_or_empty h (Some _entity) (str "entity")) (segment_in h).

Definition kind_of (h : heap) (_entity : value) : outcome value :=
  and_then (get_or_empty h (Some _entity) (str "entity")) (kind_in h).

Definition properties_of (h : heap) (_entity : value)
  : outcome (list (pystr * value)) :=
  and_then (get_or_empty h (Some _entity) (str "entity")) (fun entity =>
  and_then (get_or_empty h entity (str "properties")) (fun props =>
  items h props)).

(** The tags among the keys of one TaggedValue: every key but
    "excludeFromIndexes" and those that read "null" once "Value" is
    removed, with "Value" removed. *)
Definition value_tags (values : list value) : list pystr :=
  flat_map (fun v =>
    match v with
    | VStr s =>
        if Datastore.is_tag s then [replace (str "Value") [] s] else []
    | _ => []
    end) values.

Definition opt_tags (h : heap) (opt : value) : list pystr :=
  match iterate h (Some opt) with
  | Return values => value_tags values
  | Raise _ => []
  end.

Definition item_tags (h : heap) (property : pystr)
    (its : list (pystr * value)) : list pystr :=
  flat_map (fun it =>
    if Str.eqb (fst it) property then opt_tags h (snd it) else []) its.

Definition entity_tags (h : heap) (kind : value) (property : pystr)
    (_entity : value) : list pystr :=
  match kind_of h _entity, properties_of h _entity with
  | Return k, Return its =>
      if py_eqb k kind then item_tags h property its else []
  | _, _ => []
  end.

(** The observed tag set of [(kind, property)] over a batch. *)
Definition observed_tags (h : heap) (results : list value) (kind : value)
    (property : pystr) : list pystr :=
  flat_map (entity_tags h kind property) results.

(** [data.get("batch", {}).get("entityResults", [])], as iterated. *)
Definition results_of (h : heap) (data : value) : outcome (list value) :=
  and_then (get_or_empty h (Some data) (str "batch")) (fun batch =>
  and_then (get_or_empty h batch (str "entityResults")) (fun results =>
  iterate h results)).

(** [opt] is the TaggedValue of [property] on an entity of [kind]. *)
Definition sampled (h : heap) (results : list value) (kind : value)
    (property : pystr) (opt : value) : Prop :=
  exists _entity k its,
    In _entity results /\ kind_of h _entity = Return k /\
    py_eqb k kind = true /\ properties_of h _entity = Return its /\
    In (property, opt) its.

(** An entity result as the data model has it: its key path gives a
    hashable kind and each of its properties is a mapping. *)
Definition well_formed_entity (h : heap) (_entity : value) : Prop :=
  exists k its,
    kind_of h _entity = Return k /\ hashable k = true /\
    properties_of h _entity = Return its /\
    Forall (fun it => exists d, as_dict h (snd it) = Some d) its.

(** [s[kind][property]], for the sets under construction and for the
    scheme. *)
Definition at_pair {V} (s : list (value * list (pystr * V))) (kind : value)
    (property : pystr) : option V :=
  match lookup_key py_eqb kind s with
  | Some props => lookup_key Str.eqb property props
  | None => None
  end.

(** The sets [s] hold exactly the tags listed by [L], pair by pair. *)
Definition tracks (L : value -> pystr -> list pystr)
    (s : Datastore.tag_sets) : Prop :=
  (forall k p tags, at_pair s k p = Some tags ->
                    forall t, In t tags <-> In t (L k p)) /\
  (forall k p t, In t (L k p) -> at_pair s k p <> None).

(** Lines 97-100 on one set. *)
Definition collapsed `{Interpreter} (tags : list pystr) : option pystr :=
  if (1 <=? length tags)%nat then
    match set_pop tags with
    | Return t => Some t
    | Raise _ => None
    end
  else None.

(** A method that leaves the heap and the output as they were. *)
Definition reads_only {A} (m : M A) : Prop :=
  forall st, fst (m st) = st.

(** [entity.get("properties", {})] of an entity result ([None] for the
    fresh empty mapping). *)
Definition properties_ref (h : heap) (_entity : value)
  : outcome (option value) :=
  and_then (get_or_empty h (Some _entity) (str "entity")) (fun entity =>
  get_or_empty h entity (str "properties")).

(** *** What one TaggedValue decodes to *)

(** The typed key of a TaggedValue and its payload: the first key that
    contains "Value". *)
Fixpoint typed_key (its : list (pystr * value)) : option (pystr * value) :=
  match its with
  | [] => None
  | (k, v) :: rest =>
      if contains (str "Value") k then Some (k, v) else typed_key rest
  end.

Definition decode_items (its : list (pystr * value)) : outcome value :=
  match typed_key its with
  | None => Return VNone
  | Some (k, v) =>
      if Str.eqb k (str "blobValue")
      then and_then (b64decode v) decode_utf8
      else Return v
  end.

Definition decoded (h : heap) (opt : value) : outcome value :=
  and_then (items h (Some opt)) decode_items.

(** Each property of [d'] has the name and the place it has in [d], and
    the value its TaggedValue decodes to. *)
Definition decodes_to (h : heap) (d d' : list (pystr * value)) : Prop :=
  Forall2 (fun it it' =>
             fst it' = fst it /\ decoded h (snd it) = Return (snd it')) d d'.

(** No property of the mapping at [p] is that mapping itself (parsed JSON
    is a tree). *)
Definition no_self (p : loc) (d : list (pystr * value)) : Prop :=
  Forall (fun it => snd it <> VRef p) d.

(** *** Integer coercion of the identifier *)

(** The errors [int()] raises. *)
Definition conversion_error (e : exn) : Prop :=
  e = TypeError Int \/ e = ValueError Int \/ e = OverflowError.

Definition parseable `{Interpreter} (v : value) : Prop :=
  exists n, int v = Return n.

End Spec.
Export Spec.

(** ** [str.split], [str.join] and the fields of an f-string *)

Module Text.

(** [s.split(sep)] for a separator of one character: the pieces between
    the occurrences of [sep], empty pieces included. *)
Fixpoint split (sep : N) (s : pystr) : list pystr :=
  match s with
  | [] => [[]]
  | c :: s' =>
      if (c =? sep)%N then [] :: split sep s'
      else
        match split sep s' with
        | piece :: pieces => (c :: piece) :: pieces
        | [] => [[c]]
        end
  end.

(** [sep.join(pieces)] *)
Fixpoint join (sep : pystr) (pieces : list pystr) : pystr :=
  match pieces with
  | [] => []
  | piece :: rest =>
      match rest with
      | [] => piece
      | _ :: _ => piece ++ sep ++ join sep rest
      end
  end.

(** What the command line hands to a method: [None], a [str], or the
    [int] default of an option. *)
Inductive arg :=
| ANone
| AStr (s : pystr)
| AInt (n : Z).

(** [a == s] for a [str] literal [s]. *)
Definition arg_is (a : arg) (s : string) : bool :=
  match a with
  | AStr x => Str.eqb x (str s)
  | _ => false
  end.

(** [{a}] in an f-string. *)
Definition braces (a : arg) : pystr :=
  match a with
  | ANone => str "None"
  | AStr s => s
  | AInt n => str (NilEmpty.string_of_int (Z.to_int n))
  end.

End Text.

(** ** class Datastore: settings, requests, and the methods that send one *)

Module Client.
Import Text.

(** The five settings, as class attributes and as instance attributes. *)
Record attributes := Attributes {
  DATASTORE_DATASET : pystr;
  DATASTORE_HOST : pystr;
  DATASTORE_EMULATOR_HOST : pystr;
  DATASTORE_EMULATOR_HOST_PATH : pystr;
  DATASTORE_PROJECT_ID : pystr
}.

(** [os.getenv(name, default)] *)
Definition getenv (environ : list (pystr * pystr)) (name default : string)
  : pystr :=
  match lookup_key Str.eqb (str name) environ with
  | Some v => v
  | None => str default
  end.

(** Lines 32-38: the class attributes, read from the environment when the
    class is created. *)
Definition class_attributes (environ : list (pystr * pystr)) : attributes :=
  {| DATASTORE_DATASET := getenv environ "DATASTORE_DATASET" "test";
     DATASTORE_HOST := getenv environ "DATASTORE_HOST" "http://localhost:8081";
     DATASTORE_EMULATOR_HOST :=
       getenv environ "DATASTORE_EMULATOR_HOST" "localhost:8081";
     DATASTORE_EMULATOR_HOST_PATH :=
       getenv environ "DATASTORE_EMULATOR_HOST_PATH" "localhost:8081/datastore";
     DATASTORE_PROJECT_ID := getenv environ "DATASTORE_PROJECT_ID" "test" |}.

(** [a or b] for [a] a [str] or [None]: [None] and the empty [str] are
    false. *)
Definition or_else (a : option pystr) (b : pystr) : pystr :=
  match a with
  | Some (c :: s) => c :: s
  | Some [] | None => b
  end.

(** Lines 40-56; [cls] holds the class attributes. *)
Definition __init__ (cls : attributes)
    (dataset host emulator_host emulator_host_path project_id : option pystr)
  : attributes :=
  {| DATASTORE_DATASET := or_else dataset (DATASTORE_DATASET cls);
     DATASTORE_HOST := or_else host (DATASTORE_HOST cls);
     DATASTORE_EMULATOR_HOST :=
       or_else emulator_host (DATASTORE_EMULATOR_HOST cls);
     DATASTORE_EMULATOR_HOST_PATH :=
       or_else emulator_host_path (DATASTORE_EMULATOR_HOST_PATH cls);
     DATASTORE_PROJECT_ID := or_else project_id (DATASTORE_PROJECT_ID cls) |}.

(** Lines 216-224: a class method, it reads the class attributes. *)
Definition config (cls : attributes) : list (pystr * value) :=
  [ (str "DATASTORE_DATASET", VStr (DATASTORE_DATASET cls));
    (str "DATASTORE_HOST", VStr (DATASTORE_HOST cls));
    (str "DATASTORE_EMULATOR_HOST", VStr (DATASTORE_EMULATOR_HOST cls));
    (str "DATASTORE_EMULATOR_HOST_PATH",
     VStr (DATASTORE_EMULATOR_HOST_PATH cls));
    (str "DATASTORE_PROJECT_ID", VStr (DATASTORE_PROJECT_ID cls)) ].

(** *** Requests *)

Inductive verb := GET | POST.

(** [requests.get(url)] and [requests.post(url, json=payload)]. *)
Record request := Request {
  verb_of : verb;
  url : pystr;
  payload : option json
}.

(** A method fails with an exception of the process or because [requests]
    could not complete the exchange ([requests.RequestException]). *)
Inductive failure :=
| Python (e : exn)
| RequestException.

Inductive result (A : Type) :=
| Done (a : A)
| Failed (f : failure).
Arguments Done {A} a.
Arguments Failed {A} f.

(** The process with its surroundings: what is left to read on standard
    input and the requests issued so far. *)
Record world := World {
  process : state;
  stdin : pystr;
  sent : list request
}.

Definition C (A : Type) : Type := world -> world * result A.

Definition unit_ {A} (a : A) : C A := fun w => (w, Done a).

Definition then_ {A B} (m : C A) (k : A -> C B) : C B :=
  fun w =>
    match m w with
    | (w', Done a) => k a w'
    | (w', Failed f) => (w', Failed f)
    end.

Notation "'let+' x ':=' m 'in' k" := (then_ m (fun x => k))
  (at level 10, x pattern, m at level 100, k at level 200).

(** A method of the process, run inside the world. *)
Definition lift {A} (m : M A) : C A :=
  fun w =>
    match m (process w) with
    | (st, Return a) => (World st (stdin w) (sent w), Done a)
    | (st, Raise e) => (World st (stdin w) (sent w), Failed (Python e))
    end.

(** [sys.stdin.read()] *)
Definition read_stdin : C pystr :=
  fun w => (World (process w) [] (sent w), Done (stdin w)).

(** [{"gqlQuery": {"queryString": .., "allowLiterals": True}}] *)
Definition gql (queryString : pystr) : json :=
  JObj [ (str "gqlQuery",
          JObj [ (str "queryString", JStr queryString);
                 (str "allowLiterals", JBool true) ]) ].

(** [{"query": {"kind": [{"name": "__kind__"}]}}] *)
Definition kinds_query : json :=
  JObj [ (str "query",
          JObj [ (str "kind",
                  JArr [ JObj [ (str "name", JStr (str "__kind__")) ] ]) ]) ].

(** A keyword argument of [format_response], or its default. *)
Definition keyword (given : option value) (default : string) : value :=
  match given with
  | Some v => v
  | None => VStr (str default)
  end.

(** Lines 175-184.  [opts] is a dict that stays empty. *)
Definition _clean_query (text : arg)
  : outcome (pystr * list (pystr * value)) :=
  match text with
  | AStr text =>
      let lines :=
        fold_left
          (fun lines line =>
             if startswith (str "--") line then lines else lines ++ [line])
          (split 10 text) [] in
      Return (join [10%N] lines, [])
  | _ => Raise (AttributeError "split")
  end.

Section Transport.
Context `{Interpreter}.

(** The server: the response to a request, or [None] when the exchange
    does not complete. *)
Variable server : request -> option response.

Definition send (r : request) : C response :=
  fun w =>
    (World (process w) (stdin w) (sent w ++ [r]),
     match server r with
     | Some response => Done response
     | None => Failed RequestException
     end).

(** [requests.post(self.DATASTORE_HOST +
    f"/v1/projects/{self.DATASTORE_PROJECT_ID}:runQuery", json=body)] *)
Definition run_query (self : attributes) (body : json) : C response :=
  send (Request POST
          (DATASTORE_HOST self ++ str "/v1/projects/"
           ++ DATASTORE_PROJECT_ID self ++ str ":runQuery")
          (Some body)).

(** Lines 58-71. *)
Definition get_scheme (self : attributes) (kind : arg) : C scheme :=
  let+ response :=
    run_query self
      (gql (str "SELECT * FROM " ++ braces kind ++ str " LIMIT 100")) in
  lift (Datastore.get_scheme response).

(** Lines 151-161. *)
Definition get (self : attributes) (kind id : arg) : C unit :=
  let+ response :=
    run_query self
      (gql (str "SELECT * FROM " ++ braces kind
            ++ str " WHERE __key__ HAS ANCESTOR KEY(" ++ braces kind
            ++ str ", " ++ braces id ++ str ")")) in
  lift (Datastore.format_response response
          (keyword None "yaml") (keyword None "scheme")).

(** Lines 163-173: the method [list]. *)
Definition list_ (self : attributes) (kind limit : arg) : C unit :=
  let+ response :=
    run_query self
      (gql (str "SELECT * FROM " ++ braces kind ++ str " LIMIT "
            ++ braces limit)) in
  lift (Datastore.format_response response
          (keyword None "yaml") (keyword None "scheme")).

(** Lines 186-197; [format] and [style] are the keyword arguments. *)
Definition query (self : attributes) (text : arg)
    (format style : option value) : C unit :=
  let+ cleaned := lift (read (fun _ => _clean_query text)) in
  let (queryString, opts) := cleaned : pystr * list (pystr * value) in
  let+ response := run_query self (gql queryString) in
  lift (Datastore.format_response response
          (keyword format "yaml") (keyword style "scheme")).

(** Lines 199-211. *)
Definition getKinds (self : attributes) : C unit :=
  let+ response := run_query self kinds_query in
  lift (if (status_code response =? 200)%Z then
          let* data := response_json response in
          print (PrintRepr data)
        else ret tt).

(** Lines 213-214. *)
Definition test_connection (self : attributes) : C bool :=
  let+ response := send (Request GET (DATASTORE_HOST self) None) in
  unit_ (Datastore.test_connection response).

End Transport.

End Client.

(** ** The command line *)

Module Cli.
Import Text Client.

(** What [parse_args] returns.  The two optional positionals hold a [str]
    or [None]; [format] and [style] hold their default [str], or [True]
    when the flag is given; [limit] holds the [int] 100 or the [str]
    given. *)
Record namespace := Namespace {
  action : pystr;
  content : option pystr;
  subcontent : option pystr;
  datastore_dataset : pystr;
  datastore_host : pystr;
  datastore_emulator_host : pystr;
  datastore_emulator_host_path : pystr;
  datastore_project_id : pystr;
  limit : arg;
  format : value;
  style : value
}.

Section Main.
Context `{Interpreter}.
Variable server : request -> option response.
Variable environ : list (pystr * pystr).

(** An optional positional, as a method receives it. *)
Definition positional (given : option pystr) : arg :=
  match given with
  | Some s => AStr s
  | None => ANone
  end.

(** Lines 304-324, from the namespace on. *)
Definition main (args : namespace) : C unit :=
  let client :=
    __init__ (class_attributes environ) None None None None None in
  if Str.eqb (action args) (str "query") then
    if arg_is (positional (content args)) "-"
       || match content args with None => true | Some _ => false end
    then
      let+ text := read_stdin in
      query server client (AStr text)
        (Some (format args)) (Some (style args))
    else
      query server client (positional (content args))
        (Some (format args)) (Some (style args))
  else if Str.eqb (action args) (str "get") then
    let kind := positional (content args) in
    let id := positional (subcontent args) in
    if arg_is id "scheme" then
      let+ _ := get_scheme server client kind in
      unit_ tt
    else get server client kind id
  else if Str.eqb (action args) (str "list") then
    if arg_is (positional (content args)) "kinds" then
      getKinds server client
    else list_ server client (positional (content args)) (limit args)
  else unit_ tt.

End Main.

End Cli.

(** ** Integer literals: what [int()] reads in plain text *)

Module Literal.

(** [Py_ISSPACE]: the ASCII whitespace [int()] skips around a literal. *)
Definition space (c : N) : bool :=
  ((9 <=? c) && (c <=? 13) || (c =? 32))%N.

Definition digit (c : N) : option Z :=
  if ((48 <=? c) && (c <=? 57))%N then Some (Z.of_N (c - 48)) else None.

(** Decimal digits, with single underscores between digits; [after_digit]
    tells whether the character before was a digit. *)
Fixpoint digits (acc : Z) (after_digit : bool) (s : pystr) : option Z :=
  match s with
  | [] => if after_digit then Some acc else None
  | c :: s' =>
      if (c =? 95)%N then
        if after_digit then digits acc false s' else None
      else
        match digit c with
        | Some d => digits (10 * acc + d) true s'
        | None => None
        end
  end.

Fixpoint skip (s : pystr) : pystr :=
  match s with
  | c :: s' => if space c then skip s' else s
  | [] => []
  end.

(** The integer a text denotes in base 10: whitespace, an optional sign,
    digits, whitespace; [None] for any other text. *)
Definition int_literal (s : pystr) : option Z :=
  match rev (skip (rev (skip s))) with
  | [] => None
  | c :: body =>
      if (c =? 45)%N then option_map Z.opp (digits 0 false body)
      else if (c =? 43)%N then digits 0 false body
      else digits 0 false (c :: body)
  end.

(** Text for which the language fixes what [int()] does, whatever the
    interpreter: printable ASCII and ASCII whitespace, short enough for
    every limit on the number of digits (the least such limit is 640). *)
Definition plain (s : pystr) : bool :=
  forallb (fun c => ((9 <=? c) && (c <=? 13) || (32 <=? c) && (c <=? 126))%N)
          s
  && (length s <=? 640)%nat.

(** The integer value of a value, for those that have one: an [int], a
    [bool], a finite [float] (truncated towards zero), the text of an
    integer literal. *)
Definition integer_value (v : value) : option Z :=
  match v with
  | VInt n => Some n
  | VBool b => Some (Z_of_bool b)
  | VFloat (S754_zero _) => Some 0%Z
  | VFloat (S754_finite s m e) =>
      let mantissa := if s then Zneg m else Zpos m in
      Some (if (0 <=? e)%Z then (mantissa * 2 ^ e)%Z
            else Z.quot mantissa (2 ^ (- e)))
  | VFloat (S754_infinity _) | VFloat S754_nan => None
  | VStr s => int_literal s
  | VNone | VRef _ => None
  end.

(** The values whose integer value does not depend on the interpreter. *)
Definition specified (v : value) : Prop :=
  match v with
  | VStr s => plain s = true
  | _ => True
  end.

(** The interpreter reads plain text as the grammar has it. *)
Definition reads_literals `{Interpreter} : Prop :=
  forall s, plain s = true -> int_of_str s = int_literal s.

End Literal.

(** ** Vocabulary of the statements about whole runs *)

Module Runs.
Import Text Client Cli.

(** The event [format_response] prints for a [format]: the YAML document
    for "yaml", the parsed data for "json", the body of the response for
    anything else. *)
Definition printed_as (format : value) (response : Run.response)
    (ev : event) : Prop :=
  match ev with
  | PrintYaml _ _ _ => py_eqb format (VStr (str "yaml")) = true
  | PrintRepr _ _ =>
      py_eqb format (VStr (str "yaml")) = false /\
      py_eqb format (VStr (str "json")) = true
  | PrintText s =>
      py_eqb format (VStr (str "yaml")) = false /\
      py_eqb format (VStr (str "json")) = false /\
      s = text response
  end.

(** [flattened h results h' out]: from the heap [h], each entity result
    in turn has a key path with a kind and an id that [int()] accepts, and
    properties that all decode; [out] lists the flattened entities and [h']
    is the heap once every mapping of properties has been overwritten.  An
    entity result without properties gets a new empty mapping. *)
Inductive flattened `{Interpreter}
  : heap -> list value -> heap -> list flat_entity -> Prop :=
| flattened_nil (h : heap) : flattened h [] h []
| flattened_properties (h h' : heap) (_entity : value) (results : list value)
    (out : list flat_entity) (segment kind id_field : value) (n : Z)
    (p : loc) (d d' : list (pystr * value)) :
    segment_of h _entity = Return segment ->
    subscript_str h (Some segment) (str "kind") = Return kind ->
    subscript_str h (Some segment) (str "id") = Return id_field ->
    int id_field = Return n ->
    properties_ref h _entity = Return (Some (VRef p)) ->
    h !! p = Some (ODict d) ->
    NoDup (List.map fst d) -> no_self p d ->
    decodes_to h d d' ->
    flattened (<[p := ODict d']> h) results h' out ->
    flattened h (_entity :: results) h'
      (FlatEntity kind n (VRef p) :: out)
| flattened_bare (h h' : heap) (_entity : value) (results : list value)
    (out : list flat_entity) (segment kind id_field : value) (n : Z) :
    segment_of h _entity = Return segment ->
    subscript_str h (Some segment) (str "kind") = Return kind ->
    subscript_str h (Some segment) (str "id") = Return id_field ->
    int id_field = Return n ->
    properties_ref h _entity = Return None ->
    flattened (h ++ [ODict []]) results h' out ->
    flattened h (_entity :: results) h'
      (FlatEntity kind n (VRef (length h)) :: out).

(** The URL every query is posted to. *)
Definition endpoint (environ : list (pystr * pystr)) : pystr :=
  getenv environ "DATASTORE_HOST" "http://localhost:8081"
  ++ str "/v1/projects/" ++ getenv environ "DATASTORE_PROJECT_ID" "test"
  ++ str ":runQuery".

(** The actions for which [main] calls a method of the client. *)
Definition dispatched (args : namespace) : bool :=
  Str.eqb (action args) (str "query") || Str.eqb (action args) (str "get")
  || Str.eqb (action args) (str "list").

(** The text [main] hands to [query]: standard input when the content is
    "-" or absent. *)
Definition query_text (args : namespace) (w : world) : pystr :=
  match content args with
  | Some s => if Str.eqb s (str "-") then stdin w else s
  | None => stdin w
  end.

(** The fields of the namespace [main] reads for an action. *)
Definition same_command (a b : namespace) : Prop :=
  action a = action b /\ content a = content b /\
  subcontent a = subcontent b /\ limit a = limit b /\
  (action a = str "query" -> format a = format b /\ style a = style b).

(** [t] is a tag observed for the pair: a TaggedValue sampled for the pair
    has a key, other than "excludeFromIndexes", that reads [t] once every
    "Value" is removed from it, and [t] is not "null". *)
Definition observed (h : heap) (results : list value) (kind : value)
    (property t : pystr) : Prop :=
  exists opt keys key,
    sampled h results kind property opt /\
    iterate h (Some opt) = Return keys /\ In (VStr key) keys /\
    key <> str "excludeFromIndexes" /\
    t = replace (str "Value") [] key /\ t <> str "null".

End Runs.

(** ** Sessions to run the model on *)

Module Session.
Import Text Client Cli Example.

(** A query with a comment line before it. *)
Definition commented_query : pystr :=
  str "-- every task" ++ [10%N] ++ str "SELECT * FROM Task".

(** A response that is an empty object. *)
Definition empty_object_state : state :=
  Eval vm_compute in fst (loaded (JObj [])).
Definition empty_object_data : value :=
  Eval vm_compute in snd (loaded (JObj [])).

(** A batch whose one entity result is an empty object. *)
Definition keyless_json : json := batch_json [ JObj [] ].

Definition keyless_state : state :=
  Eval vm_compute in fst (loaded keyless_json).
Definition keyless_data : value :=
  Eval vm_compute in snd (loaded keyless_json).

(** One Task with a title, a photo whose bytes are not text (the one byte
    255, "/w==" in base64) and a size. *)
Definition photo_json : json :=
  batch_json
    [ entity_json "Task" (str "id", JStr (str "7"))
        [ (str "title", tagged "stringValue" (JStr (str "a")));
          (str "photo", tagged "blobValue" (JStr (str "/w==")));
          (str "size", tagged "integerValue" (JStr (str "3"))) ] ].

Definition photo_state : state := Eval vm_compute in fst (loaded photo_json).
Definition photo_data : value := Eval vm_compute in snd (loaded photo_json).

(** A server that answers every request with an error. *)
Definition failing (_ : request) : option response :=
  Some (Response 500 (str "boom") None).

(** A server that answers every request with the Task batch. *)
Definition serving (_ : request) : option response :=
  Some (ok_response task_json).

(** The namespace of a command line that gives no option. *)
Definition command (action : string) (content subcontent : option pystr)
  : namespace :=
  {| action := str action;
     content := content;
     subcontent := subcontent;
     datastore_dataset := str "test";
     datastore_host := str "http://localhost:8081";
     datastore_emulator_host := str "localhost:8081";
     datastore_emulator_host_path := str "localhost:8081/datastore";
     datastore_project_id := str "test";
     limit := AInt 100;
     format := VStr (str "yaml");
     style := VStr (str "scheme") |}.

(** The same with the flag [--format]. *)
Definition with_format_flag (args : namespace) : namespace :=
  {| action := action args;
     content := content args;
     subcontent := subcontent args;
     datastore_dataset := datastore_dataset args;
     datastore_host := datastore_host args;
     datastore_emulator_host := datastore_emulator_host args;
     datastore_emulator_host_path := datastore_emulator_host_path args;
     datastore_project_id := datastore_project_id args;
     limit := limit args;
     format := VBool true;
     style := style args |}.

(** The same with [--datastore-host] given. *)
Definition with_host (host : string) (args : namespace) : namespace :=
  {| action := action args;
     content := content args;
     subcontent := subcontent args;
     datastore_dataset := datastore_dataset args;
     datastore_host := str host;
     datastore_emulator_host := datastore_emulator_host args;
     datastore_emulator_host_path := datastore_emulator_host_path args;
     datastore_project_id := datastore_project_id args;
     limit := limit args;
     format := format args;
     style := style args |}.

(** An interpreter whose [int()] reads every text as an integer literal of
    plain text. *)
Definition reader : Interpreter :=
  {| set_pop_slot := fun _ => 0; int_of_str := Literal.int_literal |}.

(** A process that has done nothing yet, with [input] on standard input. *)
Definition fresh (input : pystr) : world := World empty_state input [].

End Session.



(** * Strings *)

Section StrFacts.

Lemma eqb_eq (a b : pystr) : Str.eqb a b = true <-> a = b.
Proof. unfold Str.eqb. apply bool_decide_eq_true. Qed.

Lemma eqb_neq (a b : pystr) : Str.eqb a b = false <-> a <> b.
Proof. unfold Str.eqb. apply bool_decide_eq_false. Qed.

Lemma eqb_refl (a : pystr) : Str.eqb a a = true.
Proof. by apply eqb_eq. Qed.

Lemma lstrip_split (s : pystr) :
  exists pre, s = pre ++ lstrip s /\ forallb isspace pre = true.
Proof.
  induction s as [|c s [pre [Hs Hpre]]]; [by exists []|].
  simpl. destruct (isspace c) eqn:Hc.
  - exists (c :: pre). simpl. rewrite Hc, Hpre. by rewrite <- Hs.
  - by exists [].
Qed.

Lemma lstrip_spaces (pre s : pystr) :
  forallb isspace pre = true -> lstrip (pre ++ s) = lstrip s.
Proof.
  induction pre as [|c pre IH]; [done|]. simpl.
  intros [Hc Hpre]%andb_true_iff. rewrite Hc. auto.
Qed.

Lemma forallb_rev {A} (f : A -> bool) (l : list A) :
  forallb f (rev l) = forallb f l.
Proof.
  induction l as [|x l IH]; [done|]. simpl.
  rewrite forallb_app, IH. simpl. rewrite andb_true_r. apply andb_comm.
Qed.

Lemma rstrip_split (s : pystr) :
  exists post, s = rstrip s ++ post /\ forallb isspace post = true.
Proof.
  unfold rstrip. destruct (lstrip_split (rev s)) as [pre [Hs Hpre]].
  exists (rev pre). split; [|by rewrite forallb_rev].
  rewrite <- rev_app_distr, <- Hs. by rewrite rev_involutive.
Qed.

End StrFacts.

(** * The health check *)

(** C8, as the code has it: [test_connection] reports healthy exactly when
    the response body is the text "Ok" with any run of whitespace before
    it and after it. *)
Theorem test_connection_iff_stripped_ok (r : response) :
  Datastore.test_connection r = true <->
  exists pre post,
    text r = pre ++ str "Ok" ++ post /\
    forallb isspace pre = true /\ forallb isspace post = true.
Proof.
  unfold Datastore.test_connection. rewrite eqb_eq. unfold strip. split.
  - intros Hok.
    destruct (lstrip_split (text r)) as [pre [Hs Hpre]].
    destruct (rstrip_split (lstrip (text r))) as [post [Hl Hpost]].
    exists pre, post. rewrite Hs at 1. rewrite Hl at 1. by rewrite Hok.
  - intros (pre & post & -> & Hpre & Hpost).
    rewrite lstrip_spaces by done.
    change (str "Ok" ++ post) with (79%N :: [107%N] ++ post).
    change (lstrip (79%N :: [107%N] ++ post)) with ([79; 107]%N ++ post).
    unfold rstrip.
    rewrite rev_app_distr, lstrip_spaces by by rewrite forallb_rev.
    reflexivity.
Qed.

(** C8 as written fails: the body "Ok" followed by a newline is reported
    healthy although it is not the exact text "Ok". *)
Lemma test_connection_not_exact :
  ~ (forall r : response,
       Datastore.test_connection r = true <-> text r = str "Ok").
Proof.
  intros Hall.
  pose proof (proj1 (Hall (Response 200 (str "Ok" ++ [10%N]) None))
                eq_refl) as Heq.
  discriminate Heq.
Qed.



(** * Base64 *)

Section Base64Facts.
Import Base64.
Local Open Scope N_scope.

Lemma below_forall (P : N -> bool) (n : nat) :
  forallb P (below n) = true -> forall i, i < N.of_nat n -> P i = true.
Proof.
  intros Hall i Hi. rewrite forallb_forall in Hall. apply Hall.
  unfold below. apply in_map_iff. exists (N.to_nat i).
  split; [apply N2Nat.id|]. apply in_seq. lia.
Qed.

Lemma below_forall2 (P : N -> N -> bool) (n m : nat) :
  forallb (fun i => forallb (P i) (below m)) (below n) = true ->
  forall i j, i < N.of_nat n -> j < N.of_nat m -> P i j = true.
Proof.
  intros Hall i j Hi Hj.
  apply (below_forall (P i) m); [|done].
  by apply (below_forall (fun i => forallb (P i) (below m)) n).
Qed.

Lemma b2a_digit (s : N) : s < 64 ->
  a2b (b2a s) = Some s /\ (b2a s =? PAD) = false /\ (b2a s <? 128) = true.
Proof.
  intros Hs.
  assert (digit_ok s = true) as Hok.
  { apply (below_forall digit_ok 64); [by vm_compute | done]. }
  unfold digit_ok in Hok.
  apply andb_true_iff in Hok as [[H1 H2]%andb_true_iff H3].
  destruct (a2b (b2a s)) as [s'|]; [|done].
  apply N.eqb_eq in H1 as ->. apply negb_true_iff in H2. done.
Qed.

(** One step of the decoding loop on a digit of the alphabet. *)
Lemma a2b_loop_digit (q l p s : N) (rest : list N) : s < 64 ->
  a2b_loop q l p (b2a s :: rest) =
  if q =? 0 then a2b_loop 1 s 0 rest
  else if q =? 1 then
    emit (N.lor (N.shiftl l 2) (N.shiftr s 4))
         (a2b_loop 2 (N.land s 15) 0 rest)
  else if q =? 2 then
    emit (N.lor (N.shiftl l 4) (N.shiftr s 2))
         (a2b_loop 3 (N.land s 3) 0 rest)
  else emit (N.lor (N.shiftl l 6) s) (a2b_loop 0 0 0 rest).
Proof.
  intros Hs. destruct (b2a_digit s Hs) as (Ha & Hp & _).
  cbn [a2b_loop]. by rewrite Hp, Ha.
Qed.

Lemma first_sextets (a b : N) : a < 256 -> b < 256 ->
  let s0 := N.shiftr a 2 in
  let s1 := N.lor (N.shiftl (N.land a 3) 4) (N.shiftr b 4) in
  s0 < 64 /\ s1 < 64 /\
  N.land (N.lor (N.shiftl s0 2) (N.shiftr s1 4)) 255 = a /\
  N.land s1 15 = N.shiftr b 4.
Proof.
  intros Ha Hb.
  assert (first_ok a b = true) as Hok.
  { apply (below_forall2 first_ok 256 256); [by vm_compute | done..]. }
  unfold first_ok in Hok.
  repeat (apply andb_true_iff in Hok as [Hok ?]).
  repeat split; try (by apply N.ltb_lt); by apply N.eqb_eq.
Qed.

Lemma second_sextets (b c : N) : b < 256 -> c < 256 ->
  let s2 := N.lor (N.shiftl (N.land b 15) 2) (N.shiftr c 6) in
  let s3 := N.land c 63 in
  s2 < 64 /\ s3 < 64 /\
  N.land (N.lor (N.shiftl (N.shiftr b 4) 4) (N.shiftr s2 2)) 255 = b /\
  N.land (N.lor (N.shiftl (N.land s2 3) 6) s3) 255 = c.
Proof.
  intros Hb Hc.
  assert (second_ok b c = true) as Hok.
  { apply (below_forall2 second_ok 256 256); [by vm_compute | done..]. }
  unfold second_ok in Hok.
  repeat (apply andb_true_iff in Hok as [Hok ?]).
  repeat split; try (by apply N.ltb_lt); by apply N.eqb_eq.
Qed.

Lemma a2b_loop_pad2 (l : N) : a2b_loop 2 l 0 [PAD; PAD] = inr [].
Proof. reflexivity. Qed.

Lemma a2b_loop_pad1 (l : N) : a2b_loop 3 l 0 [PAD] = inr [].
Proof. reflexivity. Qed.

Lemma list_ind3 {A} (P : list A -> Prop) :
  P [] -> (forall a, P [a]) -> (forall a b, P [a; b]) ->
  (forall a b c r, P r -> P (a :: b :: c :: r)) ->
  forall l, P l.
Proof.
  intros H0 H1 H2 H3.
  fix IH 1.
  intros [|a [|b [|c r]]]; [apply H0 | apply H1 | apply H2 | apply H3, IH].
Qed.

(** Decoding undoes encoding, whatever the bytes. *)
Lemma a2b_base64_b64encode (data : list N) :
  Forall (fun b => b < 256) data ->
  a2b_base64 (b64encode data) = inr data.
Proof.
  unfold a2b_base64.
  induction data as [|a|a b|a b c r IH] using list_ind3; intros Hall.
  - reflexivity.
  - apply Forall_cons in Hall as [Ha _].
    destruct (first_sextets a 0 Ha ltac:(lia)) as (H0 & H1 & Hbyte & _).
    cbn [b64encode]. cbn zeta in *.
    change (N.shiftr 0 4) with 0 in *. rewrite N.lor_0_r in *.
    rewrite !a2b_loop_digit by done. cbn [N.eqb Pos.eqb].
    rewrite a2b_loop_pad2. cbn [emit]. by rewrite Hbyte.
  - apply Forall_cons in Hall as [Ha [Hb _]%Forall_cons].
    destruct (first_sextets a b Ha Hb) as (H0 & H1 & Hbyte1 & Hleft).
    destruct (second_sextets b 0 Hb ltac:(lia)) as (H2 & _ & Hbyte2 & _).
    cbn [b64encode]. cbn zeta in *.
    change (N.shiftr 0 6) with 0 in *. rewrite N.lor_0_r in *.
    rewrite !a2b_loop_digit by done. cbn [N.eqb Pos.eqb].
    rewrite Hleft, a2b_loop_pad1. cbn [emit].
    by rewrite Hbyte1, Hbyte2.
  - apply Forall_cons in Hall as [Ha [Hb [Hc Hr]%Forall_cons]%Forall_cons].
    destruct (first_sextets a b Ha Hb) as (H0 & H1 & Hbyte1 & Hleft).
    destruct (second_sextets b c Hb Hc) as (H2 & H3 & Hbyte2 & Hbyte3).
    cbn [b64encode]. cbn zeta in *.
    rewrite !a2b_loop_digit by done. cbn [N.eqb Pos.eqb].
    rewrite Hleft, (IH Hr). cbn [emit].
    by rewrite Hbyte1, Hbyte2, Hbyte3.
Qed.

(** The encoding is ASCII text. *)
Lemma b64encode_ascii (data : list N) :
  Forall (fun b => b < 256) data ->
  forallb (fun c => c <? 128) (b64encode data) = true.
Proof.
  induction data as [|a|a b|a b c r IH] using list_ind3; intros Hall.
  - reflexivity.
  - apply Forall_cons in Hall as [Ha _].
    destruct (first_sextets a 0 Ha ltac:(lia)) as (H0 & H1 & _).
    cbn zeta in *. change (N.shiftr 0 4) with 0 in *.
    rewrite N.lor_0_r in *. cbn [b64encode forallb].
    destruct (b2a_digit _ H0) as (_ & _ & ->).
    by destruct (b2a_digit _ H1) as (_ & _ & ->).
  - apply Forall_cons in Hall as [Ha [Hb _]%Forall_cons].
    destruct (first_sextets a b Ha Hb) as (H0 & H1 & _).
    destruct (second_sextets b 0 Hb ltac:(lia)) as (H2 & _).
    cbn zeta in *. change (N.shiftr 0 6) with 0 in *.
    rewrite N.lor_0_r in *. cbn [b64encode forallb].
    destruct (b2a_digit _ H0) as (_ & _ & ->).
    destruct (b2a_digit _ H1) as (_ & _ & ->).
    by destruct (b2a_digit _ H2) as (_ & _ & ->).
  - apply Forall_cons in Hall as [Ha [Hb [Hc Hr]%Forall_cons]%Forall_cons].
    destruct (first_sextets a b Ha Hb) as (H0 & H1 & _).
    destruct (second_sextets b c Hb Hc) as (H2 & H3 & _).
    cbn zeta in *. cbn [b64encode forallb].
    destruct (b2a_digit _ H0) as (_ & _ & ->).
    destruct (b2a_digit _ H1) as (_ & _ & ->).
    destruct (b2a_digit _ H2) as (_ & _ & ->).
    destruct (b2a_digit _ H3) as (_ & _ & ->).
    by rewrite (IH Hr).
Qed.

End Base64Facts.



(** * UTF-8 *)

Section Utf8Facts.
Import Utf8.
Local Open Scope N_scope.

(** Bit fields that do not overlap add up. *)
Lemma lor_add (a b k : N) : b < 2 ^ k -> N.lor (a * 2 ^ k) b = a * 2 ^ k + b.
Proof.
  intros Hb.
  assert (N.land (a * 2 ^ k) b = 0) as Hdisj.
  { apply N.bits_inj. intros i. rewrite N.land_spec, N.bits_0.
    destruct (N.lt_ge_cases i k).
    - rewrite N.mul_pow2_bits_low by assumption. reflexivity.
    - assert (N.testbit b i = false) as ->; [|apply andb_false_r].
      destruct (N.eq_dec b 0) as [->|]; [apply N.bits_0|].
      apply N.bits_above_log2. apply N.log2_lt_pow2; [lia|].
      eapply N.lt_le_trans; [apply Hb|]. apply N.pow_le_mono_r; lia. }
  rewrite <- N.lxor_lor by assumption. symmetry.
  by apply N.add_nocarry_lxor.
Qed.

Ltac arith := zify; Z.to_euclidean_division_equations; lia.

Ltac compare_all :=
  repeat match goal with
  | |- context [N.ltb ?a ?b] =>
      destruct (N.ltb_spec a b); try (exfalso; arith)
  | |- context [N.leb ?a ?b] =>
      destruct (N.leb_spec a b); try (exfalso; arith)
  | |- context [N.eqb ?a ?b] =>
      destruct (N.eqb_spec a b); try (exfalso; arith)
  end.

(** Shifts and masks as division and remainder. *)
Ltac to_arith :=
  change 63 with (N.ones 6) in *; change 31 with (N.ones 5) in *;
  change 15 with (N.ones 4) in *; change 7 with (N.ones 3) in *;
  rewrite ?N.land_ones, ?N.shiftr_div_pow2, ?N.shiftl_mul_pow2 in *;
  change (2 ^ 3) with 8 in *; change (2 ^ 4) with 16 in *;
  change (2 ^ 5) with 32 in *; change (2 ^ 6) with 64 in *;
  change (2 ^ 12) with 4096 in *; change (2 ^ 18) with 262144 in *.

Lemma lead2 (x : N) : x < 32 -> N.lor 192 x = 192 + x.
Proof. intros. apply (lor_add 6 x 5). done. Qed.

Lemma lead3 (x : N) : x < 16 -> N.lor 224 x = 224 + x.
Proof. intros. apply (lor_add 14 x 4). done. Qed.

Lemma lead4 (x : N) : x < 8 -> N.lor 240 x = 240 + x.
Proof. intros. apply (lor_add 30 x 3). done. Qed.

Lemma cont (x : N) : x < 64 -> N.lor 128 x = 128 + x.
Proof. intros. apply (lor_add 2 x 6). done. Qed.

Lemma join6 (hi lo : N) : lo < 64 -> N.lor (hi * 64) lo = hi * 64 + lo.
Proof. intros. apply (lor_add hi lo 6). done. Qed.

Lemma join12 (hi lo : N) :
  lo < 4096 -> N.lor (hi * 4096) lo = hi * 4096 + lo.
Proof. intros. apply (lor_add hi lo 12). done. Qed.

Lemma join18 (hi lo : N) :
  lo < 262144 -> N.lor (hi * 262144) lo = hi * 262144 + lo.
Proof. intros. apply (lor_add hi lo 18). done. Qed.

Lemma decode_encode_cp (c : N) (bs rest : list N) :
  encode_cp c = Some bs ->
  decode (bs ++ rest) = cons_cp c (decode rest) /\
  Forall (fun b => b < 256) bs.
Proof.
  unfold encode_cp.
  destruct (N.ltb_spec c 128) as [H1|H1].
  { intros [= <-]. split; [|repeat constructor; lia].
    cbn [app decode]. by apply N.ltb_lt in H1 as ->. }
  destruct (N.ltb_spec c 2048) as [H2|H2].
  { intros [= <-]. to_arith.
    rewrite lead2, cont by arith.
    split; [|repeat constructor; arith].
    cbn [app decode]. unfold is_cont. compare_all. cbn [andb negb].
    f_equal. to_arith. rewrite join6 by arith. arith. }
  destruct (N.ltb_spec c 65536) as [H3|H3].
  { destruct (N.leb_spec 55296 c) as [H4|H4];
      [destruct (N.leb_spec c 57343) as [H5|H5]|]; cbn [andb];
      [done| |];
      (intros [= <-]; to_arith;
       rewrite lead3, !cont by arith;
       split; [|repeat constructor; arith];
       cbn [app decode]; unfold is_cont; compare_all; cbn [andb negb];
       f_equal; to_arith;
       rewrite (join6 _ ((128 + c mod 64) mod 64)) by arith;
       rewrite join12 by arith; arith). }
  destruct (N.ltb_spec c 1114112) as [H4|H4]; [|done].
  intros [= <-]. to_arith.
  rewrite lead4, !cont by arith.
  split; [|repeat constructor; arith].
  cbn [app decode]. unfold is_cont. compare_all; cbn [andb negb];
    f_equal; to_arith;
    rewrite (join6 _ ((128 + c mod 64) mod 64)) by arith;
    rewrite (join12 _ (_ + _)) by arith;
    rewrite join18 by arith; arith.
Qed.

(** Strict decoding undoes strict encoding. *)
Lemma decode_encode (s : pystr) (bs : list N) :
  encode s = Some bs ->
  decode bs = Some s /\ Forall (fun b => b < 256) bs.
Proof.
  revert bs. induction s as [|c s IH]; intros bs.
  - by intros [= <-].
  - cbn [encode].
    destruct (encode_cp c) as [cb|] eqn:Hc; [|done].
    destruct (encode s) as [sb|] eqn:Hs; [|done].
    intros [= <-].
    destruct (decode_encode_cp c cb sb Hc) as [Hd Hb].
    destruct (IH sb eq_refl) as [Hds Hbs].
    split; [|by apply Forall_app]. by rewrite Hd, Hds.
Qed.

(** Every text of Unicode scalar values has a UTF-8 encoding. *)
Lemma encode_scalars (s : pystr) :
  Forall scalar s -> exists bs, encode s = Some bs.
Proof.
  induction s as [|c s IH]; [by exists []|].
  intros [Hc [sb Hs]%IH]%Forall_cons. cbn [encode]. rewrite Hs.
  assert (exists cb, encode_cp c = Some cb) as [cb ->]; [|by eexists].
  unfold encode_cp, scalar in *.
  repeat match goal with
  | |- context [N.ltb ?a ?b] => destruct (N.ltb_spec a b)
  | |- context [N.leb ?a ?b] => destruct (N.leb_spec a b)
  end; cbn [andb]; try by eexists.
  all: exfalso; lia.
Qed.

End Utf8Facts.



(** * Association lists *)

Section AssocFacts.
Context {V : Type}.
Implicit Types (d : list (pystr * V)) (k : pystr).

Lemma set_key_keys k v d :
  In k (List.map fst d) ->
  List.map fst (set_key Str.eqb k v d) = List.map fst d.
Proof.
  induction d as [|[k' v'] d IH]; [done|]. cbn [set_key List.map fst].
  intros [->|Hin].
  - by rewrite eqb_refl.
  - destruct (Str.eqb k' k); [done|]. cbn [List.map fst]. by rewrite IH.
Qed.

Lemma set_key_twice k v w d :
  set_key Str.eqb k v (set_key Str.eqb k w d) = set_key Str.eqb k v d.
Proof.
  induction d as [|[k' v'] d IH]; cbn [set_key].
  - by rewrite eqb_refl.
  - destruct (Str.eqb k' k) eqn:Hk; cbn [set_key]; rewrite Hk; [done|].
    by rewrite IH.
Qed.

Lemma set_key_middle k v w (d1 d2 : list (pystr * V)) :
  ~ In k (List.map fst d1) ->
  set_key Str.eqb k v (d1 ++ (k, w) :: d2) = d1 ++ (k, v) :: d2.
Proof.
  induction d1 as [|[k' v'] d1 IH]; cbn [app set_key List.map fst In].
  - by rewrite eqb_refl.
  - intros Hnot. destruct (Str.eqb k' k) eqn:Hk.
    + apply eqb_eq in Hk. tauto.
    + rewrite IH; [done|tauto].
Qed.

End AssocFacts.

(** * The flattener *)

Section Flattener.
Context `{Interpreter}.
Import Datastore.

Lemma bind_run {A B} (m : M A) (k : A -> M B) (st : state) :
  bind m k st =
  match m st with
  | (st', Return a) => k a st'
  | (st', Raise e) => (st', Raise e)
  end.
Proof. reflexivity. Qed.

Lemma store_item_dict (p : loc) (d : list (pystr * value)) (k : pystr)
    (v : value) (st : state) :
  objects st !! p = Some (ODict d) ->
  store_item (VRef p) k v st =
  (State (<[p := ODict (set_key Str.eqb k v d)]> (objects st)) (stdout st),
   Return tt).
Proof. intros Hp. unfold store_item. by rewrite Hp. Qed.

(** The inner loop stores what the typed key decodes to, and nothing
    when there is no typed key. *)
Lemma parse_items_run (p : loc) (d : list (pystr * value))
    (property : pystr) (its : list (pystr * value)) (st : state) :
  objects st !! p = Some (ODict d) ->
  parse_items (VRef p) property its st =
  match typed_key its with
  | None => (st, Return tt)
  | Some _ =>
      match decode_items its with
      | Return x =>
          (State (<[p := ODict (set_key Str.eqb property x d)]> (objects st))
                 (stdout st), Return tt)
      | Raise e => (st, Raise e)
      end
  end.
Proof.
  intros Hp. unfold decode_items.
  induction its as [|[k v] its IH]; [done|].
  cbn [parse_items typed_key].
  destruct (contains (str "Value") k); [|apply IH].
  destruct (Str.eqb k (str "blobValue")).
  - rewrite !bind_run. unfold read, and_then.
    destruct (b64decode v) as [bs|e]; [|done].
    destruct (decode_utf8 bs) as [x|e]; [|done].
    by apply store_item_dict.
  - by apply store_item_dict.
Qed.

Lemma decode_items_no_key (its : list (pystr * value)) :
  typed_key its = None -> decode_items its = Return VNone.
Proof. unfold decode_items. by intros ->. Qed.

Lemma as_dict_insert (h : heap) (p : loc) (o : object) (v : value) :
  v <> VRef p -> as_dict (<[p := o]> h) v = as_dict h v.
Proof.
  intros Hv. destruct v as [| | | | |l]; try done.
  unfold as_dict. rewrite list_lookup_insert_ne; [done|congruence].
Qed.

(** Lines 105-114 for one property whose value is not the mapping
    itself: the property becomes what its TaggedValue decodes to; when the
    decoding raises, it is left as [None]. *)
Lemma parse_property_run (p : loc) (d : list (pystr * value))
    (property : pystr) (opt : value) (st : state) :
  objects st !! p = Some (ODict d) ->
  opt <> VRef p ->
  parse_property (VRef p) tt (property, opt) st =
  match decoded (objects st) opt with
  | Return v =>
      (State (<[p := ODict (set_key Str.eqb property v d)]> (objects st))
             (stdout st), Return tt)
  | Raise e =>
      (State (<[p := ODict (set_key Str.eqb property VNone d)]> (objects st))
             (stdout st), Raise e)
  end.
Proof.
  intros Hp Hopt. unfold parse_property.
  rewrite bind_run, (store_item_dict p d) by done.
  rewrite bind_run. unfold read. cbn [objects stdout].
  unfold decoded, and_then, items. rewrite as_dict_insert by done.
  destruct (as_dict (objects st) opt) as [its|]; [|done].
  assert (p < length (objects st)) as Hlen by by eapply lookup_lt_Some.
  rewrite (parse_items_run p (set_key Str.eqb property VNone d));
    [|by apply list_lookup_insert_eq].
  cbn [objects stdout].
  destruct (typed_key its) eqn:Hkey.
  - destruct (decode_items its); [|done].
    by rewrite list_insert_insert_eq, set_key_twice.
  - by rewrite decode_items_no_key.
Qed.

(** The loop of [_parse_properties], from the point where [done] has been
    flattened and [todo] has not. *)
Lemma parse_loop_returns (p : loc) (todo todo' done : list (pystr * value))
    (h : heap) (st : state) :
  (forall l, l <> p -> objects st !! l = h !! l) ->
  length (objects st) = length h ->
  objects st !! p = Some (ODict (done ++ todo)) ->
  NoDup (List.map fst (done ++ todo)) ->
  Forall (fun it => snd it <> VRef p) todo ->
  Forall2 (fun it it' =>
             fst it' = fst it /\ decoded h (snd it) = Return (snd it'))
          todo todo' ->
  for_each (parse_property (VRef p)) todo tt st =
  (State (<[p := ODict (done ++ todo')]> (objects st)) (stdout st),
   Return tt).
Proof.
  intros Hframe Hlen Hp Hnodup Hself Hdec.
  revert done st Hframe Hlen Hp Hnodup.
  induction Hdec as [|[k opt] [k' v] todo todo' [Hk Hv] Hdec IH];
    intros done st Hframe Hlen Hp Hnodup.
  - cbn [for_each]. unfold ret. rewrite list_insert_id; [|done].
    by destruct st.
  - cbn [fst snd] in Hk, Hv. subst k'.
    apply Forall_cons in Hself as [Hopt Hself]. cbn [snd] in Hopt.
    cbn [for_each]. rewrite bind_run.
    rewrite (parse_property_run p (done ++ (k, opt) :: todo)) by done.
    assert (decoded (objects st) opt = decoded h opt) as ->.
    { unfold decoded, items, as_dict. destruct opt as [| | | | |l]; try done.
      rewrite Hframe; [done|congruence]. }
    rewrite Hv.
    assert (~ In k (List.map fst done)) as Hfresh.
    { rewrite List.map_app in Hnodup. cbn [List.map fst] in Hnodup.
      apply NoDup_app in Hnodup as (_ & Hdisj & _).
      intros Hin%list_elem_of_In. apply (Hdisj k Hin). left. }
    rewrite set_key_middle by done.
    assert (p < length (objects st)) as Hlt by by eapply lookup_lt_Some.
    specialize (IH Hself (done ++ [(k, v)])).
    rewrite <- !app_assoc in IH. cbn [app] in IH.
    rewrite IH; cbn [objects stdout].
    + by rewrite list_insert_insert_eq.
    + intros l Hl. rewrite list_lookup_insert_ne by done. by apply Hframe.
    + by rewrite length_insert.
    + by apply list_lookup_insert_eq.
    + rewrite List.map_app in *. done.
Qed.

(** Whatever happens, the loop touches no other object and keeps the names
    of the mapping and their order. *)
Lemma parse_property_frame (p : loc) (d : list (pystr * value))
    (property : pystr) (opt : value) (st st' : state) (out : outcome unit) :
  objects st !! p = Some (ODict d) ->
  In property (List.map fst d) ->
  parse_property (VRef p) tt (property, opt) st = (st', out) ->
  stdout st' = stdout st /\
  exists d', objects st' = <[p := ODict d']> (objects st) /\
             List.map fst d' = List.map fst d.
Proof.
  intros Hp Hin. unfold parse_property.
  rewrite bind_run, (store_item_dict p d) by done.
  rewrite bind_run. unfold read. cbn [objects stdout].
  assert (p < length (objects st)) as Hlen by by eapply lookup_lt_Some.
  set (d1 := set_key Str.eqb property VNone d).
  assert (List.map fst d1 = List.map fst d) as Hd1 by by apply set_key_keys.
  destruct (items _ (Some opt)) as [its|e].
  - rewrite (parse_items_run p d1) by by apply list_lookup_insert_eq.
    cbn [objects stdout].
    destruct (typed_key its); [destruct (decode_items its)|];
      intros [= <- <-]; (split; [done|]).
    + exists (set_key Str.eqb property a d1).
      rewrite list_insert_insert_eq. split; [done|].
      rewrite set_key_keys; [done|]. by rewrite Hd1.
    + by exists d1.
    + by exists d1.
  - intros [= <- <-]. split; [done|]. by exists d1.
Qed.

Lemma parse_loop_frame (p : loc) (d todo : list (pystr * value))
    (st st' : state) (out : outcome unit) :
  objects st !! p = Some (ODict d) ->
  Forall (fun it => In (fst it) (List.map fst d)) todo ->
  for_each (parse_property (VRef p)) todo tt st = (st', out) ->
  stdout st' = stdout st /\
  exists d', objects st' = <[p := ODict d']> (objects st) /\
             List.map fst d' = List.map fst d.
Proof.
  intros Hp Hall. revert d st Hp Hall.
  induction todo as [|[k opt] todo IH]; intros d st Hp Hall.
  - cbn [for_each]. intros [= <- <-]. split; [done|].
    exists d. by rewrite list_insert_id.
  - apply Forall_cons in Hall as [Hk Hall]. cbn [fst] in Hk.
    cbn [for_each]. rewrite bind_run.
    destruct (parse_property (VRef p) tt (k, opt) st) as [st1 out1] eqn:Hstep.
    destruct (parse_property_frame p d k opt st st1 out1 Hp Hk Hstep)
      as (Hout & d1 & Hobj & Hkeys).
    assert (p < length (objects st)) as Hlen by by eapply lookup_lt_Some.
    destruct out1 as [[]|e].
    + intros Hrest. apply (IH d1) in Hrest as (Hout' & d' & Hobj' & Hkeys').
      * split; [congruence|]. exists d'.
        rewrite Hobj', Hobj, list_insert_insert_eq. split; congruence.
      * rewrite Hobj. by apply list_lookup_insert_eq.
      * by rewrite Hkeys.
    + intros [= <- <-]. split; [done|]. by exists d1.
Qed.

(** [_parse_properties] on a mapping each of whose properties decodes. *)
Lemma parse_properties_returns (p : loc) (d d' : list (pystr * value))
    (st : state) :
  objects st !! p = Some (ODict d) ->
  NoDup (List.map fst d) ->
  Forall (fun it => snd it <> VRef p) d ->
  Forall2 (fun it it' =>
             fst it' = fst it /\
             decoded (objects st) (snd it) = Return (snd it')) d d' ->
  _parse_properties (VRef p) st =
  (State (<[p := ODict d']> (objects st)) (stdout st), Return (VRef p)).
Proof.
  intros Hp Hnodup Hself Hdec. unfold _parse_properties.
  rewrite bind_run. unfold read, items, as_dict. rewrite Hp.
  rewrite bind_run.
  by rewrite (parse_loop_returns p d d' [] (objects st)).
Qed.

Lemma parse_properties_frame (p : loc) (d : list (pystr * value))
    (st st' : state) (out : outcome value) :
  objects st !! p = Some (ODict d) ->
  _parse_properties (VRef p) st = (st', out) ->
  stdout st' = stdout st /\
  (forall v, out = Return v -> v = VRef p) /\
  exists d', objects st' = <[p := ODict d']> (objects st) /\
             List.map fst d' = List.map fst d.
Proof.
  intros Hp. unfold _parse_properties.
  rewrite bind_run. unfold read, items, as_dict. rewrite Hp.
  rewrite bind_run.
  destruct (for_each _ d tt st) as [st1 out1] eqn:Hloop.
  apply (parse_loop_frame p d) in Hloop as (Hout & d' & Hobj & Hkeys);
    [|done|].
  - destruct out1 as [[]|e]; unfold ret; intros [= <- <-].
    + split; [exact Hout|]. split.
      * intros v [= <-]. reflexivity.
      * exists d'. split; assumption.
    + split; [exact Hout|]. split.
      * intros v [=].
      * exists d'. split; assumption.
  - apply Forall_forall. intros [k v] Hin. cbn [fst].
    apply in_map_iff. exists (k, v). split; [done|].
    by apply list_elem_of_In.
Qed.

End Flattener.



(** * Decoding one TaggedValue *)

Section Decoder.
Context `{Interpreter}.
Import Datastore.

Lemma decoded_dict (h : heap) (o : loc) (its : list (pystr * value)) :
  h !! o = Some (ODict its) -> decoded h (VRef o) = decode_items its.
Proof. intros Ho. unfold decoded, items, as_dict. by rewrite Ho. Qed.

Lemma decode_blob (its : list (pystr * value)) (s : pystr) (bs : list N) :
  typed_key its = Some (str "blobValue", blob_payload bs) ->
  Utf8.encode s = Some bs ->
  decode_items its = Return (VStr s).
Proof.
  intros Hkey Hs. unfold decode_items. rewrite Hkey, eqb_refl.
  destruct (decode_encode s bs Hs) as [Hdec Hbytes].
  unfold blob_payload, b64decode, and_then.
  rewrite b64encode_ascii, a2b_base64_b64encode by done.
  unfold decode_utf8. by rewrite Hdec.
Qed.

Lemma decode_other (its : list (pystr * value)) (k : pystr) (v : value) :
  typed_key its = Some (k, v) -> k <> str "blobValue" ->
  decode_items its = Return v.
Proof.
  intros Hkey Hk. unfold decode_items. rewrite Hkey.
  by apply eqb_neq in Hk as ->.
Qed.

(** The flattener on a mapping one of whose properties decodes to [v]
    and whose other properties decode. *)
Lemma parse_properties_at (st : state) (p : loc) (property : pystr)
    (opt v : value) (before after before' after' : list (pystr * value)) :
  objects st !! p = Some (ODict (before ++ (property, opt) :: after)) ->
  NoDup (List.map fst (before ++ (property, opt) :: after)) ->
  no_self p (before ++ (property, opt) :: after) ->
  decoded (objects st) opt = Return v ->
  decodes_to (objects st) before before' ->
  decodes_to (objects st) after after' ->
  _parse_properties (VRef p) st =
  (State (<[p := ODict (before' ++ (property, v) :: after')]> (objects st))
         (stdout st), Return (VRef p)).
Proof.
  intros Hp Hnodup Hself Hv Hbefore Hafter.
  apply (parse_properties_returns p _ _ st Hp Hnodup Hself).
  apply Forall2_app; [done|]. by constructor.
Qed.

(** C3: a property whose typed key is blobValue and whose payload is
    the base64 encoding of the UTF-8 text [s] is flattened to [s]. *)
Theorem blob_value_decodes_to_text (st : state) (p o : loc)
    (property s : pystr) (bs : list N)
    (its before after before' after' : list (pystr * value)) :
  objects st !! p = Some (ODict (before ++ (property, VRef o) :: after)) ->
  NoDup (List.map fst (before ++ (property, VRef o) :: after)) ->
  no_self p (before ++ (property, VRef o) :: after) ->
  objects st !! o = Some (ODict its) ->
  typed_key its = Some (str "blobValue", blob_payload bs) ->
  Utf8.encode s = Some bs ->
  decodes_to (objects st) before before' ->
  decodes_to (objects st) after after' ->
  _parse_properties (VRef p) st =
  (State (<[p := ODict (before' ++ (property, VStr s) :: after')]>
            (objects st))
         (stdout st), Return (VRef p)).
Proof.
  intros Hp Hnodup Hself Ho Hkey Hs Hbefore Hafter.
  apply (parse_properties_at st p property (VRef o) _ before after);
    try done.
  rewrite (decoded_dict _ o its) by done. by apply (decode_blob its s bs).
Qed.

(** C4: a property whose typed key is not blobValue is flattened to
    the payload of that key, unchanged. *)
Theorem other_value_decodes_to_payload (st : state) (p o : loc)
    (property k : pystr) (v : value)
    (its before after before' after' : list (pystr * value)) :
  objects st !! p = Some (ODict (before ++ (property, VRef o) :: after)) ->
  NoDup (List.map fst (before ++ (property, VRef o) :: after)) ->
  no_self p (before ++ (property, VRef o) :: after) ->
  objects st !! o = Some (ODict its) ->
  typed_key its = Some (k, v) ->
  k <> str "blobValue" ->
  decodes_to (objects st) before before' ->
  decodes_to (objects st) after after' ->
  _parse_properties (VRef p) st =
  (State (<[p := ODict (before' ++ (property, v) :: after')]> (objects st))
         (stdout st), Return (VRef p)).
Proof.
  intros Hp Hnodup Hself Ho Hkey Hk Hbefore Hafter.
  apply (parse_properties_at st p property (VRef o) _ before after);
    try done.
  rewrite (decoded_dict _ o its) by done. by apply (decode_other its k v).
Qed.

(** C5: a property whose TaggedValue has no typed key is flattened to
    [None], and the flattener returns. *)
Theorem no_typed_key_decodes_to_none (st : state) (p o : loc)
    (property : pystr)
    (its before after before' after' : list (pystr * value)) :
  objects st !! p = Some (ODict (before ++ (property, VRef o) :: after)) ->
  NoDup (List.map fst (before ++ (property, VRef o) :: after)) ->
  no_self p (before ++ (property, VRef o) :: after) ->
  objects st !! o = Some (ODict its) ->
  typed_key its = None ->
  decodes_to (objects st) before before' ->
  decodes_to (objects st) after after' ->
  _parse_properties (VRef p) st =
  (State (<[p := ODict (before' ++ (property, VNone) :: after')]>
            (objects st))
         (stdout st), Return (VRef p)).
Proof.
  intros Hp Hnodup Hself Ho Hkey Hbefore Hafter.
  apply (parse_properties_at st p property (VRef o) _ before after);
    try done.
  rewrite (decoded_dict _ o its) by done. by apply decode_items_no_key.
Qed.

(** C9: the flattener changes no object but the mapping it was given and
    keeps the names of that mapping and their order, whether it returns
    or raises; when it returns, it returns that same mapping; and when
    every property decodes, it returns, with each value overwritten by
    what it decodes to. *)
Theorem parse_properties_in_place (st : state) (p : loc)
    (d : list (pystr * value)) :
  objects st !! p = Some (ODict d) ->
  (forall st' out,
     _parse_properties (VRef p) st = (st', out) ->
     stdout st' = stdout st /\
     (forall v, out = Return v -> v = VRef p) /\
     exists d', objects st' = <[p := ODict d']> (objects st) /\
                List.map fst d' = List.map fst d) /\
  (forall d',
     NoDup (List.map fst d) -> no_self p d ->
     decodes_to (objects st) d d' ->
     _parse_properties (VRef p) st =
     (State (<[p := ODict d']> (objects st)) (stdout st),
      Return (VRef p))).
Proof.
  intros Hp. split.
  - intros st' out. by apply parse_properties_frame.
  - intros d'. by apply parse_properties_returns.
Qed.

End Decoder.



(** * Dict lookup under an equivalence of keys *)

Section Lookup.
Context {K V : Type} (eqb : K -> K -> bool).
Hypothesis eqb_sym : forall a b, eqb a b = eqb b a.
Hypothesis eqb_trans :
  forall a b c, eqb a b = true -> eqb b c = true -> eqb a c = true.

Lemma eqb_congr (a b c : K) : eqb a b = true -> eqb a c = eqb b c.
Proof.
  intros Hab. destruct (eqb b c) eqn:Hbc.
  - by apply (eqb_trans a b c).
  - destruct (eqb a c) eqn:Hac; [|done].
    rewrite <- Hbc. symmetry. apply (eqb_trans b a c); [|done].
    by rewrite eqb_sym.
Qed.

Lemma lookup_key_congr (a b : K) (l : list (K * V)) :
  eqb a b = true -> lookup_key eqb a l = lookup_key eqb b l.
Proof.
  intros Hab. induction l as [|[k v] l IH]; [done|]. cbn [lookup_key].
  rewrite (eqb_sym k a), (eqb_sym k b), (eqb_congr a b k Hab).
  by rewrite IH.
Qed.

Lemma lookup_set_key (k0 k : K) (v : V) (l : list (K * V)) :
  eqb k0 k0 = true ->
  lookup_key eqb k (set_key eqb k0 v l) =
  if eqb k0 k then Some v else lookup_key eqb k l.
Proof.
  intros Hrefl. induction l as [|[k' v'] l IH]; cbn [set_key lookup_key].
  - done.
  - destruct (eqb k' k0) eqn:H0; cbn [lookup_key].
    + rewrite (eqb_congr k' k0 k H0). by destruct (eqb k0 k).
    + rewrite IH. destruct (eqb k' k) eqn:Hk; [|done].
      destruct (eqb k0 k) eqn:H1; [|done].
      assert (eqb k' k0 = true) as Hcontra; [|congruence].
      apply (eqb_trans k' k k0); [done|]. by rewrite eqb_sym.
Qed.

Lemma lookup_alter_key (f : V -> V) (k0 k : K) (l : list (K * V)) :
  lookup_key eqb k (alter_key eqb f k0 l) =
  if eqb k0 k then option_map f (lookup_key eqb k l)
  else lookup_key eqb k l.
Proof.
  induction l as [|[k' v'] l IH]; cbn [alter_key lookup_key].
  - by destruct (eqb k0 k).
  - destruct (eqb k' k0) eqn:H0; cbn [lookup_key].
    + rewrite (eqb_congr k' k0 k H0). by destruct (eqb k0 k).
    + rewrite IH. destruct (eqb k' k) eqn:Hk; [|done].
      destruct (eqb k0 k) eqn:H1; [|done].
      assert (eqb k' k0 = true) as Hcontra; [|congruence].
      apply (eqb_trans k' k k0); [done|]. by rewrite eqb_sym.
Qed.

End Lookup.

Lemma lookup_key_map {K V W} (eqb : K -> K -> bool) (g : V -> W) (k : K)
    (l : list (K * V)) :
  lookup_key eqb k (List.map (fun kv => (fst kv, g (snd kv))) l) =
  option_map g (lookup_key eqb k l).
Proof.
  induction l as [|[k' v'] l IH]; [done|].
  cbn [List.map lookup_key fst snd]. by destruct (eqb k' k).
Qed.

Section KeyEquality.

Lemma py_eqb_true (a b : value) :
  py_eqb a b = true <-> exists x, key_of a = Some x /\ key_of b = Some x.
Proof.
  unfold py_eqb.
  destruct (key_of a) as [x|], (key_of b) as [y|]; split;
    try done; try by intros (? & ? & ?).
  - intros ->%bool_decide_eq_true. by exists y.
  - intros (z & [= ->] & [= ->]). by apply bool_decide_eq_true.
Qed.

Lemma py_eqb_sym (a b : value) : py_eqb a b = py_eqb b a.
Proof.
  unfold py_eqb. destruct (key_of a), (key_of b); try done.
  apply bool_decide_ext. split; congruence.
Qed.

Lemma py_eqb_trans (a b c : value) :
  py_eqb a b = true -> py_eqb b c = true -> py_eqb a c = true.
Proof.
  rewrite !py_eqb_true. intros (x & Ha & Hb) (y & Hb' & Hc).
  exists x. split; [done|]. congruence.
Qed.

Lemma py_eqb_refl (a : value) : hashable a = true -> py_eqb a a = true.
Proof.
  intros Ha. apply py_eqb_true. destruct a as [| | |[]| |]; try done;
    by eexists.
Qed.

Lemma str_eqb_sym (a b : pystr) : Str.eqb a b = Str.eqb b a.
Proof. unfold Str.eqb. apply bool_decide_ext. split; congruence. Qed.

Lemma str_eqb_trans (a b c : pystr) :
  Str.eqb a b = true -> Str.eqb b c = true -> Str.eqb a c = true.
Proof. rewrite !eqb_eq. congruence. Qed.

End KeyEquality.

(** * The sets of tags under construction *)

Section TagSets.
Import Datastore.
Implicit Types (s : tag_sets) (k kind : value) (p q property t : pystr).

Lemma at_pair_congr {V} (s : list (value * list (pystr * V))) k k' p :
  py_eqb k k' = true -> at_pair s k p = at_pair s k' p.
Proof.
  intros Hk. unfold at_pair.
  by rewrite (lookup_key_congr py_eqb py_eqb_sym py_eqb_trans k k').
Qed.

(** [scheme[kind] = {}] for a kind that is not yet there. *)
Lemma at_pair_new_kind s kind k p :
  hashable kind = true -> lookup_key py_eqb kind s = None ->
  at_pair (set_key py_eqb kind [] s) k p = at_pair s k p.
Proof.
  intros Hh Hnone. unfold at_pair.
  rewrite (lookup_set_key py_eqb py_eqb_sym py_eqb_trans)
    by by apply py_eqb_refl.
  destruct (py_eqb kind k) eqn:Hk; [|done].
  by rewrite <- (lookup_key_congr py_eqb py_eqb_sym py_eqb_trans kind k),
    Hnone.
Qed.

(** [scheme[kind][property] = set()] *)
Lemma at_pair_new_property s kind q k p :
  at_pair (alter_key py_eqb (set_key Str.eqb q []) kind s) k p =
  if py_eqb kind k then
    match lookup_key py_eqb k s with
    | Some _ => if Str.eqb q p then Some [] else at_pair s k p
    | None => None
    end
  else at_pair s k p.
Proof.
  unfold at_pair.
  rewrite (lookup_alter_key py_eqb py_eqb_sym py_eqb_trans).
  destruct (py_eqb kind k); [|done].
  destruct (lookup_key py_eqb k s) as [props|]; [|done].
  cbn [option_map].
  by rewrite (lookup_set_key Str.eqb str_eqb_sym str_eqb_trans)
    by apply eqb_refl.
Qed.

(** [scheme[kind][property].add(t)] *)
Lemma at_pair_add s kind q t k p :
  at_pair (alter_key py_eqb (alter_key Str.eqb (set_add t) q) kind s) k p =
  if py_eqb kind k && Str.eqb q p
  then option_map (set_add t) (at_pair s k p)
  else at_pair s k p.
Proof.
  unfold at_pair.
  rewrite (lookup_alter_key py_eqb py_eqb_sym py_eqb_trans).
  destruct (py_eqb kind k); [|done].
  destruct (lookup_key py_eqb k s) as [props|]; [|by destruct (Str.eqb q p)].
  cbn [option_map andb].
  by rewrite (lookup_alter_key Str.eqb str_eqb_sym str_eqb_trans).
Qed.

Lemma in_set_add (t x : pystr) (tags : list pystr) :
  In x (set_add t tags) <-> In x tags \/ x = t.
Proof.
  unfold set_add. destruct (existsb (Str.eqb t) tags) eqn:Hex.
  - apply existsb_exists in Hex as (y & Hy & Heq).
    apply eqb_eq in Heq. subst y.
    split; [tauto|]. intros [Hin|Heq]; [done|by subst].
  - rewrite in_app_iff. cbn [In]. split.
    + intros [Hin|[Heq|[]]]; [by left|by right].
    + intros [Hin|Heq]; [by left|right; by left].
Qed.

Lemma tracks_ext (L L' : value -> pystr -> list pystr) s :
  (forall k p t, In t (L k p) <-> In t (L' k p)) ->
  tracks L s -> tracks L' s.
Proof.
  intros Hext [Ha Hb]. split.
  - intros k p tags Hat t. rewrite <- Hext. by apply Ha.
  - intros k p t Hin. apply (Hb k p t). by apply Hext.
Qed.

Lemma tracks_new_kind L s kind :
  hashable kind = true -> lookup_key py_eqb kind s = None ->
  tracks L s -> tracks L (set_key py_eqb kind [] s).
Proof.
  intros Hh Hnone [Ha Hb]. split.
  - intros k p tags. rewrite at_pair_new_kind by done. apply Ha.
  - intros k p t. rewrite at_pair_new_kind by done. apply Hb.
Qed.

Lemma tracks_new_property L s kind q :
  hashable kind = true ->
  is_Some (lookup_key py_eqb kind s) -> at_pair s kind q = None ->
  tracks L s ->
  tracks L (alter_key py_eqb (set_key Str.eqb q []) kind s) /\
  at_pair (alter_key py_eqb (set_key Str.eqb q []) kind s) kind q = Some [].
Proof.
  intros Hh [props Hkind] Hnone [Ha Hb].
  assert (forall k p,
    at_pair (alter_key py_eqb (set_key Str.eqb q []) kind s) k p =
    if py_eqb kind k && Str.eqb q p then Some [] else at_pair s k p) as Hat.
  { intros k p. rewrite at_pair_new_property.
    destruct (py_eqb kind k) eqn:Hk; [|done].
    rewrite <- (lookup_key_congr py_eqb py_eqb_sym py_eqb_trans kind k)
      by done.
    rewrite Hkind. by destruct (Str.eqb q p). }
  assert (py_eqb kind kind = true) as Hrefl by by apply py_eqb_refl.
  split; [split|].
  - intros k p tags. rewrite Hat.
    destruct (py_eqb kind k && Str.eqb q p) eqn:Hkp; [|apply Ha].
    apply andb_true_iff in Hkp as [Hk ->%eqb_eq]. intros [= <-] t.
    split; [done|]. intros Hin. apply Hb in Hin.
    by rewrite <- (at_pair_congr s kind k) in Hin.
  - intros k p t Hin. rewrite Hat.
    destruct (py_eqb kind k && Str.eqb q p); [done|by eapply Hb].
  - by rewrite Hat, Hrefl, eqb_refl.
Qed.

Lemma tracks_add L s kind q t :
  is_Some (at_pair s kind q) -> tracks L s ->
  tracks (fun k p => L k p ++ if py_eqb kind k && Str.eqb q p
                              then [t] else [])
         (alter_key py_eqb (alter_key Str.eqb (set_add t) q) kind s) /\
  is_Some (at_pair
    (alter_key py_eqb (alter_key Str.eqb (set_add t) q) kind s) kind q).
Proof.
  intros [tags0 Hsome] [Ha Hb]. split; [split|].
  - intros k p tags. rewrite at_pair_add.
    destruct (py_eqb kind k && Str.eqb q p) eqn:Hkp.
    + destruct (at_pair s k p) as [old|] eqn:Hold; [|done].
      intros [= <-] x. rewrite in_set_add, in_app_iff, (Ha k p old Hold).
      cbn [In]. intuition.
    + intros Hat x. rewrite in_app_iff, (Ha k p tags Hat). cbn [In]. tauto.
  - intros k p x. rewrite at_pair_add, in_app_iff.
    destruct (py_eqb kind k && Str.eqb q p) eqn:Hkp.
    + apply andb_true_iff in Hkp as [Hk ->%eqb_eq]. intros _.
      rewrite <- (at_pair_congr s kind k) by done. by rewrite Hsome.
    + cbn [In]. intros [Hin|[]]. by eapply Hb.
  - rewrite at_pair_add. destruct (py_eqb kind kind && Str.eqb q q);
      rewrite Hsome; by eexists.
Qed.

End TagSets.



(** * Methods that only read *)

Section ReadsOnly.

Lemma reads_only_run {A} (m : M A) (st st' : state) (out : outcome A) :
  reads_only m -> m st = (st', out) -> st' = st.
Proof. intros Hm Hrun. specialize (Hm st). by rewrite Hrun in Hm. Qed.

Lemma reads_only_ret {A} (a : A) : reads_only (ret a).
Proof. by intros st. Qed.

Lemma reads_only_raise {A} (e : exn) : reads_only (@raise A e).
Proof. by intros st. Qed.

Lemma reads_only_read {A} (f : heap -> outcome A) : reads_only (read f).
Proof. by intros st. Qed.

Lemma reads_only_bind {A B} (m : M A) (k : A -> M B) :
  reads_only m -> (forall a, reads_only (k a)) -> reads_only (bind m k).
Proof.
  intros Hm Hk st. rewrite bind_run.
  destruct (m st) as [st1 [a|e]] eqn:Hrun;
    apply (reads_only_run m) in Hrun as ->; try done.
  apply Hk.
Qed.

Lemma reads_only_for_each {A S} (body : S -> A -> M S) (xs : list A) (s : S) :
  (forall s x, reads_only (body s x)) -> reads_only (for_each body xs s).
Proof.
  intros Hbody. revert s. induction xs as [|x xs IH]; intros s.
  - apply reads_only_ret.
  - cbn [for_each]. by apply reads_only_bind.
Qed.

End ReadsOnly.

Ltac solve_reads_only :=
  repeat first
    [ apply reads_only_ret | apply reads_only_raise | apply reads_only_read
    | apply reads_only_bind; [|intros ?]
    | apply reads_only_for_each; intros ? ?
    | match goal with
      | |- reads_only (if ?b then _ else _) => destruct b
      | |- reads_only (match ?x with _ => _ end) => destruct x
      end ].

(** * Scheme inference, loop by loop *)

Section Scan.
Context `{Interpreter}.
Import Datastore.
Implicit Types (L : value -> pystr -> list pystr) (s : tag_sets).

Lemma entity_results_reads (data : value) : reads_only (entity_results data).
Proof. unfold entity_results. solve_reads_only. Qed.

Lemma key_segment_reads (entity : option value) :
  reads_only (key_segment entity).
Proof. unfold key_segment. solve_reads_only. Qed.

Lemma entity_kind_reads (entity : option value) :
  reads_only (entity_kind entity).
Proof.
  unfold entity_kind. apply reads_only_bind; [apply key_segment_reads|].
  intros ?. solve_reads_only.
Qed.

Lemma scan_value_reads kind property s v :
  reads_only (scan_value kind property s v).
Proof. unfold scan_value. solve_reads_only. Qed.

Lemma scan_property_reads kind s item : reads_only (scan_property kind s item).
Proof.
  unfold scan_property. destruct item. apply reads_only_bind; [solve_reads_only|].
  intros ?. apply reads_only_for_each. intros ? ?. apply scan_value_reads.
Qed.

Lemma scan_entity_reads s _entity : reads_only (scan_entity s _entity).
Proof.
  unfold scan_entity. apply reads_only_bind; [solve_reads_only|]. intros entity.
  apply reads_only_bind; [apply entity_kind_reads|]. intros kind.
  destruct (hashable kind); [|solve_reads_only].
  apply reads_only_bind; [solve_reads_only|]. intros ?.
  apply reads_only_bind; [solve_reads_only|]. intros ?.
  apply reads_only_for_each. intros ? ?. apply scan_property_reads.
Qed.

Lemma collapse_property_reads done item :
  reads_only (collapse_property done item).
Proof. unfold collapse_property. solve_reads_only. Qed.

Lemma collapse_kind_reads done item : reads_only (collapse_kind done item).
Proof.
  unfold collapse_kind. destruct item. apply reads_only_bind; [|solve_reads_only].
  apply reads_only_for_each. intros ? ?. apply collapse_property_reads.
Qed.

(** Scheme inference changes neither the heap nor the output. *)
Lemma generate_scheme_reads (data : value) :
  reads_only (generate_scheme data).
Proof.
  unfold generate_scheme.
  apply reads_only_bind; [apply entity_results_reads|]. intros ?.
  apply reads_only_bind.
  - apply reads_only_for_each. intros ? ?. apply scan_entity_reads.
  - intros ?. apply reads_only_for_each. intros ? ?.
    apply collapse_kind_reads.
Qed.

(** The readers of the methods are those of the statements. *)
Lemma entity_results_run (data : value) (st : state) :
  entity_results data st = (st, results_of (objects st) data).
Proof.
  unfold entity_results, results_of, bind, read, and_then.
  destruct (get_or_empty _ (Some data) _); [|done].
  by destruct (get_or_empty _ _ _).
Qed.

Lemma key_segment_run (entity : option value) (st : state) :
  key_segment entity st = (st, segment_in (objects st) entity).
Proof.
  unfold key_segment, segment_in, bind, read, and_then.
  destruct (subscript_str _ entity _); [|done].
  by destruct (subscript_str _ _ _).
Qed.

Lemma entity_kind_run (entity : option value) (st : state) :
  entity_kind entity st = (st, kind_in (objects st) entity).
Proof.
  unfold entity_kind, kind_in. rewrite bind_run, key_segment_run.
  unfold and_then, read. by destruct (segment_in _ _).
Qed.

(** Lines 88-93. *)
Lemma scan_values_tracks kind q (values : list value) :
  forall L s st st' s',
    is_Some (at_pair s kind q) -> tracks L s ->
    for_each (scan_value kind q) values s st = (st', Return s') ->
    tracks (fun k p => L k p ++ if py_eqb kind k && Str.eqb q p
                                then value_tags values else []) s' /\
    is_Some (at_pair s' kind q).
Proof.
  induction values as [|v values IH]; intros L s st st' s' Hsome Htr.
  - cbn [for_each]. intros [= <- <-]. split; [|done].
    apply (tracks_ext L); [|done]. intros k p t.
    rewrite in_app_iff. destruct (_ && _); cbn [value_tags flat_map In]; tauto.
  - cbn [for_each]. rewrite bind_run.
    destruct v as [| | | |value|]; cbn [scan_value]; try done.
    destruct (is_tag value) eqn:Htag; unfold ret at 1; intros Hloop.
    + destruct (tracks_add L s kind q
                  (replace (str "Value") [] value) Hsome Htr) as [Htr1 Hsome1].
      destruct (IH _ _ _ _ _ Hsome1 Htr1 Hloop) as [Htr2 Hsome2].
      split; [|done]. revert Htr2. apply tracks_ext. intros k p t.
      cbn [value_tags flat_map]. rewrite Htag.
      destruct (_ && _); rewrite !in_app_iff; cbn [In]; tauto.
    + destruct (IH _ _ _ _ _ Hsome Htr Hloop) as [Htr2 Hsome2].
      split; [|done]. revert Htr2. apply tracks_ext. intros k p t.
      cbn [value_tags flat_map]. rewrite Htag.
      destruct (_ && _); rewrite !in_app_iff; cbn [In]; tauto.
Qed.

(** Lines 86-93, for one property of an entity of [kind]. *)
Lemma scan_property_tracks kind q opt L s st st' s' :
  hashable kind = true ->
  is_Some (lookup_key py_eqb kind s) -> tracks L s ->
  scan_property kind s (q, opt) st = (st', Return s') ->
  st' = st /\
  tracks (fun k p => L k p ++ if py_eqb kind k && Str.eqb q p
                              then opt_tags (objects st) opt else []) s' /\
  is_Some (lookup_key py_eqb kind s').
Proof.
  intros Hh [props Hkind] Htr Hrun.
  pose proof (reads_only_run _ _ _ _ (scan_property_reads kind s (q, opt))
                Hrun) as ->.
  split; [done|]. revert Hrun. unfold scan_property. rewrite Hkind.
  set (s1 := match lookup_key Str.eqb q props with
             | None => _ | Some _ => _ end).
  assert (tracks L s1 /\ is_Some (at_pair s1 kind q)) as [Htr1 Hsome1].
  { subst s1. destruct (lookup_key Str.eqb q props) as [tags|] eqn:Hq.
    - split; [done|]. unfold at_pair. rewrite Hkind, Hq. by eexists.
    - assert (at_pair s kind q = None) as Hnone.
      { unfold at_pair. by rewrite Hkind, Hq. }
      destruct (tracks_new_property L s kind q Hh (ex_intro _ props Hkind)
                  Hnone Htr) as [Htr1 Hat].
      split; [done|]. rewrite Hat. by eexists. }
  rewrite bind_run. unfold read at 1, opt_tags.
  destruct (iterate (objects st) (Some opt)) as [values|e]; [|done].
  intros Hloop.
  destruct (scan_values_tracks kind q values L s1 st st s' Hsome1 Htr1 Hloop)
    as [Htr2 [tags Hsome2]].
  split; [done|]. unfold at_pair in Hsome2.
  destruct (lookup_key py_eqb kind s'); [by eexists|done].
Qed.

(** Lines 85-93, for all properties of one entity. *)
Lemma scan_properties_tracks kind (its : list (pystr * value)) :
  forall L s st st' s',
    hashable kind = true ->
    is_Some (lookup_key py_eqb kind s) -> tracks L s ->
    for_each (scan_property kind) its s st = (st', Return s') ->
    st' = st /\
    tracks (fun k p => L k p ++ if py_eqb kind k
                                then item_tags (objects st) p its else []) s'.
Proof.
  induction its as [|[q opt] its IH]; intros L s st st' s' Hh Hsome Htr.
  - cbn [for_each]. intros [= <- <-]. split; [done|].
    apply (tracks_ext L); [|done]. intros k p t.
    rewrite in_app_iff. destruct (py_eqb kind k); cbn [item_tags flat_map In];
      tauto.
  - cbn [for_each]. rewrite bind_run.
    destruct (scan_property kind s (q, opt) st) as [st1 [s1|e]] eqn:Hbody;
      [|done].
    destruct (scan_property_tracks kind q opt L s st st1 s1 Hh Hsome Htr
                Hbody) as (-> & Htr1 & Hsome1).
    intros Hloop.
    destruct (IH _ _ _ _ _ Hh Hsome1 Htr1 Hloop) as [-> Htr2].
    split; [done|]. revert Htr2. apply tracks_ext. intros k p t.
    cbn [item_tags flat_map fst snd].
    destruct (py_eqb kind k), (Str.eqb q p); cbn [andb];
      rewrite !in_app_iff; cbn [In]; tauto.
Qed.

End Scan.



Section Inference.
Context `{Interpreter}.
Import Datastore.
Implicit Types (L : value -> pystr -> list pystr) (s : tag_sets).

(** Lines 77-93, for one entity result. *)
Lemma scan_entity_tracks L s (_entity : value) st st' s' :
  tracks L s ->
  scan_entity s _entity st = (st', Return s') ->
  st' = st /\
  tracks (fun k p => L k p ++ entity_tags (objects st) k p _entity) s'.
Proof.
  intros Htr Hrun.
  pose proof (reads_only_run _ _ _ _ (scan_entity_reads s _entity) Hrun)
    as ->.
  split; [done|]. revert Hrun.
  unfold scan_entity, entity_tags, kind_of, properties_of.
  rewrite bind_run. unfold read at 1.
  destruct (get_or_empty (objects st) (Some _entity) (str "entity"))
    as [entity|e]; [|done].
  cbn [and_then]. rewrite bind_run, entity_kind_run.
  destruct (kind_in (objects st) entity) as [kind|e]; [|done].
  destruct (hashable kind) eqn:Hh; [|done].
  set (s1 := match lookup_key py_eqb kind s with
             | None => _ | Some _ => _ end).
  assert (tracks L s1 /\ is_Some (lookup_key py_eqb kind s1)) as [Htr1 Hsome1].
  { subst s1. destruct (lookup_key py_eqb kind s) as [props|] eqn:Hkind.
    - split; [done|]. rewrite Hkind. by eexists.
    - split; [by apply tracks_new_kind|].
      rewrite (lookup_set_key py_eqb py_eqb_sym py_eqb_trans)
        by by apply py_eqb_refl.
      rewrite py_eqb_refl by done. by eexists. }
  rewrite bind_run. unfold read at 1.
  destruct (get_or_empty (objects st) entity (str "properties"))
    as [props|e]; [|done].
  cbn [and_then]. rewrite bind_run. unfold read at 1.
  destruct (items (objects st) props) as [its|e]; [|done].
  intros Hloop.
  by destruct (scan_properties_tracks kind its L s1 st st s' Hh Hsome1 Htr1
                 Hloop) as [_ Htr2].
Qed.

(** Lines 76-93, for the whole batch. *)
Lemma scan_entities_tracks (results : list value) :
  forall L s st st' s',
    tracks L s ->
    for_each scan_entity results s st = (st', Return s') ->
    st' = st /\
    tracks (fun k p => L k p ++ observed_tags (objects st) results k p) s'.
Proof.
  induction results as [|e results IH]; intros L s st st' s' Htr.
  - cbn [for_each]. intros [= <- <-]. split; [done|].
    apply (tracks_ext L); [|done]. intros k p t.
    rewrite in_app_iff. cbn [observed_tags flat_map In]. tauto.
  - cbn [for_each]. rewrite bind_run.
    destruct (scan_entity s e st) as [st1 [s1|err]] eqn:Hbody; [|done].
    destruct (scan_entity_tracks L s e st st1 s1 Htr Hbody) as [-> Htr1].
    intros Hloop. destruct (IH _ _ _ _ _ Htr1 Hloop) as [-> Htr2].
    split; [done|]. revert Htr2. apply tracks_ext. intros k p t.
    unfold observed_tags. cbn [flat_map]. rewrite !in_app_iff. tauto.
Qed.

(** [set.pop()] on a set that is not empty returns one of its elements. *)
Lemma set_pop_in (tags : list pystr) :
  (1 <=? length tags)%nat = true ->
  exists t, set_pop tags = Return t /\ In t tags.
Proof.
  intros Hlen%Nat.leb_le. unfold set_pop.
  destruct (nth_error tags (set_pop_slot tags mod length tags)) as [t|] eqn:Ht.
  - exists t. split; [done|]. by eapply nth_error_In.
  - apply nth_error_None in Ht.
    pose proof (Nat.mod_upper_bound (set_pop_slot tags) (length tags)). lia.
Qed.

Lemma collapsed_some (tags : list pystr) (t : pystr) :
  collapsed tags = Some t -> In t tags.
Proof.
  unfold collapsed. destruct (1 <=? length tags)%nat eqn:Hlen; [|done].
  destruct (set_pop_in tags Hlen) as (t' & -> & Hin). by intros [= <-].
Qed.

Lemma collapsed_none (tags : list pystr) : collapsed tags = None -> tags = [].
Proof.
  unfold collapsed. destruct (1 <=? length tags)%nat eqn:Hlen.
  - by destruct (set_pop_in tags Hlen) as (t' & -> & Hin).
  - intros _. apply Nat.leb_gt in Hlen. destruct tags; [done|].
    cbn [length] in Hlen. lia.
Qed.

(** Lines 96-100. *)
Lemma collapse_properties_run (props : list (pystr * list pystr)) :
  forall done st,
    for_each collapse_property props done st =
    (st, Return (done ++ List.map (fun kv => (fst kv, collapsed (snd kv)))
                                  props)).
Proof.
  induction props as [|[p tags] props IH]; intros done st.
  - cbn [for_each List.map]. by rewrite app_nil_r.
  - cbn [for_each List.map fst snd]. rewrite bind_run.
    unfold collapse_property, collapsed.
    destruct (1 <=? length tags)%nat eqn:Hlen.
    + destruct (set_pop_in tags Hlen) as (t & Hpop & _).
      rewrite bind_run. unfold read at 1. rewrite Hpop. unfold ret at 1.
      rewrite IH. by rewrite <- app_assoc.
    + unfold ret at 1. rewrite IH. by rewrite <- app_assoc.
Qed.

(** Lines 95-100. *)
Lemma collapse_kinds_run (sets : tag_sets) :
  forall done st,
    for_each collapse_kind sets done st =
    (st, Return (done ++
                 List.map (fun kv =>
                   (fst kv,
                    List.map (fun pv => (fst pv, collapsed (snd pv)))
                             (snd kv))) sets)).
Proof.
  induction sets as [|[k props] sets IH]; intros done st.
  - cbn [for_each List.map]. by rewrite app_nil_r.
  - cbn [for_each List.map fst snd]. rewrite bind_run.
    unfold collapse_kind. rewrite bind_run, collapse_properties_run.
    unfold ret at 1. rewrite IH. by rewrite <- app_assoc.
Qed.

(** What scheme inference returns: for every pair, the collapse of a set
    that holds exactly the tags observed for that pair. *)
Lemma generate_scheme_sound (data : value) (st st' : state) (sch : scheme) :
  generate_scheme data st = (st', Return sch) ->
  st' = st /\
  exists results sets,
    results_of (objects st) data = Return results /\
    tracks (observed_tags (objects st) results) sets /\
    forall k p, at_pair sch k p = option_map collapsed (at_pair sets k p).
Proof.
  intros Hrun.
  pose proof (reads_only_run _ _ _ _ (generate_scheme_reads data) Hrun) as ->.
  split; [done|]. revert Hrun. unfold generate_scheme.
  rewrite bind_run, entity_results_run.
  destruct (results_of (objects st) data) as [results|e]; [|done].
  rewrite bind_run.
  destruct (for_each scan_entity results [] st) as [st1 [sets|e]] eqn:Hscan;
    [|done].
  destruct (scan_entities_tracks results (fun _ _ => []) [] st st1 sets)
    as [-> Htr]; [by split|done|].
  rewrite collapse_kinds_run. intros [= <-].
  exists results, sets. split; [done|]. split; [done|].
  intros k p. unfold at_pair. cbn [app].
  rewrite lookup_key_map.
  destruct (lookup_key py_eqb k sets) as [props|]; [|done].
  cbn [option_map]. by rewrite lookup_key_map.
Qed.

(** On a well-formed batch no loop of scheme inference raises. *)
Lemma scan_values_returns kind q (d : list (pystr * value)) :
  forall s st, exists s',
    for_each (scan_value kind q) (List.map (fun kv => VStr (fst kv)) d) s st
    = (st, Return s').
Proof.
  induction d as [|[k v] d IH]; intros s st; [by exists s|].
  cbn [List.map for_each fst scan_value]. rewrite bind_run.
  destruct (is_tag k); unfold ret at 1; apply IH.
Qed.

Lemma scan_properties_returns kind (its : list (pystr * value)) :
  forall s st,
    Forall (fun it => exists d, as_dict (objects st) (snd it) = Some d) its ->
    exists s', for_each (scan_property kind) its s st = (st, Return s').
Proof.
  induction its as [|[q opt] its IH]; intros s st Hall; [by exists s|].
  apply Forall_cons in Hall as [[d Hd] Hall]. cbn [snd] in Hd.
  cbn [for_each]. rewrite bind_run. unfold scan_property at 1.
  rewrite bind_run. unfold read at 1, iterate. unfold as_dict in Hd.
  destruct opt as [| | | | |l]; try done.
  destruct (objects st !! l) as [[d0|]|]; try done. injection Hd as ->.
  match goal with
  | |- context [for_each (scan_value kind q) _ ?s0 st] =>
      destruct (scan_values_returns kind q d s0 st) as [s1 ->]
  end.
  by apply IH.
Qed.

Lemma scan_entities_returns (results : list value) :
  forall s st,
    Forall (well_formed_entity (objects st)) results ->
    exists s', for_each scan_entity results s st = (st, Return s').
Proof.
  induction results as [|e results IH]; intros s st Hall; [by exists s|].
  apply Forall_cons in Hall as [(k & its & Hk & Hh & Hits & Hopts) Hall].
  cbn [for_each]. rewrite bind_run. unfold scan_entity at 1.
  unfold kind_of, properties_of, and_then in Hk, Hits.
  rewrite bind_run. unfold read at 1.
  destruct (get_or_empty (objects st) (Some e) (str "entity"))
    as [entity|]; [|done].
  rewrite bind_run, entity_kind_run, Hk, Hh.
  rewrite bind_run. unfold read at 1.
  destruct (get_or_empty (objects st) entity (str "properties"))
    as [props|]; [|done].
  rewrite bind_run. unfold read at 1. rewrite Hits.
  match goal with
  | |- context [for_each (scan_property k) its ?s0 st] =>
      destruct (scan_properties_returns k its s0 st Hopts) as [s1 ->]
  end.
  by apply IH.
Qed.

Lemma generate_scheme_returns (data : value) (st : state)
    (results : list value) :
  results_of (objects st) data = Return results ->
  Forall (well_formed_entity (objects st)) results ->
  exists sch, generate_scheme data st = (st, Return sch).
Proof.
  intros Hres Hall. unfold generate_scheme.
  rewrite bind_run, entity_results_run, Hres, bind_run.
  destruct (scan_entities_returns results [] st Hall) as [sets ->].
  rewrite collapse_kinds_run. by eexists.
Qed.

(** Tags, as the statements list them. *)
Lemma value_tags_in (values : list value) (t : pystr) :
  In t (value_tags values) <->
  exists v, In (VStr v) values /\ is_tag v = true /\
            t = replace (str "Value") [] v.
Proof.
  unfold value_tags. rewrite in_flat_map. split.
  - intros (x & Hx & Hin). destruct x as [| | | |v|]; try done.
    destruct (is_tag v) eqn:Htag; [|done].
    destruct Hin as [<-|[]]. by exists v.
  - intros (v & Hv & Htag & ->). exists (VStr v). split; [done|].
    rewrite Htag. by left.
Qed.

Lemma value_tags_not_null (values : list value) :
  ~ In (str "null") (value_tags values).
Proof.
  rewrite value_tags_in. intros (v & _ & Htag & Hnull).
  unfold is_tag in Htag. apply andb_true_iff in Htag as [Htag _].
  apply negb_true_iff, eqb_neq in Htag. congruence.
Qed.

Lemma observed_tags_sampled (h : heap) (results : list value) (kind : value)
    (property t : pystr) :
  In t (observed_tags h results kind property) <->
  exists opt, sampled h results kind property opt /\ In t (opt_tags h opt).
Proof.
  unfold observed_tags, sampled. rewrite in_flat_map. split.
  - intros (e & He & Hin). unfold entity_tags in Hin.
    destruct (kind_of h e) as [k|] eqn:Hk; [|destruct Hin].
    destruct (properties_of h e) as [its|] eqn:Hits; [|destruct Hin].
    destruct (py_eqb k kind) eqn:Heq; [|destruct Hin].
    unfold item_tags in Hin. apply in_flat_map in Hin as ([q opt] & Hq & Hin).
    cbn [fst snd] in Hin.
    destruct (Str.eqb q property) eqn:Hqp; [|destruct Hin].
    apply eqb_eq in Hqp as ->. exists opt. split; [|done].
    by exists e, k, its.
  - intros (opt & (e & k & its & He & Hk & Heq & Hits & Hopt) & Hin).
    exists e. split; [done|]. unfold entity_tags. rewrite Hk, Hits, Heq.
    unfold item_tags. apply in_flat_map. exists (property, opt).
    split; [done|]. cbn [fst snd]. by rewrite eqb_refl.
Qed.

Lemma opt_tags_not_null (h : heap) (opt : value) :
  ~ In (str "null") (opt_tags h opt).
Proof.
  unfold opt_tags. destruct (iterate h (Some opt)); [|by intros []].
  apply value_tags_not_null.
Qed.

(** C6: a run of scheme inference leaves the heap and the output as they
    were, so a second run, started where the first one ended, returns or
    raises exactly what the first did. *)
Theorem generate_scheme_twice (data : value) (st : state) :
  fst (generate_scheme data st) = st /\
  snd (generate_scheme data (fst (generate_scheme data st))) =
  snd (generate_scheme data st).
Proof.
  pose proof (generate_scheme_reads data st) as Hst.
  split; [done|]. by rewrite Hst.
Qed.

End Inference.



(** * Flattening one entity *)

Section Flatten.
Context `{Interpreter}.
Import Datastore.

Lemma int_raises_conversion_error (v : value) (e : exn) :
  int v = Raise e -> conversion_error e.
Proof.
  unfold conversion_error.
  destruct v as [| | |[]|s|]; cbn [int]; try done; try (intros [= <-]; tauto).
  destruct (int_of_str s); [done|]. intros [= <-]. tauto.
Qed.

Lemma for_each_raises {A S} (P : exn -> Prop) (body : S -> A -> M S)
    (xs : list A) :
  (forall s x st st' e, body s x st = (st', Raise e) -> P e) ->
  forall s st st' e, for_each body xs s st = (st', Raise e) -> P e.
Proof.
  intros Hbody. induction xs as [|x xs IH]; intros s st st' e; [done|].
  cbn [for_each]. rewrite bind_run.
  destruct (body s x st) as [st1 [s1|e1]] eqn:Hrun.
  - apply IH.
  - intros [= <- <-]. by eapply Hbody.
Qed.

(** The flattener raises no conversion error of [int()]. *)
Lemma store_item_raises (obj : value) (k : pystr) (v : value)
    (st st' : state) (e : exn) :
  store_item obj k v st = (st', Raise e) -> e = TypeError SetItem.
Proof.
  unfold store_item. destruct obj as [| | | | |l]; try by intros [= _ <-].
  destruct (objects st !! l) as [[]|]; try done; by intros [= _ <-].
Qed.

Lemma get_or_empty_raises (h : heap) (obj : option value) (k : pystr)
    (e : exn) :
  get_or_empty h obj k = Raise e -> e = AttributeError "get".
Proof.
  unfold get_or_empty. destruct obj as [v|]; [|done].
  destruct (as_dict h v); [done|]. by intros [= <-].
Qed.

Lemma items_raises (h : heap) (obj : option value) (e : exn) :
  items h obj = Raise e -> e = AttributeError "items".
Proof.
  unfold items. destruct obj as [v|]; [|done].
  destruct (as_dict h v); [done|]. by intros [= <-].
Qed.

Lemma b64decode_raises (v : value) (e : exn) :
  b64decode v = Raise e -> ~ conversion_error e.
Proof.
  unfold b64decode, conversion_error.
  destruct v as [| | | |s|]; try (intros [= <-]; intuition discriminate).
  destruct (forallb _ s); [destruct (Base64.a2b_base64 s)|]; try done;
    intros [= <-]; intuition discriminate.
Qed.

Lemma parse_items_raises (props : value) (property : pystr)
    (its : list (pystr * value)) :
  forall st st' e,
    parse_items props property its st = (st', Raise e) ->
    ~ conversion_error e.
Proof.
  induction its as [|[k v] its IH]; intros st st' e; [done|].
  cbn [parse_items].
  destruct (contains (str "Value") k); [|apply IH].
  destruct (Str.eqb k (str "blobValue")).
  - rewrite !bind_run. unfold read.
    destruct (b64decode v) as [bs|e1] eqn:Hb.
    + unfold decode_utf8. destruct (Utf8.decode bs).
      * intros ->%store_item_raises. unfold conversion_error.
        intuition discriminate.
      * intros [= _ <-]. unfold conversion_error. intuition discriminate.
    + intros [= _ <-]. by apply (b64decode_raises v).
  - intros ->%store_item_raises. unfold conversion_error.
    intuition discriminate.
Qed.

Lemma parse_properties_raises (props : value) (st st' : state) (e : exn) :
  _parse_properties props st = (st', Raise e) -> ~ conversion_error e.
Proof.
  unfold _parse_properties. rewrite bind_run. unfold read at 1.
  destruct (items (objects st) (Some props)) as [its|e1] eqn:Hits.
  - rewrite bind_run.
    destruct (for_each _ its tt st) as [st1 [[]|e1]] eqn:Hloop; [done|].
    intros [= _ <-]. revert Hloop.
    apply (for_each_raises (fun e => ~ conversion_error e)).
    intros [] [property opt] st0 st2 e0. unfold parse_property.
    rewrite bind_run.
    destruct (store_item props property VNone st0) as [st3 [[]|e2]] eqn:Hst.
    + rewrite bind_run. unfold read at 1.
      destruct (items (objects st3) (Some opt)) as [its'|e2] eqn:Hopt.
      * apply parse_items_raises.
      * intros [= _ <-]. apply items_raises in Hopt as ->.
        unfold conversion_error. intuition discriminate.
    + intros [= _ <-]. apply store_item_raises in Hst as ->.
      unfold conversion_error. intuition discriminate.
  - intros [= _ <-]. apply items_raises in Hits as ->.
    unfold conversion_error. intuition discriminate.
Qed.

(** Lines 129-135 on an entity whose key path resolves: the identifier is
    looked up and coerced, in that order, before the properties are
    touched. *)
Lemma flatten_entity_run (entities : list flat_entity) (_entity : value)
    (st : state) (entity : option value) (segment kind : value) :
  get_or_empty (objects st) (Some _entity) (str "entity") = Return entity ->
  segment_in (objects st) entity = Return segment ->
  subscript_str (objects st) (Some segment) (str "kind") = Return kind ->
  flatten_entity entities _entity st =
  match subscript_str (objects st) (Some segment) (str "id") with
  | Raise e => (st, Raise e)
  | Return id_field =>
      match int id_field with
      | Raise e => (st, Raise e)
      | Return id =>
          match get_or_empty (objects st) entity (str "properties") with
          | Raise e => (st, Raise e)
          | Return props =>
              bind (match props with
                    | Some p => ret p
                    | None => alloc (ODict [])
                    end)
                   (fun props =>
                      bind (_parse_properties props)
                           (fun props =>
                              ret (entities ++ [FlatEntity kind id props])))
                   st
          end
      end
  end.
Proof.
  intros He Hseg Hkind. unfold flatten_entity.
  rewrite bind_run. unfold read at 1. rewrite He.
  rewrite bind_run, entity_kind_run. unfold kind_in. rewrite Hseg.
  cbn [and_then]. rewrite Hkind.
  rewrite bind_run, key_segment_run, Hseg.
  rewrite bind_run. unfold read at 1.
  destruct (subscript_str (objects st) (Some segment) (str "id"))
    as [id_field|e]; [|done].
  rewrite bind_run. unfold read at 1.
  destruct (int id_field) as [id|e]; [|done].
  rewrite bind_run. unfold read at 1.
  by destruct (get_or_empty (objects st) entity (str "properties")).
Qed.

Lemma segment_of_inv (h : heap) (_entity segment : value) :
  segment_of h _entity = Return segment ->
  exists entity,
    get_or_empty h (Some _entity) (str "entity") = Return entity /\
    segment_in h entity = Return segment.
Proof.
  unfold segment_of, and_then.
  destruct (get_or_empty h (Some _entity) (str "entity")) as [entity|];
    [|done].
  intros Hseg. by exists entity.
Qed.

(** * Responses that are not 200 *)

Lemma get_scheme_not_ok (r : response) (st : state) :
  status_code r <> 200%Z ->
  get_scheme r st =
  (st, Raise (Exception [VStr (str "Error:"); VInt (status_code r);
                         VStr (text r)])).
Proof.
  intros Hstatus. unfold get_scheme.
  by apply Z.eqb_neq in Hstatus as ->.
Qed.

Lemma format_response_not_ok (r : response) (format style : value)
    (st : state) :
  status_code r <> 200%Z ->
  format_response r format style st = (st, Return tt).
Proof.
  intros Hstatus. unfold format_response.
  by apply Z.eqb_neq in Hstatus as ->.
Qed.

(** C2: on a response with status 500 and body "boom", [get_scheme]
    raises the error that carries both, while [format_response], through
    which [query], [get] and [list] go, returns without raising and
    prints nothing. *)
Theorem format_response_swallows_error_status :
  get_scheme (Response 500 (str "boom") None) Example.empty_state =
  (Example.empty_state,
   Raise (Exception [VStr (str "Error:"); VInt 500; VStr (str "boom")])) /\
  format_response (Response 500 (str "boom") None)
    (VStr (str "yaml")) (VStr (str "scheme")) Example.empty_state =
  (Example.empty_state, Return tt).
Proof. by split. Qed.

End Flatten.



(** * Where the inferencer and the flattener part ways *)

Section UntypedKey.
Context `{Interpreter}.
Import Datastore.

Lemma replace_absent (old new s : pystr) :
  contains old s = false -> replace_from old new 0 s = s.
Proof.
  induction s as [|c s IH]; [done|]. cbn [contains replace_from].
  intros [Hstart Hrest]%orb_false_iff. rewrite Hstart. by rewrite IH.
Qed.

Lemma typed_key_none (d : list (pystr * value)) :
  (forall k, In k (List.map fst d) -> contains (str "Value") k = false) ->
  typed_key d = None.
Proof.
  induction d as [|[k v] d IH]; [done|]. cbn [List.map fst In typed_key].
  intros Hall. rewrite (Hall k) by by left. apply IH. intros k' Hk'.
  apply Hall. by right.
Qed.

Lemma is_tag_untyped (key : pystr) :
  contains (str "Value") key = false ->
  key <> str "excludeFromIndexes" -> key <> str "null" ->
  is_tag key = true /\ replace (str "Value") [] key = key.
Proof.
  intros Hvalue Hmeta Hnull.
  assert (replace (str "Value") [] key = key) as Hrep
    by by apply replace_absent.
  split; [|done]. unfold is_tag. rewrite Hrep.
  apply eqb_neq in Hmeta as ->. by apply eqb_neq in Hnull as ->.
Qed.

(** The tags of a TaggedValue whose keys are [key] and, possibly,
    "excludeFromIndexes". *)
Lemma opt_tags_untyped (h : heap) (opt : value) (key : pystr)
    (d : list (pystr * value)) :
  as_dict h opt = Some d ->
  contains (str "Value") key = false ->
  key <> str "excludeFromIndexes" -> key <> str "null" ->
  In key (List.map fst d) ->
  (forall k, In k (List.map fst d) ->
             k = key \/ k = str "excludeFromIndexes") ->
  forall t, In t (opt_tags h opt) <-> t = key.
Proof.
  intros Hd Hvalue Hmeta Hnull Hin Hkeys t.
  destruct (is_tag_untyped key Hvalue Hmeta Hnull) as [Htag Hrep].
  unfold opt_tags, iterate. unfold as_dict in Hd.
  destruct opt as [| | | | |l]; try done.
  destruct (h !! l) as [[d0|]|]; try done. injection Hd as ->.
  rewrite value_tags_in. split.
  - intros (v & Hv & Hvtag & ->). apply in_map_iff in Hv as ([k x] & Hk & Hkd).
    cbn [fst] in Hk. injection Hk as ->.
    destruct (Hkeys v) as [->| ->]; [|done|].
    + apply in_map_iff. by exists (v, x).
    + by vm_compute in Hvtag.
  - intros ->. exists key. split; [|done].
    apply in_map_iff in Hin as ([k x] & Hk & Hkd). cbn [fst] in Hk. subst k.
    apply in_map_iff. by exists (key, x).
Qed.

End UntypedKey.

(** * The theorems at work on a batch *)

Section Instances.
Import Datastore Example.

Lemma task_scheme_inferred :
  @generate_scheme interpreter task_data task_state =
  (task_state, Return task_scheme).
Proof. by vm_compute. Qed.

Lemma task_properties :
  objects task_state !! 7 =
  Some (ODict [ (str "done", VRef 3); (str "note", VRef 4);
                (str "tag", VRef 5); (str "m", VRef 6) ]).
Proof. reflexivity. Qed.

Lemma task_names_distinct (d : list (pystr * value)) :
  d = [ (str "done", VRef 3); (str "note", VRef 4);
        (str "tag", VRef 5); (str "m", VRef 6) ] ->
  NoDup (List.map fst d).
Proof.
  intros ->. apply (bool_decide_unpack _). by vm_compute.
Qed.

Lemma task_sampled_m (opt : value) :
  sampled (objects task_state) [VRef 9] (VStr (str "Task")) (str "m") opt ->
  opt = VRef 6.
Proof.
  intros (e & k & its & He & Hk & Heq & Hits & Hopt).
  destruct He as [<-|[]]. vm_compute in Hits. injection Hits as <-.
  repeat (destruct Hopt as [Hopt|Hopt]; [by inversion Hopt|]).
  destruct Hopt.
Qed.

End Instances.



Section Scenarios.
Import Datastore Example.

(** The Task batch: "note" is flattened to "hello". *)
Lemma blob_value_decodes_to_text_witness :
  _parse_properties (VRef 7) task_state =
  (State (<[7 := ODict task_flattened]> (objects task_state))
         (stdout task_state),
   Return (VRef 7)).
Proof.
  apply (blob_value_decodes_to_text task_state 7 4
           (str "note") (str "hello") (str "hello")
           [ (str "excludeFromIndexes", VBool true);
             (str "blobValue", VStr (str "aGVsbG8=")) ]
           [ (str "done", VRef 3) ]
           [ (str "tag", VRef 5); (str "m", VRef 6) ]
           [ (str "done", VBool true) ]
           [ (str "tag", VNone); (str "m", VNone) ]).
  - reflexivity.
  - by apply task_names_distinct.
  - repeat constructor; discriminate.
  - reflexivity.
  - reflexivity.
  - reflexivity.
  - repeat constructor.
  - repeat constructor.
Defined.

(** The Task batch: "done" is flattened to its payload [True]. *)
Lemma other_value_decodes_to_payload_witness :
  _parse_properties (VRef 7) task_state =
  (State (<[7 := ODict task_flattened]> (objects task_state))
         (stdout task_state),
   Return (VRef 7)).
Proof.
  apply (other_value_decodes_to_payload task_state 7 3
           (str "done") (str "booleanValue") (VBool true)
           [ (str "booleanValue", VBool true) ]
           []
           [ (str "note", VRef 4); (str "tag", VRef 5); (str "m", VRef 6) ]
           []
           [ (str "note", VStr (str "hello")); (str "tag", VNone);
             (str "m", VNone) ]).
  - reflexivity.
  - by apply task_names_distinct.
  - repeat constructor; discriminate.
  - reflexivity.
  - reflexivity.
  - discriminate.
  - repeat constructor.
  - repeat constructor.
Defined.

(** The Task batch: "m", which has no typed key, is flattened to [None]. *)
Lemma no_typed_key_decodes_to_none_witness :
  _parse_properties (VRef 7) task_state =
  (State (<[7 := ODict task_flattened]> (objects task_state))
         (stdout task_state),
   Return (VRef 7)).
Proof.
  apply (no_typed_key_decodes_to_none task_state 7 6
           (str "m")
           [ (str "meaning", VInt 3) ]
           [ (str "done", VRef 3); (str "note", VRef 4); (str "tag", VRef 5) ]
           []
           [ (str "done", VBool true); (str "note", VStr (str "hello"));
             (str "tag", VNone) ]
           []).
  - reflexivity.
  - by apply task_names_distinct.
  - repeat constructor; discriminate.
  - reflexivity.
  - reflexivity.
  - repeat constructor.
  - repeat constructor.
Defined.

(** The Task batch: the flattener returns the mapping it was given. *)
Lemma parse_properties_in_place_witness :
  _parse_properties (VRef 7) task_state =
  (State (<[7 := ODict task_flattened]> (objects task_state))
         (stdout task_state),
   Return (VRef 7)).
Proof.
  apply (proj2 (parse_properties_in_place task_state 7 _
                  task_properties)).
  - by apply task_names_distinct.
  - repeat constructor; discriminate.
  - repeat constructor.
Defined.

(** C7 as written fails: on a Task whose key has a name and no id,
    flattening raises [KeyError('id')], which is no conversion error,
    although the key has no numerically parseable identifier. *)
Lemma flatten_named_key_raises_key_error :
  snd (@flatten_entity interpreter [] (VRef 5) named_state) =
    Raise (KeyError (VStr (str "id"))) /\
  ~ conversion_error (KeyError (VStr (str "id"))) /\
  ~ (exists id_field,
       and_then (segment_of (objects named_state) (VRef 5))
                (fun segment =>
                   subscript_str (objects named_state) (Some segment)
                                 (str "id")) = Return id_field /\
       @parseable interpreter id_field).
Proof.
  split; [reflexivity|]. split.
  - unfold conversion_error. intuition discriminate.
  - intros (id_field & Hid & _). discriminate Hid.
Qed.

(** C10 as written fails: a TaggedValue whose only key is "null", which
    does not contain "Value" and is not "excludeFromIndexes", is not
    recorded under that key: the inferred type is [None]. *)
Lemma null_key_is_not_inferred :
  contains (str "Value") (str "null") = false /\
  str "null" <> str "excludeFromIndexes" /\
  @generate_scheme interpreter null_key_data null_key_state =
  (null_key_state, Return [ (VStr (str "Task"), [ (str "p", None) ]) ]).
Proof. split; [reflexivity|]. split; [discriminate|reflexivity]. Qed.

End Scenarios.



(** * Lines of text *)

Section Lines.
Import Text.

Lemma split_not_nil (sep : N) (s : pystr) : split sep s <> [].
Proof.
  destruct s as [|c s]; [done|]. cbn [split].
  destruct (c =? sep)%N; [done|]. by destruct (split sep s).
Qed.

(** No piece of [s.split(sep)] holds the separator. *)
Lemma split_pieces (sep : N) (s : pystr) :
  Forall (fun piece => ~ In sep piece) (split sep s).
Proof.
  induction s as [|c s IH]; cbn [split].
  { constructor; [by intros []|constructor]. }
  destruct (c =? sep)%N eqn:Hc.
  { constructor; [by intros []|done]. }
  apply N.eqb_neq in Hc.
  destruct (split sep s) as [|piece pieces].
  { constructor; [|constructor]. intros [Heq|[]]. by subst. }
  apply Forall_cons in IH as [Hpiece Hpieces].
  constructor; [|done]. intros [Heq|Hin]; [by subst|done].
Qed.

Lemma join_cons (sep piece : pystr) (rest : list pystr) :
  rest <> [] -> join sep (piece :: rest) = piece ++ sep ++ join sep rest.
Proof. by destruct rest. Qed.

(** [sep.join(s.split(sep)) == s] *)
Lemma join_split (sep : N) (s : pystr) : join [sep] (split sep s) = s.
Proof.
  induction s as [|c s IH]; [done|]. cbn [split].
  destruct (c =? sep)%N eqn:Hc.
  - apply N.eqb_eq in Hc as ->.
    rewrite join_cons by apply split_not_nil. by rewrite IH.
  - pose proof (split_not_nil sep s) as Hnil.
    destruct (split sep s) as [|piece pieces]; [done|].
    destruct pieces as [|piece' pieces].
    + cbn [join] in *. by rewrite IH.
    + rewrite <- IH.
      by rewrite (join_cons _ (c :: piece)), (join_cons _ piece).
Qed.

Lemma split_app_sep (sep : N) (piece rest : pystr) :
  ~ In sep piece ->
  split sep (piece ++ sep :: rest) = piece :: split sep rest.
Proof.
  induction piece as [|c piece IH]; cbn [app split In].
  - by rewrite N.eqb_refl.
  - intros Hnot. assert (c <> sep) as Hc by tauto.
    apply N.eqb_neq in Hc as ->. rewrite IH; [done|tauto].
Qed.

Lemma split_piece (sep : N) (piece : pystr) :
  ~ In sep piece -> split sep piece = [piece].
Proof.
  induction piece as [|c piece IH]; cbn [split In]; [done|].
  intros Hnot. assert (c <> sep) as Hc by tauto.
  apply N.eqb_neq in Hc as ->. rewrite IH; [done|tauto].
Qed.

(** [sep.join(pieces).split(sep) == pieces] when there is a piece and no
    piece holds the separator. *)
Lemma split_join (sep : N) (pieces : list pystr) :
  pieces <> [] -> Forall (fun piece => ~ In sep piece) pieces ->
  split sep (join [sep] pieces) = pieces.
Proof.
  induction pieces as [|piece pieces IH]; [done|]. intros _ Hall.
  apply Forall_cons in Hall as [Hpiece Hall].
  destruct pieces as [|piece' pieces].
  - by apply split_piece.
  - rewrite join_cons by done. cbn [app].
    rewrite split_app_sep by done. by rewrite IH.
Qed.

(** The loop of lines 178-182 keeps, in order, the lines that do not
    start with [prefix]. *)
Lemma kept_lines (prefix : pystr) (lines kept : list pystr) :
  fold_left
    (fun kept line =>
       if startswith prefix line then kept else kept ++ [line])
    lines kept =
  kept ++ List.filter (fun line => negb (startswith prefix line)) lines.
Proof.
  revert kept. induction lines as [|line lines IH]; intros kept.
  - cbn [fold_left List.filter]. by rewrite app_nil_r.
  - cbn [fold_left List.filter]. rewrite IH.
    destruct (startswith prefix line); cbn [negb]; [done|].
    by rewrite <- app_assoc.
Qed.

Lemma filter_all {A} (f : A -> bool) (l : list A) :
  Forall (fun x => f x = true) l -> List.filter f l = l.
Proof.
  induction 1 as [|x l Hx Hl IH]; [done|]. cbn [List.filter].
  by rewrite Hx, IH.
Qed.

Lemma filter_kept {A} (f : A -> bool) (l : list A) :
  Forall (fun x => f x = true) (List.filter f l).
Proof.
  induction l as [|x l IH]; [constructor|]. cbn [List.filter].
  destruct (f x) eqn:Hx; [by constructor|done].
Qed.

Lemma filter_pieces {A} (P : A -> Prop) (f : A -> bool) (l : list A) :
  Forall P l -> Forall P (List.filter f l).
Proof.
  induction 1 as [|x l Hx Hl IH]; [constructor|]. cbn [List.filter].
  destruct (f x); [by constructor|done].
Qed.

Lemma clean_query_run (text : pystr) :
  Client._clean_query (AStr text) =
  Return (join [10%N]
            (List.filter (fun line => negb (startswith (str "--") line))
                         (split 10 text)), []).
Proof. unfold Client._clean_query. by rewrite kept_lines. Qed.

(** X1: [_clean_query] returns, with no option, the lines of the text that
    do not start with "--", in their order and unchanged; when no line is
    left, it returns the empty text. *)
Theorem clean_query_keeps_other_lines (text : pystr) :
  exists cleaned,
    Client._clean_query (AStr text) = Return (cleaned, []) /\
    match List.filter (fun line => negb (startswith (str "--") line))
                      (split 10 text) with
    | [] => cleaned = []
    | kept => split 10 cleaned = kept
    end.
Proof.
  rewrite clean_query_run. eexists. split; [done|].
  pose proof (filter_pieces _ (fun line => negb (startswith (str "--") line))
                _ (split_pieces 10 text)) as Hpieces.
  destruct (List.filter _ (split 10 text)) as [|line kept] eqn:Hkept; [done|].
  by apply split_join.
Qed.

Lemma kept_lines_twice (keep : pystr -> bool) (text : pystr) :
  keep [] = true ->
  join [10%N]
    (List.filter keep
       (split 10 (join [10%N] (List.filter keep (split 10 text))))) =
  join [10%N] (List.filter keep (split 10 text)).
Proof.
  intros Hempty.
  pose proof (filter_pieces _ keep _ (split_pieces 10 text)) as Hpieces.
  pose proof (filter_kept keep (split 10 text)) as Hkept.
  destruct (List.filter keep (split 10 text)) as [|line kept].
  - cbn [join split List.filter]. by rewrite Hempty.
  - rewrite split_join by done. by rewrite filter_all.
Qed.

(** X2: Cleaning a cleaned query changes nothing. *)
Theorem clean_query_twice (text cleaned : pystr)
    (opts : list (pystr * value)) :
  Client._clean_query (AStr text) = Return (cleaned, opts) ->
  Client._clean_query (AStr cleaned) = Return (cleaned, opts).
Proof.
  intros Hrun. rewrite clean_query_run in Hrun. rewrite clean_query_run.
  injection Hrun as <- <-. by rewrite kept_lines_twice.
Qed.

(** X3: A text none of whose lines starts with "--" is returned as it is. *)
Theorem clean_query_without_comment (text : pystr) :
  Forall (fun line => startswith (str "--") line = false) (split 10 text) ->
  Client._clean_query (AStr text) = Return (text, []).
Proof.
  intros Hall. rewrite clean_query_run, filter_all.
  - by rewrite join_split.
  - eapply Forall_impl; [exact Hall|]. by intros line ->.
Qed.

End Lines.



(** * The entries of the scheme *)

Section Entries.
Context `{Interpreter}.
Import Datastore.
Implicit Types (s : tag_sets) (k kind : value) (p q property : pystr).

Lemma is_Some_option_map {A B} (f : A -> B) (o : option A) :
  is_Some (option_map f o) <-> is_Some o.
Proof. destruct o; cbn; split; intros [x Hx]; try done; by eexists. Qed.

Lemma for_each_app {A S} (body : S -> A -> M S) (xs ys : list A) :
  forall (s : S) (st : state),
    for_each body (xs ++ ys) s st =
    match for_each body xs s st with
    | (st', Return s') => for_each body ys s' st'
    | (st', Raise e) => (st', Raise e)
    end.
Proof.
  induction xs as [|x xs IH]; intros s st; cbn [app for_each]; [done|].
  rewrite !bind_run. destruct (body s x st) as [st1 [s1|e]]; [apply IH|done].
Qed.

Lemma scan_entities_reads (results : list value) s :
  reads_only (for_each scan_entity results s).
Proof. apply reads_only_for_each. intros ? ?. apply scan_entity_reads. Qed.

(** What scheme inference returns: the collapse of the sets the first
    loop builds. *)
Lemma generate_scheme_inv (data : value) (st st' : state) (sch : scheme) :
  generate_scheme data st = (st', Return sch) ->
  st' = st /\
  exists results sets,
    results_of (objects st) data = Return results /\
    for_each scan_entity results [] st = (st, Return sets) /\
    (forall k p, at_pair sch k p = option_map collapsed (at_pair sets k p)) /\
    (forall k, is_Some (lookup_key py_eqb k sch) <->
               is_Some (lookup_key py_eqb k sets)).
Proof.
  intros Hrun.
  pose proof (reads_only_run _ _ _ _ (generate_scheme_reads data) Hrun) as ->.
  split; [done|]. revert Hrun. unfold generate_scheme.
  rewrite bind_run, entity_results_run.
  destruct (results_of (objects st) data) as [results|e]; [|done].
  rewrite bind_run.
  destruct (for_each scan_entity results [] st) as [st1 [sets|e]] eqn:Hscan;
    [|done].
  pose proof (reads_only_run _ _ _ _ (scan_entities_reads results []) Hscan)
    as ->.
  rewrite collapse_kinds_run. intros [= <-].
  exists results, sets. split; [done|]. split; [done|]. cbn [app]. split.
  - intros k p. unfold at_pair. rewrite lookup_key_map.
    destruct (lookup_key py_eqb k sets) as [props|]; [|done].
    cbn [option_map]. by rewrite lookup_key_map.
  - intros k. rewrite lookup_key_map. apply is_Some_option_map.
Qed.

(** Lines 88-93 add no entry and remove none. *)
Lemma scan_values_entries kind q (values : list value) :
  forall s st st' s',
    for_each (scan_value kind q) values s st = (st', Return s') ->
    (forall k p, is_Some (at_pair s' k p) <-> is_Some (at_pair s k p)) /\
    (forall k, is_Some (lookup_key py_eqb k s') <->
               is_Some (lookup_key py_eqb k s)).
Proof.
  induction values as [|v values IH]; intros s st st' s'.
  - cbn [for_each]. by intros [= <- <-].
  - cbn [for_each]. rewrite bind_run.
    destruct v as [| | | |value|]; cbn [scan_value]; try done.
    destruct (is_tag value); unfold ret at 1; intros Hloop;
      apply IH in Hloop as [Ha Hb]; [|done].
    split.
    + intros k p. rewrite Ha, at_pair_add.
      destruct (_ && _); [apply is_Some_option_map|done].
    + intros k. rewrite Hb.
      rewrite (lookup_alter_key py_eqb py_eqb_sym py_eqb_trans).
      destruct (py_eqb kind k); [apply is_Some_option_map|done].
Qed.

(** Lines 86-93 add the entry of the property they visit, and no other. *)
Lemma scan_property_entries kind q opt s st st' s' :
  is_Some (lookup_key py_eqb kind s) ->
  scan_property kind s (q, opt) st = (st', Return s') ->
  (forall k p, is_Some (at_pair s' k p) <->
               is_Some (at_pair s k p) \/ (py_eqb kind k = true /\ p = q)) /\
  (forall k, is_Some (lookup_key py_eqb k s') <->
             is_Some (lookup_key py_eqb k s)).
Proof.
  intros [props Hkind]. unfold scan_property. rewrite Hkind.
  set (s1 := match lookup_key Str.eqb q props with
             | None => _ | Some _ => _ end).
  assert ((forall k p, is_Some (at_pair s1 k p) <->
                       is_Some (at_pair s k p) \/
                       (py_eqb kind k = true /\ p = q)) /\
          (forall k, is_Some (lookup_key py_eqb k s1) <->
                     is_Some (lookup_key py_eqb k s))) as [Ha1 Hb1].
  { subst s1. destruct (lookup_key Str.eqb q props) as [tags|] eqn:Hq.
    - split; [|done]. intros k p. split; [by left|].
      intros [Hsome|[Hk ->]]; [done|].
      rewrite <- (at_pair_congr s kind k) by done.
      unfold at_pair. rewrite Hkind, Hq. by eexists.
    - split.
      + intros k p. rewrite at_pair_new_property.
        destruct (py_eqb kind k) eqn:Hk; [|by intuition].
        rewrite <- (lookup_key_congr py_eqb py_eqb_sym py_eqb_trans kind k)
          by done.
        rewrite Hkind. destruct (Str.eqb q p) eqn:Hqp.
        * apply eqb_eq in Hqp as ->. split; [by right|by eexists].
        * apply eqb_neq in Hqp. split; [by left|].
          intros [Hsome|[_ ->]]; done.
      + intros k.
        rewrite (lookup_alter_key py_eqb py_eqb_sym py_eqb_trans).
        destruct (py_eqb kind k); [apply is_Some_option_map|done]. }
  rewrite bind_run. unfold read at 1.
  destruct (iterate (objects st) (Some opt)) as [values|e]; [|done].
  intros Hloop. apply scan_values_entries in Hloop as [Ha Hb]. split.
  - intros k p. by rewrite Ha, Ha1.
  - intros k. by rewrite Hb, Hb1.
Qed.

(** Lines 85-93, for all properties of one entity. *)
Lemma scan_properties_entries kind (its : list (pystr * value)) :
  forall s st st' s',
    is_Some (lookup_key py_eqb kind s) ->
    for_each (scan_property kind) its s st = (st', Return s') ->
    (forall k p, is_Some (at_pair s' k p) <->
                 is_Some (at_pair s k p) \/
                 (py_eqb kind k = true /\ In p (List.map fst its))) /\
    (forall k, is_Some (lookup_key py_eqb k s') <->
               is_Some (lookup_key py_eqb k s)).
Proof.
  induction its as [|[q opt] its IH]; intros s st st' s' Hsome.
  - cbn [for_each]. intros [= <- <-]. split; [|done].
    intros k p. cbn [List.map In]. tauto.
  - cbn [for_each]. rewrite bind_run.
    destruct (scan_property kind s (q, opt) st) as [st1 [s1|e]] eqn:Hbody;
      [|done].
    apply scan_property_entries in Hbody as [Ha1 Hb1]; [|done].
    intros Hloop. apply IH in Hloop as [Ha Hb]; [|by apply Hb1].
    split.
    + intros k p. rewrite Ha, Ha1. cbn [List.map fst In].
      intuition (subst; auto).
    + intros k. by rewrite Hb, Hb1.
Qed.

(** Lines 77-93, for one entity result. *)
Lemma scan_entity_entries s (_entity : value) st st' s' :
  scan_entity s _entity st = (st', Return s') ->
  exists kk its,
    kind_of (objects st) _entity = Return kk /\
    properties_of (objects st) _entity = Return its /\
    (forall k p, is_Some (at_pair s' k p) <->
                 is_Some (at_pair s k p) \/
                 (py_eqb kk k = true /\ In p (List.map fst its))) /\
    (forall k, is_Some (lookup_key py_eqb k s') <->
               is_Some (lookup_key py_eqb k s) \/ py_eqb kk k = true).
Proof.
  unfold scan_entity, kind_of, properties_of.
  rewrite bind_run. unfold read at 1.
  destruct (get_or_empty (objects st) (Some _entity) (str "entity"))
    as [entity|e]; [|done].
  cbn [and_then]. rewrite bind_run, entity_kind_run.
  destruct (kind_in (objects st) entity) as [kind|e]; [|done].
  destruct (hashable kind) eqn:Hh; [|done].
  set (s1 := match lookup_key py_eqb kind s with
             | None => _ | Some _ => _ end).
  assert ((forall k p, at_pair s1 k p = at_pair s k p) /\
          (forall k, is_Some (lookup_key py_eqb k s1) <->
                     is_Some (lookup_key py_eqb k s) \/
                     py_eqb kind k = true) /\
          is_Some (lookup_key py_eqb kind s1)) as (Ha1 & Hb1 & Hsome1).
  { subst s1. destruct (lookup_key py_eqb kind s) as [props|] eqn:Hkind.
    - split; [done|]. split; [|by rewrite Hkind; eexists].
      intros k. split; [by left|]. intros [Hsome|Hk]; [done|].
      rewrite <- (lookup_key_congr py_eqb py_eqb_sym py_eqb_trans kind k)
        by done.
      rewrite Hkind. by eexists.
    - split; [intros k p; by apply at_pair_new_kind|].
      assert (forall k,
        lookup_key py_eqb k (set_key py_eqb kind [] s) =
        if py_eqb kind k then Some [] else lookup_key py_eqb k s) as Hset.
      { intros k.
        apply (lookup_set_key py_eqb py_eqb_sym py_eqb_trans).
        by apply py_eqb_refl. }
      split.
      + intros k. rewrite Hset. destruct (py_eqb kind k) eqn:Hk.
        * split; [by right|by eexists].
        * split; [by left|]. by intros [Hsome|Hk'].
      + rewrite Hset, py_eqb_refl by done. by eexists. }
  rewrite bind_run. unfold read at 1.
  destruct (get_or_empty (objects st) entity (str "properties"))
    as [props|e]; [|done].
  cbn [and_then]. rewrite bind_run. unfold read at 1.
  destruct (items (objects st) props) as [its|e]; [|done].
  intros Hloop. apply scan_properties_entries in Hloop as [Ha Hb]; [|done].
  exists kind, its. split; [done|]. split; [done|]. split.
  - intros k p. by rewrite Ha, Ha1.
  - intros k. by rewrite Hb, Hb1.
Qed.

(** Lines 76-93, for the whole batch. *)
Lemma scan_entities_entries (results : list value) :
  forall s st st' s',
    for_each scan_entity results s st = (st', Return s') ->
    (forall k p, is_Some (at_pair s' k p) <->
                 is_Some (at_pair s k p) \/
                 exists opt, sampled (objects st) results k p opt) /\
    (forall k, is_Some (lookup_key py_eqb k s') <->
               is_Some (lookup_key py_eqb k s) \/
               exists e kk, In e results /\
                            kind_of (objects st) e = Return kk /\
                            py_eqb kk k = true).
Proof.
  induction results as [|e results IH]; intros s st st' s'.
  - cbn [for_each]. intros [= <- <-]. split.
    + intros k p. split; [by left|].
      by intros [Hsome|(opt & e & kk & its & [] & _)].
    + intros k. split; [by left|]. by intros [Hsome|(e & kk & [] & _)].
  - cbn [for_each]. rewrite bind_run.
    destruct (scan_entity s e st) as [st1 [s1|err]] eqn:Hbody; [|done].
    pose proof (reads_only_run _ _ _ _ (scan_entity_reads s e) Hbody) as ->.
    apply scan_entity_entries in Hbody as (kk & its & Hkk & Hits & Ha1 & Hb1).
    intros Hloop. apply IH in Hloop as [Ha Hb]. split.
    + intros k p. rewrite Ha, Ha1. split.
      * intros [[Hsome|[Hk Hin]]|(opt & e' & k' & its' & He' & Hrest)].
        -- by left.
        -- right. apply in_map_iff in Hin as ([p' opt] & Hp & Hin).
           cbn [fst] in Hp. subst p'. exists opt, e, kk, its.
           split; [by left|done].
        -- right. exists opt, e', k', its'. split; [by right|done].
      * intros [Hsome|(opt & e' & k' & its' & [<-|He'] & Hk' & Heq & Hits'
                       & Hin)].
        -- left. by left.
        -- left. right. rewrite Hkk in Hk'. injection Hk' as <-.
           rewrite Hits in Hits'. injection Hits' as <-.
           split; [done|]. apply in_map_iff. by exists (p, opt).
        -- right. by exists opt, e', k', its'.
    + intros k. rewrite Hb, Hb1. split.
      * intros [[Hsome|Hk]|(e' & k' & He' & Hrest)].
        -- by left.
        -- right. exists e, kk. split; [by left|done].
        -- right. exists e', k'. split; [by right|done].
      * intros [Hsome|(e' & k' & [<-|He'] & Hk' & Heq)].
        -- left. by left.
        -- left. right. rewrite Hkk in Hk'. by injection Hk' as <-.
        -- right. by exists e', k'.
Qed.

(** X4: The scheme has an entry for a kind exactly when an entity of the
    batch has that kind, and under it an entry for a property exactly when
    an entity of that kind has the property. *)
Theorem scheme_lists_kinds_and_properties (data : value) (st st' : state)
    (sch : scheme) (results : list value) :
  generate_scheme data st = (st', Return sch) ->
  results_of (objects st) data = Return results ->
  (forall kind,
     is_Some (lookup_key py_eqb kind sch) <->
     exists _entity k,
       In _entity results /\ kind_of (objects st) _entity = Return k /\
       py_eqb k kind = true) /\
  (forall kind property,
     is_Some (at_pair sch kind property) <->
     exists opt, sampled (objects st) results kind property opt).
Proof.
  intros Hrun Hres.
  apply generate_scheme_inv in Hrun
    as (_ & results' & sets & Hres' & Hscan & Hat & Hkinds).
  rewrite Hres in Hres'. injection Hres' as <-.
  apply scan_entities_entries in Hscan as [Ha Hb]. split.
  - intros kind. rewrite Hkinds, Hb. split; [|by right].
    by intros [[x Hx]|Hex].
  - intros kind property. rewrite Hat, is_Some_option_map, Ha.
    split; [|by right]. by intros [[x Hx]|Hex].
Qed.

Lemma single_tag_entry (data : value) (st st' : state)
    (sch : scheme) (results : list value) (kind : value)
    (property t : pystr) :
  generate_scheme data st = (st', Return sch) ->
  results_of (objects st) data = Return results ->
  In t (observed_tags (objects st) results kind property) ->
  (forall t', In t' (observed_tags (objects st) results kind property) ->
              t' = t) ->
  at_pair sch kind property = Some (Some t).
Proof.
  intros Hrun Hres Hin Hall.
  destruct (generate_scheme_sound data st st' sch Hrun)
    as (_ & results' & sets & Hres' & [Ha Hb] & Hat).
  rewrite Hres in Hres'. injection Hres' as <-.
  rewrite Hat. destruct (at_pair sets kind property) as [tags|] eqn:Htags.
  - cbn [option_map]. f_equal.
    assert (In t tags) as Ht by by apply (Ha kind property tags Htags).
    destruct (collapsed tags) as [t'|] eqn:Hc.
    + apply collapsed_some in Hc. f_equal. apply Hall.
      by apply (Ha kind property tags Htags).
    + apply collapsed_none in Hc. by subst.
  - by destruct (Hb kind property t Hin).
Qed.

(** X5: When the tags observed for a pair are all the same tag, that tag
    is the entry of the pair, whatever element [set.pop()] picks. *)
Theorem scheme_entry_of_single_tag (data : value) (st st' : state)
    (sch : scheme) (results : list value) (kind : value)
    (property t : pystr) :
  generate_scheme data st = (st', Return sch) ->
  results_of (objects st) data = Return results ->
  In t (observed_tags (objects st) results kind property) ->
  (forall t', In t' (observed_tags (objects st) results kind property) ->
              t' = t) ->
  at_pair sch kind property = Some (Some t).
Proof.
  apply (single_tag_entry data st st' sch results kind property t).
Qed.

(** X7: A response with no "batch", a batch with no "entityResults", or
    results that hold no entity give the empty scheme. *)
Theorem generate_scheme_without_results (data : value) (st : state)
    (d : list (pystr * value)) :
  as_dict (objects st) data = Some d ->
  match lookup_key Str.eqb (str "batch") d with
  | None => True
  | Some batch =>
      exists b,
        as_dict (objects st) batch = Some b /\
        match lookup_key Str.eqb (str "entityResults") b with
        | None => True
        | Some results => iterate (objects st) (Some results) = Return []
        end
  end ->
  generate_scheme data st = (st, Return []).
Proof.
  intros Hd Hbatch. unfold generate_scheme.
  rewrite bind_run, entity_results_run. unfold results_of, get_or_empty.
  rewrite Hd. cbn [and_then].
  destruct (lookup_key Str.eqb (str "batch") d) as [batch|]; [|done].
  destruct Hbatch as (b & -> & Hresults). cbn [and_then].
  destruct (lookup_key Str.eqb (str "entityResults") b) as [results|];
    [|done].
  by rewrite Hresults.
Qed.

Lemma scan_entity_raises s (_entity : value) st (e : exn) :
  kind_of (objects st) _entity = Raise e ->
  scan_entity s _entity st = (st, Raise e).
Proof.
  unfold kind_of, scan_entity. rewrite bind_run. unfold read at 1.
  destruct (get_or_empty (objects st) (Some _entity) (str "entity"))
    as [entity|e1]; cbn [and_then]; [|by intros [= ->]].
  rewrite bind_run, entity_kind_run. by intros ->.
Qed.

(** X8: One entity result whose key path does not give a kind makes scheme
    inference raise what the lookup raised: no scheme is returned for the
    entities before it. *)
Theorem generate_scheme_raises_on_missing_kind (data : value) (st : state)
    (before after : list value) (_entity : value) (e : exn) :
  results_of (objects st) data = Return (before ++ _entity :: after) ->
  Forall (well_formed_entity (objects st)) before ->
  kind_of (objects st) _entity = Raise e ->
  generate_scheme data st = (st, Raise e).
Proof.
  intros Hres Hbefore Hkind. unfold generate_scheme.
  rewrite bind_run, entity_results_run, Hres, bind_run, for_each_app.
  destruct (scan_entities_returns before [] st Hbefore) as [sets ->].
  cbn [for_each]. rewrite bind_run.
  by rewrite (scan_entity_raises _ _ _ e Hkind).
Qed.

End Entries.



(** * A property that does not decode *)

Section Failure.
Context `{Interpreter}.
Import Datastore.

Lemma decodes_to_keys (h : heap) (d d' : list (pystr * value)) :
  decodes_to h d d' -> List.map fst d' = List.map fst d.
Proof.
  induction 1 as [|it it' d d' [Hk _] _ IH]; [done|].
  cbn [List.map]. by rewrite Hk, IH.
Qed.

(** The loop of [_parse_properties] over the properties [todo], which
    decode, of a mapping that holds [done] before them and [rest] after
    them. *)
Lemma parse_loop_prefix (p : loc) (todo todo' rest : list (pystr * value))
    (h : heap) :
  Forall (fun it => snd it <> VRef p) todo ->
  decodes_to h todo todo' ->
  forall (done : list (pystr * value)) (st : state),
    (forall l, l <> p -> objects st !! l = h !! l) ->
    objects st !! p = Some (ODict (done ++ todo ++ rest)) ->
    NoDup (List.map fst (done ++ todo ++ rest)) ->
    for_each (parse_property (VRef p)) todo tt st =
    (State (<[p := ODict (done ++ todo' ++ rest)]> (objects st)) (stdout st),
     Return tt).
Proof.
  intros Hself Hdec. revert Hself.
  induction Hdec as [|[k opt] [k' v] todo todo' [Hk Hv] Hdec IH];
    intros Hself done st Hframe Hp Hnodup.
  - cbn [for_each app]. unfold ret. rewrite list_insert_id; [|done].
    by destruct st.
  - cbn [fst snd] in Hk, Hv. subst k'.
    apply Forall_cons in Hself as [Hopt Hself]. cbn [snd] in Hopt.
    cbn [for_each]. rewrite bind_run.
    rewrite (parse_property_run p (done ++ ((k, opt) :: todo) ++ rest))
      by done.
    assert (decoded (objects st) opt = decoded h opt) as ->.
    { unfold decoded, items, as_dict. destruct opt as [| | | | |l]; try done.
      rewrite Hframe; [done|congruence]. }
    rewrite Hv.
    assert (~ In k (List.map fst done)) as Hfresh.
    { rewrite List.map_app in Hnodup. cbn [List.map fst app] in Hnodup.
      apply NoDup_app in Hnodup as (_ & Hdisj & _).
      intros Hin%list_elem_of_In. apply (Hdisj k Hin). left. }
    cbn [app]. rewrite set_key_middle by done.
    specialize (IH Hself (done ++ [(k, v)])).
    rewrite <- !app_assoc in IH. cbn [app] in IH.
    rewrite IH; cbn [objects stdout].
    + by rewrite list_insert_insert_eq.
    + intros l Hl. rewrite list_lookup_insert_ne by done. by apply Hframe.
    + apply list_lookup_insert_eq. by eapply lookup_lt_Some.
    + rewrite List.map_app in *. done.
Qed.

(** [_parse_properties] on a mapping whose properties decode up to one
    that does not: it raises what the decoding raised, with the
    properties before that one flattened, that one set to [None] and
    those after it as they were. *)
Lemma parse_properties_stops (st : state) (p : loc) (property : pystr)
    (opt : value) (e : exn) (before before' after : list (pystr * value)) :
  objects st !! p = Some (ODict (before ++ (property, opt) :: after)) ->
  NoDup (List.map fst (before ++ (property, opt) :: after)) ->
  no_self p before -> opt <> VRef p ->
  decodes_to (objects st) before before' ->
  decoded (objects st) opt = Raise e ->
  _parse_properties (VRef p) st =
  (State (<[p := ODict (before' ++ (property, VNone) :: after)]>
            (objects st))
         (stdout st), Raise e).
Proof.
  intros Hp Hnodup Hself Hopt Hdec He. unfold _parse_properties.
  rewrite bind_run. unfold read, items, as_dict. rewrite Hp.
  rewrite bind_run, for_each_app.
  assert (p < length (objects st)) as Hlt by by eapply lookup_lt_Some.
  rewrite (parse_loop_prefix p before before' ((property, opt) :: after)
             (objects st) Hself Hdec [] st) by done.
  cbn [app for_each]. rewrite !bind_run.
  rewrite (parse_property_run p (before' ++ (property, opt) :: after));
    cbn [objects stdout]; [|by apply list_lookup_insert_eq|done].
  assert (decoded (<[p:=ODict (before' ++ (property, opt) :: after)]>
                     (objects st)) opt = decoded (objects st) opt) as ->.
  { unfold decoded, items. by rewrite as_dict_insert. }
  rewrite He, list_insert_insert_eq, set_key_middle; [done|].
  rewrite (decodes_to_keys _ _ _ Hdec).
  rewrite List.map_app in Hnodup. cbn [List.map fst] in Hnodup.
  apply NoDup_app in Hnodup as (_ & Hdisj & _).
  intros Hin%list_elem_of_In. apply (Hdisj property Hin). left.
Qed.

(** X9: [_parse_properties] is not undone by a failure: when a property
    does not decode, the exception leaves the mapping with the earlier
    properties flattened, the failing one set to [None] and the later ones
    untouched. *)
Theorem parse_properties_stops_at_failure (st : state) (p : loc)
    (property : pystr) (opt : value) (e : exn)
    (before before' after : list (pystr * value)) :
  objects st !! p = Some (ODict (before ++ (property, opt) :: after)) ->
  NoDup (List.map fst (before ++ (property, opt) :: after)) ->
  no_self p before -> opt <> VRef p ->
  decodes_to (objects st) before before' ->
  decoded (objects st) opt = Raise e ->
  _parse_properties (VRef p) st =
  (State (<[p := ODict (before' ++ (property, VNone) :: after)]>
            (objects st))
         (stdout st), Raise e).
Proof.
  apply (parse_properties_stops st p property opt e before before' after).
Qed.

(** X10: A blob whose bytes are not UTF-8 text makes the flattener raise
    [UnicodeDecodeError], leaving the property set to [None]. *)
Theorem blob_that_is_not_text_raises (st : state) (p o : loc)
    (property : pystr) (bs : list N)
    (its before before' after : list (pystr * value)) :
  objects st !! p = Some (ODict (before ++ (property, VRef o) :: after)) ->
  NoDup (List.map fst (before ++ (property, VRef o) :: after)) ->
  no_self p before -> o <> p ->
  decodes_to (objects st) before before' ->
  objects st !! o = Some (ODict its) ->
  typed_key its = Some (str "blobValue", blob_payload bs) ->
  Forall (fun b => (b < 256)%N) bs ->
  Utf8.decode bs = None ->
  _parse_properties (VRef p) st =
  (State (<[p := ODict (before' ++ (property, VNone) :: after)]>
            (objects st))
         (stdout st), Raise UnicodeDecodeError).
Proof.
  intros Hp Hnodup Hself Hop Hdec Ho Hkey Hbytes Htext.
  apply (parse_properties_stops st p property (VRef o) UnicodeDecodeError
           before before' after); try done; [congruence|].
  rewrite (decoded_dict _ o its) by done.
  unfold decode_items. rewrite Hkey, eqb_refl.
  unfold blob_payload, b64decode, and_then.
  rewrite b64encode_ascii, a2b_base64_b64encode by done.
  unfold decode_utf8. by rewrite Htext.
Qed.

End Failure.



(** * Parsing a response *)

Section Parsing.

Lemma json_nested_ind (P : json -> Prop) :
  P JNull -> (forall b, P (JBool b)) -> (forall n, P (JInt n)) ->
  (forall f, P (JFloat f)) -> (forall s, P (JStr s)) ->
  (forall elems, Forall P elems -> P (JArr elems)) ->
  (forall members, Forall (fun m => P (snd m)) members ->
                   P (JObj members)) ->
  forall j, P j.
Proof.
  intros HNull HBool HInt HFloat HStr HArr HObj.
  fix IH 1. intros [| b | n | f | s | elems | members].
  - exact HNull.
  - apply HBool.
  - apply HInt.
  - apply HFloat.
  - apply HStr.
  - apply HArr. induction elems as [|j elems IHelems];
      constructor; [apply IH|exact IHelems].
  - apply HObj. induction members as [|[k j] members IHmembers];
      constructor; [apply IH|exact IHmembers].
Qed.

(** [response.json()] builds objects and prints nothing. *)
Lemma load_stdout (j : json) :
  forall st, stdout (fst (load j st)) = stdout st.
Proof.
  induction j as [| b | n | f | s | elems Helems | members Hmembers]
    using json_nested_ind; intros st; try reflexivity.
  - cbn [load]. rewrite bind_run.
    match goal with
    | |- context [?F elems st] =>
        assert (forall st, stdout (fst (F elems st)) = stdout st) as Hall
    end.
    { clear st. induction Helems as [|j elems Hj Helems IH]; intros st;
        [reflexivity|].
      rewrite bind_run. specialize (Hj st).
      destruct (load j st) as [st1 [v|e]]; [|done].
      rewrite bind_run. specialize (IH st1).
      match goal with
      | |- context [?F elems st1] => destruct (F elems st1) as [st2 [vs|e]]
      end; unfold ret; cbn [fst] in *; congruence. }
    specialize (Hall st).
    match goal with
    | |- context [?F elems st] => destruct (F elems st) as [st1 [vs|e]]
    end; unfold alloc; cbn [fst stdout] in *; done.
  - cbn [load]. rewrite bind_run.
    match goal with
    | |- context [?F members [] st] =>
        assert (forall d st, stdout (fst (F members d st)) = stdout st)
          as Hall
    end.
    { clear st. induction Hmembers as [|[k j] members Hj Hmembers IH];
        intros d st; [reflexivity|].
      rewrite bind_run. cbn [snd] in Hj. specialize (Hj st).
      destruct (load j st) as [st1 [v|e]]; [|done].
      rewrite IH. cbn [fst] in Hj. done. }
    specialize (Hall [] st).
    match goal with
    | |- context [?F members [] st] =>
        destruct (F members [] st) as [st1 [vs|e]]
    end; unfold alloc; cbn [fst stdout] in *; done.
Qed.

Lemma response_json_stdout (r : response) (st st' : state)
    (out : outcome value) :
  response_json r st = (st', out) -> stdout st' = stdout st.
Proof.
  unfold response_json. destruct (body r) as [j|]; [|by intros [= <- _]].
  intros Hrun. pose proof (load_stdout j st) as Hout.
  by rewrite Hrun in Hout.
Qed.

End Parsing.

(** * What [format_response] prints *)

Section Output.
Context `{Interpreter}.
Import Datastore Runs.

Lemma for_each_stdout {A S} (body : S -> A -> M S) (xs : list A) :
  (forall s x st st' out,
     body s x st = (st', out) -> stdout st' = stdout st) ->
  forall s st st' out,
    for_each body xs s st = (st', out) -> stdout st' = stdout st.
Proof.
  intros Hbody. induction xs as [|x xs IH]; intros s st st' out.
  - cbn [for_each]. by intros [= <- _].
  - cbn [for_each]. rewrite bind_run.
    destruct (body s x st) as [st1 [s1|e]] eqn:Hstep;
      apply Hbody in Hstep.
    + intros Hloop%IH. congruence.
    + intros [= <- _]. done.
Qed.

Lemma parse_properties_stdout (props : value) (st st' : state)
    (out : outcome value) :
  _parse_properties props st = (st', out) -> stdout st' = stdout st.
Proof.
  destruct (as_dict (objects st) props) as [d|] eqn:Hd.
  - unfold as_dict in Hd. destruct props as [| | | | |p]; try done.
    destruct (objects st !! p) as [[d0|]|] eqn:Hp; try done.
    intros Hrun.
    by destruct (parse_properties_frame p d0 st st' out Hp Hrun).
  - unfold _parse_properties. rewrite bind_run. unfold read, items.
    rewrite Hd. by intros [= <- _].
Qed.

Lemma flatten_entity_stdout (entities : list flat_entity) (_entity : value)
    (st st' : state) (out : outcome (list flat_entity)) :
  flatten_entity entities _entity st = (st', out) -> stdout st' = stdout st.
Proof.
  unfold flatten_entity. rewrite bind_run. unfold read at 1.
  destruct (get_or_empty _ _ _) as [entity|]; [|by intros [= <- _]].
  rewrite bind_run, entity_kind_run.
  destruct (kind_in _ _) as [kind|]; [|by intros [= <- _]].
  rewrite bind_run, key_segment_run.
  destruct (segment_in _ _) as [segment|]; [|by intros [= <- _]].
  rewrite bind_run. unfold read at 1.
  destruct (subscript_str _ _ _) as [id_field|]; [|by intros [= <- _]].
  rewrite bind_run. unfold read at 1.
  destruct (int id_field) as [id|]; [|by intros [= <- _]].
  rewrite bind_run. unfold read at 1.
  destruct (get_or_empty _ entity _) as [props|]; [|by intros [= <- _]].
  rewrite bind_run.
  destruct (match props with Some p => ret p | None => _ end st)
    as [st1 [p|e]] eqn:Hp.
  - assert (stdout st1 = stdout st) as Hout.
    { destruct props; [by injection Hp as <- _|].
      unfold alloc in Hp. by injection Hp as <- _. }
    rewrite bind_run.
    destruct (_parse_properties p st1) as [st2 [p'|e]] eqn:Hparse;
      apply parse_properties_stdout in Hparse;
      intros [= <- _]; congruence.
  - by destruct props.
Qed.

(** Lines 143-149. *)
Lemma print_selected (r : response) (format : value) (sch : scheme)
    (entities : list flat_entity) (data : value) (st st' : state)
    (out : outcome unit) :
  (if py_eqb format (VStr (str "yaml")) then print (PrintYaml sch entities)
   else if py_eqb format (VStr (str "json")) then print (PrintRepr data)
   else print (fun _ => PrintText (text r))) st = (st', out) ->
  out = Return tt /\
  exists ev, stdout st' = stdout st ++ [ev] /\ printed_as format r ev.
Proof.
  destruct (py_eqb format (VStr (str "yaml"))) eqn:Hyaml;
    [|destruct (py_eqb format (VStr (str "json"))) eqn:Hjs];
    unfold print; intros [= <- <-]; (split; [done|]);
    eexists; (split; [reflexivity|]); by cbn.
Qed.

Lemma format_response_output (r : response) (format style : value)
    (st st' : state) (out : outcome unit) :
  format_response r format style st = (st', out) ->
  match out with
  | Raise _ => stdout st' = stdout st
  | Return _ =>
      if (status_code r =? 200)%Z
      then exists ev, stdout st' = stdout st ++ [ev] /\ printed_as format r ev
      else st' = st
  end.
Proof.
  unfold format_response. destruct (status_code r =? 200)%Z;
    [|by intros [= <- <-]].
  rewrite bind_run.
  destruct (response_json r st) as [st1 [data|e]] eqn:Hjson;
    apply response_json_stdout in Hjson; [|by intros [= <- <-]].
  rewrite bind_run.
  destruct (generate_scheme data st1) as [st2 [sch|e]] eqn:Hsch;
    apply (reads_only_run _ _ _ _ (generate_scheme_reads data)) in Hsch;
    subst st2; [|by intros [= <- <-]].
  destruct (py_eqb style (VStr (str "scheme"))).
  - rewrite !bind_run, entity_results_run.
    destruct (results_of _ _) as [results|]; [|by intros [= <- <-]].
    destruct (for_each flatten_entity results [] st1)
      as [st2 [entities|e]] eqn:Hflat;
      apply (for_each_stdout _ _ flatten_entity_stdout) in Hflat.
    + intros (-> & ev & Hout & Hev)%print_selected.
      exists ev. split; [congruence|done].
    + intros [= <- <-]. congruence.
  - rewrite bind_run. unfold ret at 1.
    intros (-> & ev & Hout & Hev)%print_selected.
    exists ev. split; [congruence|done].
Qed.

(** X11: [format_response] prints at most once, as its last step: when it
    raises it has printed nothing, when it returns on a status of 200 it
    has printed one event, the one its [format] selects, and on any other
    status it leaves the process as it was. *)
Theorem format_response_prints_last (r : response) (format style : value)
    (st st' : state) (out : outcome unit) :
  format_response r format style st = (st', out) ->
  match out with
  | Raise _ => stdout st' = stdout st
  | Return _ =>
      if (status_code r =? 200)%Z
      then exists ev, stdout st' = stdout st ++ [ev] /\ printed_as format r ev
      else st' = st
  end.
Proof. apply format_response_output. Qed.

(** One step of the loop of lines 128-141. *)
Lemma flatten_entity_properties (entities : list flat_entity)
    (_entity : value) (st : state) (segment kind id_field : value) (n : Z)
    (p : loc) (d d' : list (pystr * value)) :
  segment_of (objects st) _entity = Return segment ->
  subscript_str (objects st) (Some segment) (str "kind") = Return kind ->
  subscript_str (objects st) (Some segment) (str "id") = Return id_field ->
  int id_field = Return n ->
  properties_ref (objects st) _entity = Return (Some (VRef p)) ->
  objects st !! p = Some (ODict d) ->
  NoDup (List.map fst d) -> no_self p d ->
  decodes_to (objects st) d d' ->
  flatten_entity entities _entity st =
  (State (<[p := ODict d']> (objects st)) (stdout st),
   Return (entities ++ [FlatEntity kind n (VRef p)])).
Proof.
  intros Hseg Hkind Hid Hn Hprops Hp Hnodup Hself Hdec.
  destruct (segment_of_inv _ _ _ Hseg) as (entity & He & Hsegin).
  rewrite (flatten_entity_run entities _entity st entity segment kind)
    by done.
  rewrite Hid, Hn. unfold properties_ref in Hprops. rewrite He in Hprops.
  cbn [and_then] in Hprops. rewrite Hprops.
  rewrite bind_run. unfold ret at 1. rewrite bind_run.
  by rewrite (parse_properties_returns p d d').
Qed.

Lemma flatten_entity_bare (entities : list flat_entity)
    (_entity : value) (st : state) (segment kind id_field : value) (n : Z) :
  segment_of (objects st) _entity = Return segment ->
  subscript_str (objects st) (Some segment) (str "kind") = Return kind ->
  subscript_str (objects st) (Some segment) (str "id") = Return id_field ->
  int id_field = Return n ->
  properties_ref (objects st) _entity = Return None ->
  flatten_entity entities _entity st =
  (State (objects st ++ [ODict []]) (stdout st),
   Return (entities ++ [FlatEntity kind n (VRef (length (objects st)))])).
Proof.
  intros Hseg Hkind Hid Hn Hprops.
  destruct (segment_of_inv _ _ _ Hseg) as (entity & He & Hsegin).
  rewrite (flatten_entity_run entities _entity st entity segment kind)
    by done.
  rewrite Hid, Hn. unfold properties_ref in Hprops. rewrite He in Hprops.
  cbn [and_then] in Hprops. rewrite Hprops.
  rewrite bind_run. unfold alloc at 1. rewrite bind_run.
  assert ((objects st ++ [ODict []]) !! length (objects st)
          = Some (ODict [])) as Hnew.
  { rewrite lookup_app_r by done. by rewrite Nat.sub_diag. }
  rewrite (parse_properties_returns (length (objects st)) [] []);
    cbn [objects stdout]; try done; try by constructor.
  by rewrite list_insert_id.
Qed.

(** The loop of lines 128-141 on entity results that all flatten. *)
Lemma flatten_entities_run (results : list value) (h' : heap)
    (out : list flat_entity) (st : state) :
  flattened (objects st) results h' out ->
  forall entities,
    for_each flatten_entity results entities st =
    (State h' (stdout st), Return (entities ++ out)).
Proof.
  intros Hflat. remember (objects st) as h eqn:Hh. revert st Hh.
  induction Hflat as
    [ h
    | h h' e results out segment kind id_field n p d d'
        Hseg Hkind Hid Hn Hprops Hp Hnodup Hself Hdec Hrest IH
    | h h' e results out segment kind id_field n
        Hseg Hkind Hid Hn Hprops Hrest IH ];
    intros st -> entities.
  - cbn [for_each]. rewrite app_nil_r. by destruct st.
  - cbn [for_each]. rewrite bind_run.
    rewrite (flatten_entity_properties entities e st segment kind id_field
               n p d d') by done.
    rewrite (IH (State (<[p := ODict d']> (objects st)) (stdout st)))
      by done.
    cbn [stdout]. by rewrite <- app_assoc.
  - cbn [for_each]. rewrite bind_run.
    rewrite (flatten_entity_bare entities e st segment kind id_field n)
      by done.
    rewrite (IH (State (objects st ++ [ODict []]) (stdout st))) by done.
    cbn [stdout]. by rewrite <- app_assoc.
Qed.

Lemma format_response_flattening (r : response) (format : value)
    (st st1 : state) (data : value) (results : list value) (sch : scheme)
    (h' : heap) (out : list flat_entity) :
  status_code r = 200%Z ->
  response_json r st = (st1, Return data) ->
  generate_scheme data st1 = (st1, Return sch) ->
  results_of (objects st1) data = Return results ->
  flattened (objects st1) results h' out ->
  format_response r format (VStr (str "scheme")) st =
  (if py_eqb format (VStr (str "yaml")) then print (PrintYaml sch out)
   else if py_eqb format (VStr (str "json")) then print (PrintRepr data)
   else print (fun _ => PrintText (text r)))
    (State h' (stdout st1)).
Proof.
  intros Hstatus Hjson Hsch Hres Hflat. unfold format_response.
  rewrite Hstatus. cbn [Z.eqb Pos.eqb].
  rewrite bind_run, Hjson, bind_run, Hsch, bind_run.
  change (py_eqb (VStr (str "scheme")) (VStr (str "scheme"))) with true.
  cbv iota. rewrite bind_run, entity_results_run, Hres.
  by rewrite (flatten_entities_run results h' out st1 Hflat []).
Qed.

(** X12: On a response of status 200 whose entities all flatten,
    [format_response] with its default format and style prints one YAML
    document: the scheme inferred from the data before any property was
    overwritten, and the flattened entities, one per entity result in the
    order of the batch. *)
Theorem format_response_prints_scheme_and_entities (r : response)
    (st st1 : state) (data : value) (results : list value) (sch : scheme)
    (h' : heap) (out : list flat_entity) :
  status_code r = 200%Z ->
  response_json r st = (st1, Return data) ->
  generate_scheme data st1 = (st1, Return sch) ->
  results_of (objects st1) data = Return results ->
  flattened (objects st1) results h' out ->
  format_response r (VStr (str "yaml")) (VStr (str "scheme")) st =
  (State h' (stdout st1 ++ [PrintYaml sch out h']), Return tt).
Proof.
  intros Hstatus Hjson Hsch Hres Hflat.
  by rewrite (format_response_flattening r _ st st1 data results sch h' out).
Qed.

(** X13: With the format "json", what is printed is the parsed response as
    flattening left it: the object [response.json()] returned, in the heap
    where the properties of its entities have been overwritten. *)
Theorem format_response_json_prints_flattened_data (r : response)
    (st st1 : state) (data : value) (results : list value) (sch : scheme)
    (h' : heap) (out : list flat_entity) :
  status_code r = 200%Z ->
  response_json r st = (st1, Return data) ->
  generate_scheme data st1 = (st1, Return sch) ->
  results_of (objects st1) data = Return results ->
  flattened (objects st1) results h' out ->
  format_response r (VStr (str "json")) (VStr (str "scheme")) st =
  (State h' (stdout st1 ++ [PrintRepr data h']), Return tt).
Proof.
  intros Hstatus Hjson Hsch Hres Hflat.
  by rewrite (format_response_flattening r _ st st1 data results sch h' out).
Qed.

(** X14: With a style other than "scheme" no entity is flattened: on every
    batch of well-formed entities, whatever their keys hold,
    [format_response] returns, prints the scheme with an empty list of
    entities and leaves the parsed response as it was. *)
Theorem format_response_other_style (r : response) (style : value)
    (st st1 : state) (data : value) (results : list value) :
  status_code r = 200%Z ->
  response_json r st = (st1, Return data) ->
  results_of (objects st1) data = Return results ->
  Forall (well_formed_entity (objects st1)) results ->
  py_eqb style (VStr (str "scheme")) = false ->
  exists sch,
    generate_scheme data st1 = (st1, Return sch) /\
    format_response r (VStr (str "yaml")) style st =
    (State (objects st1) (stdout st1 ++ [PrintYaml sch [] (objects st1)]),
     Return tt).
Proof.
  intros Hstatus Hjson Hres Hall Hstyle.
  destruct (generate_scheme_returns data st1 results Hres Hall)
    as [sch Hsch].
  exists sch. split; [done|]. unfold format_response.
  rewrite Hstatus. cbn [Z.eqb Pos.eqb].
  by rewrite bind_run, Hjson, bind_run, Hsch, bind_run, Hstyle.
Qed.

End Output.



(** * The methods that send a request *)

Section Requests.
Context `{Interpreter}.
Import Text Client Cli Runs.
Variable server : request -> option response.
Variable environ : list (pystr * pystr).

(** The client [main] builds. *)
Let client : attributes :=
  __init__ (class_attributes environ) None None None None None.

Lemma then_run {A B} (m : C A) (k : A -> C B) (w : world) :
  then_ m k w =
  match m w with
  | (w', Done a) => k a w'
  | (w', Failed f) => (w', Failed f)
  end.
Proof. reflexivity. Qed.

Lemma lift_run {A} (m : M A) (w : world) :
  lift m w =
  (World (fst (m (process w))) (stdin w) (sent w),
   match snd (m (process w)) with
   | Return a => Done a
   | Raise e => Failed (Python e)
   end).
Proof. unfold lift. by destruct (m (process w)) as [st [a|e]]. Qed.

(** A request posted to the endpoint, then a method of the process on
    the response. *)
Lemma posted_run {A} (body : json) (k : response -> M A) (w : world) :
  then_ (run_query server client body) (fun r => lift (k r)) w =
  match server (Request POST (endpoint environ) (Some body)) with
  | Some r =>
      lift (k r)
        (World (process w) (stdin w)
           (sent w ++ [Request POST (endpoint environ) (Some body)]))
  | None =>
      (World (process w) (stdin w)
         (sent w ++ [Request POST (endpoint environ) (Some body)]),
       Failed RequestException)
  end.
Proof.
  unfold then_, run_query, send.
  change (DATASTORE_HOST client ++ str "/v1/projects/"
          ++ DATASTORE_PROJECT_ID client ++ str ":runQuery")
    with (endpoint environ).
  by destruct (server _).
Qed.

Lemma posted_sent {A} (body : json) (k : response -> M A) (w w' : world)
    (res : result A) :
  then_ (run_query server client body) (fun r => lift (k r)) w = (w', res) ->
  sent w' = sent w ++ [Request POST (endpoint environ) (Some body)].
Proof.
  rewrite posted_run. destruct (server _) as [r|].
  - rewrite lift_run. by intros [= <- _].
  - by intros [= <- _].
Qed.

Lemma query_run (text : pystr) (format style : option value) (w : world) :
  query server client (AStr text) format style w =
  then_ (run_query server client
           (gql (join [10%N]
                   (List.filter
                      (fun line => negb (startswith (str "--") line))
                      (split 10 text)))))
        (fun r => lift (Datastore.format_response r
                          (keyword format "yaml") (keyword style "scheme")))
        (World (process w) (stdin w) (sent w)).
Proof.
  unfold query. rewrite then_run, lift_run. unfold read.
  cbn [fst snd]. by rewrite clean_query_run.
Qed.

(** What [main] runs for the action "query". *)
Lemma main_query (args : namespace) (w : world) :
  action args = str "query" ->
  main server environ args w =
  then_ (run_query server client
           (gql (join [10%N]
                   (List.filter
                      (fun line => negb (startswith (str "--") line))
                      (split 10 (query_text args w))))))
        (fun r => lift (Datastore.format_response r
                          (format args) (style args)))
        (World (process w)
               (match content args with
                | Some s => if Str.eqb s (str "-") then [] else stdin w
                | None => []
                end)
               (sent w)).
Proof.
  intros Haction. unfold main, query_text. rewrite Haction, eqb_refl.
  fold client. destruct (content args) as [s|]; cbn [positional arg_is orb].
  - destruct (Str.eqb s (str "-")); cbn [orb].
    + rewrite then_run. unfold read_stdin. by rewrite query_run.
    + by rewrite query_run.
  - rewrite then_run. unfold read_stdin. by rewrite query_run.
Qed.

Lemma get_scheme_stdout (r : response) (st st' : state)
    (out : outcome scheme) :
  Datastore.get_scheme r st = (st', out) -> stdout st' = stdout st.
Proof.
  unfold Datastore.get_scheme. destruct (status_code r =? 200)%Z;
    [|by intros [= <- _]].
  rewrite bind_run.
  destruct (response_json r st) as [st1 [data|e]] eqn:Hjson;
    apply response_json_stdout in Hjson; [|by intros [= <- _]].
  intros Hsch.
  apply (reads_only_run _ _ _ _ (generate_scheme_reads data))
    in Hsch.
  congruence.
Qed.

Lemma dispatched_action (args : namespace) :
  dispatched args = false ->
  Str.eqb (action args) (str "query") = false /\
  Str.eqb (action args) (str "get") = false /\
  Str.eqb (action args) (str "list") = false.
Proof.
  unfold dispatched. intros [[Hq Hg]%orb_false_iff Hl]%orb_false_iff.
  done.
Qed.

(** X15: For the actions "query", "get" and "list", [main] issues exactly
    one request, a POST to the runQuery URL of the host and project the
    environment names; for any other action (the parser also accepts "put"
    and "delete") it issues none, prints nothing and returns. *)
Theorem main_posts_one_request (args : namespace) (w w' : world)
    (res : result unit) :
  main server environ args w = (w', res) ->
  if dispatched args
  then exists body,
         sent w' = sent w ++ [Request POST (endpoint environ) (Some body)]
  else w' = w /\ res = Done tt.
Proof.
  destruct (dispatched args) eqn:Hd.
  - destruct (Str.eqb (action args) (str "query")) eqn:Hq.
    { apply eqb_eq in Hq. rewrite main_query by done.
      intros Hrun. eexists. by apply posted_sent in Hrun. }
    unfold main. rewrite Hq. fold client.
    destruct (Str.eqb (action args) (str "get")) eqn:Hg.
    { destruct (arg_is _ "scheme").
      - unfold get_scheme. rewrite then_run.
        destruct (then_ (run_query server client _) _ w)
          as [w1 [sch|f]] eqn:Hrun; apply posted_sent in Hrun;
          intros [= <- _]; by eexists.
      - unfold get. intros Hrun. eexists. by apply posted_sent in Hrun. }
    destruct (Str.eqb (action args) (str "list")) eqn:Hl.
    { destruct (arg_is _ "kinds").
      - unfold getKinds. intros Hrun. eexists.
        by apply posted_sent in Hrun.
      - unfold list_. intros Hrun. eexists. by apply posted_sent in Hrun. }
    unfold dispatched in Hd. by rewrite Hq, Hg, Hl in Hd.
  - apply dispatched_action in Hd as (Hq & Hg & Hl).
    unfold main. rewrite Hq, Hg, Hl. by intros [= <- <-].
Qed.

(** X16: When the server answers every request with a status other than
    200, "get <kind> scheme" fails with the status and the body of the
    response the server gave to its request, and every other command
    returns as if it had succeeded: it raises nothing, prints nothing and
    leaves the process as it was. *)
Theorem main_on_error_status (args : namespace) (w w' : world)
    (res : result unit) :
  (forall req, exists r, server req = Some r /\ status_code r <> 200%Z) ->
  main server environ args w = (w', res) ->
  process w' = process w /\
  if Str.eqb (action args) (str "get")
     && arg_is (positional (subcontent args)) "scheme"
  then exists r,
         server (Request POST (endpoint environ)
                   (Some (gql (str "SELECT * FROM "
                               ++ braces (positional (content args))
                               ++ str " LIMIT 100")))) = Some r /\
         res = Failed (Python (Exception [VStr (str "Error:");
                                          VInt (status_code r);
                                          VStr (text r)]))
  else res = Done tt.
Proof.
  intros Hserver.
  assert (forall body format style w0,
    then_ (run_query server client body)
          (fun r => lift (Datastore.format_response r format style)) w0 =
    (World (process w0) (stdin w0)
           (sent w0 ++ [Request POST (endpoint environ) (Some body)]),
     Done tt)) as Hformat.
  { intros body format style w0. rewrite posted_run.
    destruct (Hserver (Request POST (endpoint environ) (Some body)))
      as (r & -> & Hstatus).
    rewrite lift_run. cbn [process].
    by rewrite (format_response_not_ok r format style _ Hstatus). }
  destruct (Str.eqb (action args) (str "query")) eqn:Hq.
  { apply eqb_eq in Hq. rewrite main_query, Hformat by done.
    intros [= <- <-]. split; [done|].
    by rewrite Hq. }
  unfold main. rewrite Hq. fold client.
  destruct (Str.eqb (action args) (str "get")) eqn:Hg; cbn [andb].
  { destruct (arg_is _ "scheme").
    - unfold get_scheme. rewrite then_run, posted_run.
      destruct (Hserver (Request POST (endpoint environ)
                  (Some (gql (str "SELECT * FROM "
                              ++ braces (positional (content args))
                              ++ str " LIMIT 100")))))
        as (r & Hanswer & Hstatus).
      rewrite Hanswer, lift_run. cbn [process].
      rewrite (get_scheme_not_ok r _ Hstatus). cbn [fst snd].
      intros [= <- <-]. split; [done|]. by exists r.
    - unfold get. rewrite Hformat. by intros [= <- <-]. }
  destruct (Str.eqb (action args) (str "list")) eqn:Hl.
  { destruct (arg_is _ "kinds").
    - unfold getKinds. rewrite posted_run.
      destruct (Hserver (Request POST (endpoint environ) (Some kinds_query)))
        as (r & -> & Hstatus).
      rewrite lift_run. cbn [process].
      apply Z.eqb_neq in Hstatus as ->. by intros [= <- <-].
    - unfold list_. rewrite Hformat. by intros [= <- <-]. }
  by intros [= <- <-].
Qed.

(** X17: "get <kind> scheme" prints nothing, whatever the server answers:
    the scheme [get_scheme] returns is dropped. *)
Theorem main_get_scheme_prints_nothing (args : namespace) (w w' : world)
    (res : result unit) :
  action args = str "get" ->
  subcontent args = Some (str "scheme") ->
  main server environ args w = (w', res) ->
  stdout (process w') = stdout (process w).
Proof.
  intros Haction Hsub. unfold main. rewrite Haction, Hsub. fold client.
  change (Str.eqb (str "get") (str "query")) with false.
  change (Str.eqb (str "get") (str "get")) with true.
  cbn [positional arg_is]. rewrite eqb_refl.
  unfold get_scheme. rewrite then_run, posted_run.
  destruct (server _) as [r|]; [|by intros [= <- _]].
  rewrite lift_run. cbn [process].
  destruct (Datastore.get_scheme r (process w)) as [st1 out] eqn:Hrun.
  apply get_scheme_stdout in Hrun. cbn [fst snd].
  destruct out; by intros [= <- _].
Qed.

(** X18: [main] reads the action, the two positionals and the limit, and
    the format and the style for "query" only: two namespaces that agree
    on these run the same, whatever their [--datastore-*] options hold. *)
Theorem main_reads_only_the_command (a b : namespace) (w : world) :
  same_command a b ->
  main server environ a w = main server environ b w.
Proof.
  destruct a as [action1 content1 sub1 d1 h1 e1 p1 i1 limit1 format1 style1].
  destruct b as [action2 content2 sub2 d2 h2 e2 p2 i2 limit2 format2 style2].
  unfold same_command. cbn [action content subcontent limit format style].
  intros (<- & <- & <- & <- & Hquery). unfold main.
  cbn [action content subcontent limit format style].
  destruct (Str.eqb action1 (str "query")) eqn:Hq; [|done].
  apply eqb_eq in Hq. by destruct (Hquery Hq) as [<- <-].
Qed.

Lemma kept_lines_no_comment (text : pystr) :
  Forall (fun line => startswith (str "--") line = false)
    (split 10
       (join [10%N]
          (List.filter (fun line => negb (startswith (str "--") line))
                       (split 10 text)))).
Proof.
  set (keep := fun line => negb (startswith (str "--") line)).
  pose proof (filter_pieces _ keep _ (split_pieces 10 text)) as Hpieces.
  pose proof (filter_kept keep (split 10 text)) as Hkept.
  destruct (List.filter keep (split 10 text)) as [|line kept].
  - by repeat constructor.
  - rewrite split_join by done.
    eapply Forall_impl; [exact Hkept|]. intros l Hl.
    by apply negb_true_iff in Hl.
Qed.

(** X19: For the action "query", the query string of the request is the
    cleaned text of the content, or of standard input when the content is
    "-" or absent, and none of its lines starts with "--". *)
Theorem main_query_sends_no_comment (args : namespace) (w w' : world)
    (res : result unit) :
  action args = str "query" ->
  main server environ args w = (w', res) ->
  exists queryString,
    _clean_query (AStr (query_text args w)) = Return (queryString, []) /\
    sent w' = sent w ++ [Request POST (endpoint environ)
                           (Some (gql queryString))] /\
    Forall (fun line => startswith (str "--") line = false)
           (split 10 queryString).
Proof.
  intros Haction. rewrite main_query by done. intros Hrun.
  apply posted_sent in Hrun. eexists. split; [apply clean_query_run|].
  split; [exact Hrun|]. apply kept_lines_no_comment.
Qed.

(** X20: For the action "query" with a format that is neither "yaml" nor
    "json", as the flag [--format] stores it, a run that returns has
    printed the body of a response of status 200 as it came, and nothing
    for any other status. *)
Theorem main_query_prints_body (args : namespace) (w w' : world) :
  action args = str "query" ->
  py_eqb (format args) (VStr (str "yaml")) = false ->
  py_eqb (format args) (VStr (str "json")) = false ->
  main server environ args w = (w', Done tt) ->
  exists body r,
    server (Request POST (endpoint environ) (Some body)) = Some r /\
    if (status_code r =? 200)%Z
    then stdout (process w') = stdout (process w) ++ [PrintText (text r)]
    else process w' = process w.
Proof.
  intros Haction Hyaml Hjson. rewrite main_query, posted_run by done.
  match goal with
  | |- context [server ?req] => destruct (server req) as [r|] eqn:Hanswer
  end; [|done].
  rewrite lift_run. cbn [process].
  destruct (Datastore.format_response r (format args) (style args)
              (process w)) as [st1 [[]|e]] eqn:Hrun; [|done].
  apply format_response_output in Hrun.
  intros [= <-]. eexists _, r. split; [exact Hanswer|]. cbn [process fst].
  destruct (status_code r =? 200)%Z; [|done].
  destruct Hrun as (ev & Hout & Hev). rewrite Hout.
  destruct ev as [sch ents h|data h|s]; cbn [printed_as] in Hev.
  - congruence.
  - destruct Hev. congruence.
  - by destruct Hev as (_ & _ & ->).
Qed.

End Requests.



(** * Typed keys *)

Section TypedKey.
Context `{Interpreter}.
Import Datastore.

(** No occurrence of "Value" starts in [s] and ends in a "Value" put
    after it. *)
Lemma startswith_value_app (s : pystr) :
  startswith (str "Value") (s ++ str "Value") = true ->
  s = [] \/ startswith (str "Value") s = true.
Proof.
  destruct s as [|c1 [|c2 [|c3 [|c4 [|c5 s]]]]]; [by left|..];
    cbn; rewrite ?andb_false_r; try done.
  intros Hstart. by right.
Qed.

(** [(t + "Value").replace("Value", "") == t] when [t] does not hold
    "Value". *)
Lemma replace_typed (t : pystr) :
  contains (str "Value") t = false ->
  replace (str "Value") [] (t ++ str "Value") = t.
Proof.
  change (replace (str "Value") [] (t ++ str "Value"))
    with (replace_from (str "Value") [] 0 (t ++ str "Value")).
  induction t as [|c t IH]; [done|]. cbn [contains].
  intros [Hstart Hrest]%orb_false_iff.
  cbn [app replace_from].
  destruct (startswith (str "Value") (c :: t ++ str "Value")) eqn:Happ.
  - apply (startswith_value_app (c :: t)) in Happ as [|Happ]; [done|].
    congruence.
  - by rewrite IH.
Qed.

Lemma is_tag_typed (t : pystr) :
  contains (str "Value") t = false -> t <> str "null" ->
  is_tag (t ++ str "Value") = true.
Proof.
  intros Hvalue Hnull. unfold is_tag. rewrite replace_typed by done.
  apply eqb_neq in Hnull as ->. cbn [negb andb].
  apply negb_true_iff, eqb_neq. intros Heq.
  apply (f_equal (@rev N)) in Heq. rewrite rev_app_distr in Heq.
  discriminate Heq.
Qed.

(** The tags of a TaggedValue whose keys are the typed key of [t],
    "nullValue" and "excludeFromIndexes". *)
Lemma opt_tags_typed (h : heap) (opt : value) (t : pystr)
    (d : list (pystr * value)) :
  as_dict h opt = Some d ->
  contains (str "Value") t = false -> t <> str "null" ->
  (forall k, In k (List.map fst d) ->
             k = t ++ str "Value" \/ k = str "nullValue" \/
             k = str "excludeFromIndexes") ->
  forall x, In x (opt_tags h opt) <->
            x = t /\ In (t ++ str "Value") (List.map fst d).
Proof.
  intros Hd Hvalue Hnull Hkeys x.
  unfold opt_tags, iterate. unfold as_dict in Hd.
  destruct opt as [| | | | |l]; try done.
  destruct (h !! l) as [[d0|]|]; try done. injection Hd as ->.
  rewrite value_tags_in. split.
  - intros (v & Hv & Hvtag & ->).
    apply in_map_iff in Hv as ([k y] & Hk & Hkd).
    cbn [fst] in Hk. injection Hk as ->.
    assert (In v (List.map fst d)) as Hin.
    { apply in_map_iff. by exists (v, y). }
    destruct (Hkeys v Hin) as [->|[->| ->]].
    + by rewrite replace_typed.
    + by vm_compute in Hvtag.
    + by vm_compute in Hvtag.
  - intros [-> Hin]. exists (t ++ str "Value").
    split; [|split].
    + apply in_map_iff in Hin as ([k y] & Hk & Hkd). cbn [fst] in Hk.
      subst k. apply in_map_iff. by exists (t ++ str "Value", y).
    + by apply is_tag_typed.
    + by rewrite replace_typed.
Qed.

(** X6: A property whose sampled values carry the typed key of one type
    [t], "nullValue" or "excludeFromIndexes", and of which one sample
    carries the typed key, is inferred as [t]. *)
Theorem scheme_entry_of_typed_property (data : value) (st st' : state)
    (sch : scheme) (results : list value) (kind : value)
    (property t : pystr) :
  generate_scheme data st = (st', Return sch) ->
  results_of (objects st) data = Return results ->
  contains (str "Value") t = false -> t <> str "null" ->
  (exists opt d,
     sampled (objects st) results kind property opt /\
     as_dict (objects st) opt = Some d /\
     In (t ++ str "Value") (List.map fst d)) ->
  (forall opt,
     sampled (objects st) results kind property opt ->
     exists d,
       as_dict (objects st) opt = Some d /\
       forall k, In k (List.map fst d) ->
                 k = t ++ str "Value" \/ k = str "nullValue" \/
                 k = str "excludeFromIndexes") ->
  at_pair sch kind property = Some (Some t).
Proof.
  intros Hrun Hres Hvalue Hnull (opt0 & d0 & Hs0 & Hd0 & Hin0) Hshape.
  apply (single_tag_entry data st st' sch results kind property t);
    try done.
  - apply observed_tags_sampled. exists opt0. split; [done|].
    destruct (Hshape opt0 Hs0) as (d & Hd & Hkeys).
    rewrite Hd0 in Hd. injection Hd as <-.
    by apply (opt_tags_typed _ opt0 t d0).
  - intros x (opt & Hs & Hx)%observed_tags_sampled.
    destruct (Hshape opt Hs) as (d & Hd & Hkeys).
    by destruct (proj1 (opt_tags_typed _ opt t d Hd Hvalue Hnull Hkeys x)
                   Hx) as [Hxt _].
Qed.

End TypedKey.

(** * Two commands, one query *)

Section SameQuery.
Context `{Interpreter}.
Import Text Client Cli Runs.
Variable server : request -> option response.
Variable environ : list (pystr * pystr).

(** X21: "list <kind>" with the default limit and "get <kind> scheme" send
    the same request: the scheme is inferred from the entities the listing
    shows. *)
Theorem main_list_and_scheme_send_the_same (a b : namespace) (w : world) :
  action a = str "list" -> limit a = AInt 100 ->
  content a <> Some (str "kinds") ->
  action b = str "get" -> subcontent b = Some (str "scheme") ->
  content b = content a ->
  sent (fst (main server environ a w)) =
  sent (fst (main server environ b w)).
Proof.
  intros Ha Hlimit Hkinds Hb Hsub Hcontent. unfold main.
  rewrite Ha, Hb, Hsub, Hlimit, Hcontent.
  change (Str.eqb (str "list") (str "query")) with false.
  change (Str.eqb (str "list") (str "get")) with false.
  change (Str.eqb (str "list") (str "list")) with true.
  change (Str.eqb (str "get") (str "query")) with false.
  change (Str.eqb (str "get") (str "get")) with true.
  change (arg_is (positional (Some (str "scheme"))) "scheme") with true.
  cbv iota.
  assert (arg_is (positional (content a)) "kinds" = false) as ->.
  { destruct (content a) as [s|]; [|done]. cbn [positional arg_is].
    apply eqb_neq. congruence. }
  unfold list_, get_scheme. rewrite (then_run (then_ _ _)).
  rewrite !posted_run.
  change (str " LIMIT " ++ braces (AInt 100)) with (str " LIMIT 100").
  destruct (server _) as [r|]; [|done].
  rewrite !lift_run. cbn [fst sent].
  by destruct (snd (Datastore.get_scheme r _)).
Qed.

End SameQuery.



(** * The further theorems at work on the sessions *)

Section Sessions.
Import Text Client Cli Runs Datastore Example Session.

Lemma photo_properties :
  objects photo_state !! 6 =
  Some (ODict ([ (str "title", VRef 3) ]
               ++ (str "photo", VRef 4) :: [ (str "size", VRef 5) ])).
Proof. reflexivity. Qed.

Lemma photo_names_distinct :
  NoDup (List.map fst ([ (str "title", VRef 3) ]
                       ++ (str "photo", VRef 4) :: [ (str "size", VRef 5) ])).
Proof. apply (bool_decide_unpack _). by vm_compute. Qed.

Lemma task_sampled_done (opt : value) :
  sampled (objects task_state) [VRef 9] (VStr (str "Task")) (str "done")
    opt ->
  opt = VRef 3.
Proof.
  intros (e & k & its & He & Hk & Heq & Hits & Hopt).
  destruct He as [<-|[]]. vm_compute in Hits. injection Hits as <-.
  repeat (destruct Hopt as [Hopt|Hopt]; [by inversion Hopt|]).
  destruct Hopt.
Qed.

Lemma task_flattening :
  @flattened interpreter (objects task_state) [VRef 9]
    (<[7 := ODict task_flattened]> (objects task_state))
    [FlatEntity (VStr (str "Task")) 42 (VRef 7)].
Proof.
  apply (flattened_properties _ _ _ _ _ (VRef 0) (VStr (str "Task"))
           (VStr (str "42")) 42%Z 7
           [ (str "done", VRef 3); (str "note", VRef 4);
             (str "tag", VRef 5); (str "m", VRef 6) ]
           task_flattened); try reflexivity.
  - by apply task_names_distinct.
  - repeat constructor; discriminate.
  - repeat constructor.
  - apply flattened_nil.
Qed.

(** The comment line of the commented query is dropped, and cleaning
    the rest again keeps it. *)
Lemma clean_query_twice_witness :
  _clean_query (AStr (str "SELECT * FROM Task")) =
  Return (str "SELECT * FROM Task", []).
Proof. apply (clean_query_twice commented_query). reflexivity. Defined.

Lemma clean_query_without_comment_witness :
  _clean_query (AStr (str "SELECT * FROM Task")) =
  Return (str "SELECT * FROM Task", []).
Proof.
  apply clean_query_without_comment. vm_compute. repeat constructor.
Defined.

(** The Task batch: the scheme has an entry for "note" because the Task
    has that property. *)
Lemma scheme_lists_kinds_and_properties_witness :
  is_Some (at_pair task_scheme (VStr (str "Task")) (str "note")) <->
  exists opt,
    sampled (objects task_state) [VRef 9] (VStr (str "Task")) (str "note")
      opt.
Proof.
  exact (proj2 (@scheme_lists_kinds_and_properties interpreter task_data
                  task_state task_state task_scheme [VRef 9]
                  task_scheme_inferred eq_refl)
           (VStr (str "Task")) (str "note")).
Defined.

(** The Task batch: "done" is only ever observed as "boolean". *)
Lemma scheme_entry_of_single_tag_witness :
  at_pair task_scheme (VStr (str "Task")) (str "done") =
  Some (Some (str "boolean")).
Proof.
  apply (@scheme_entry_of_single_tag interpreter task_data task_state
           task_state task_scheme [VRef 9]).
  - exact task_scheme_inferred.
  - reflexivity.
  - vm_compute. by left.
  - intros t' Hin. vm_compute in Hin. by destruct Hin as [<-|[]].
Defined.

(** A response that is an empty object gives the empty scheme. *)
Lemma generate_scheme_without_results_witness :
  @generate_scheme interpreter empty_object_data empty_object_state =
  (empty_object_state, Return []).
Proof.
  apply (@generate_scheme_without_results interpreter empty_object_data
           empty_object_state []).
  - reflexivity.
  - exact I.
Defined.

(** An entity result that is an empty object has no "key". *)
Lemma generate_scheme_raises_on_missing_kind_witness :
  @generate_scheme interpreter keyless_data keyless_state =
  (keyless_state, Raise (KeyError (VStr (str "key")))).
Proof.
  apply (@generate_scheme_raises_on_missing_kind interpreter keyless_data
           keyless_state [] [] (VRef 0)).
  - reflexivity.
  - constructor.
  - reflexivity.
Defined.

(** The Task with a photo: the title is flattened, the photo is left as
    [None] and the size is not reached. *)
Lemma parse_properties_stops_at_failure_witness :
  _parse_properties (VRef 6) photo_state =
  (State (<[6 := ODict ([ (str "title", VStr (str "a")) ]
                        ++ (str "photo", VNone)
                           :: [ (str "size", VRef 5) ])]>
            (objects photo_state))
         (stdout photo_state), Raise UnicodeDecodeError).
Proof.
  apply (parse_properties_stops_at_failure photo_state 6 (str "photo")
           (VRef 4) UnicodeDecodeError [ (str "title", VRef 3) ]
           [ (str "title", VStr (str "a")) ] [ (str "size", VRef 5) ]).
  - exact photo_properties.
  - exact photo_names_distinct.
  - repeat constructor; discriminate.
  - discriminate.
  - repeat constructor.
  - reflexivity.
Defined.

Lemma blob_that_is_not_text_raises_witness :
  snd (_parse_properties (VRef 6) photo_state) = Raise UnicodeDecodeError.
Proof.
  rewrite (blob_that_is_not_text_raises photo_state 6 4 (str "photo")
             [255%N] [ (str "blobValue", VStr (str "/w==")) ]
             [ (str "title", VRef 3) ] [ (str "title", VStr (str "a")) ]
             [ (str "size", VRef 5) ]).
  - reflexivity.
  - exact photo_properties.
  - exact photo_names_distinct.
  - repeat constructor; discriminate.
  - discriminate.
  - repeat constructor.
  - reflexivity.
  - reflexivity.
  - repeat constructor.
  - reflexivity.
Defined.

(** The Task batch, printed: one event. *)
Lemma format_response_prints_last_witness :
  exists ev,
    stdout (fst (@format_response interpreter (ok_response task_json)
                   (VStr (str "yaml")) (VStr (str "scheme")) empty_state))
    = stdout empty_state ++ [ev] /\
    printed_as (VStr (str "yaml")) (ok_response task_json) ev.
Proof.
  pose proof (@format_response_prints_last interpreter
                (ok_response task_json) (VStr (str "yaml"))
                (VStr (str "scheme")) empty_state _ _
                (surjective_pairing _)) as Hprinted.
  vm_compute in Hprinted. vm_compute. exact Hprinted.
Defined.

Lemma format_response_prints_scheme_and_entities_witness :
  @format_response interpreter (ok_response task_json)
    (VStr (str "yaml")) (VStr (str "scheme")) empty_state =
  (State (<[7 := ODict task_flattened]> (objects task_state))
     (stdout task_state
      ++ [PrintYaml task_scheme [FlatEntity (VStr (str "Task")) 42 (VRef 7)]
            (<[7 := ODict task_flattened]> (objects task_state))]),
   Return tt).
Proof.
  apply (@format_response_prints_scheme_and_entities interpreter
           (ok_response task_json) empty_state task_state task_data
           [VRef 9]).
  - reflexivity.
  - reflexivity.
  - exact task_scheme_inferred.
  - reflexivity.
  - exact task_flattening.
Defined.

Lemma format_response_json_prints_flattened_data_witness :
  @format_response interpreter (ok_response task_json)
    (VStr (str "json")) (VStr (str "scheme")) empty_state =
  (State (<[7 := ODict task_flattened]> (objects task_state))
     (stdout task_state
      ++ [PrintRepr task_data
            (<[7 := ODict task_flattened]> (objects task_state))]),
   Return tt).
Proof.
  apply (@format_response_json_prints_flattened_data interpreter
           (ok_response task_json) empty_state task_state task_data
           [VRef 9] task_scheme _
           [FlatEntity (VStr (str "Task")) 42 (VRef 7)]).
  - reflexivity.
  - reflexivity.
  - exact task_scheme_inferred.
  - reflexivity.
  - exact task_flattening.
Defined.

(** A Task with a named key, with the flag [--style]: the scheme is
    printed, and the key is not read. *)
Lemma format_response_other_style_witness :
  exists sch,
    @generate_scheme interpreter named_data named_state =
    (named_state, Return sch) /\
    @format_response interpreter (ok_response named_json)
      (VStr (str "yaml")) (VBool true) empty_state =
    (State (objects named_state)
       (stdout named_state ++ [PrintYaml sch [] (objects named_state)]),
     Return tt).
Proof.
  apply (@format_response_other_style interpreter (ok_response named_json)
           (VBool true) empty_state named_state named_data [VRef 5]).
  - reflexivity.
  - reflexivity.
  - reflexivity.
  - constructor; [|constructor].
    exists (VStr (str "Task")), []. repeat split. constructor.
  - reflexivity.
Defined.

(** "list Task": one request. *)
Lemma main_posts_one_request_witness :
  exists body,
    sent (fst (@main interpreter serving []
                 (command "list" (Some (str "Task")) None) (fresh []))) =
    sent (fresh []) ++ [Request POST (endpoint []) (Some body)].
Proof.
  exact (@main_posts_one_request interpreter serving []
           (command "list" (Some (str "Task")) None) (fresh []) _ _
           (surjective_pairing _)).
Defined.

(** "get Task scheme" against a server that answers 500 with the body
    "boom": the exception carries both. *)
Lemma main_on_error_status_witness :
  process (fst (@main interpreter failing []
                  (command "get" (Some (str "Task")) (Some (str "scheme")))
                  (fresh []))) = process (fresh []) /\
  snd (@main interpreter failing []
         (command "get" (Some (str "Task")) (Some (str "scheme")))
         (fresh [])) =
  Failed (Python (Exception [VStr (str "Error:"); VInt 500;
                             VStr (str "boom")])).
Proof.
  assert (forall req,
            exists r, failing req = Some r /\ status_code r <> 200%Z)
    as Hfailing.
  { intros req. exists (Response 500 (str "boom") None).
    split; [reflexivity|discriminate]. }
  destruct (@main_on_error_status interpreter failing []
              (command "get" (Some (str "Task")) (Some (str "scheme")))
              (fresh []) _ _ Hfailing (surjective_pairing _))
    as [Hprocess Hres].
  split; [exact Hprocess|].
  destruct Hres as (r & Hanswer & ->).
  by injection Hanswer as <-.
Defined.

(** "get Task scheme" against a server that answers the Task batch. *)
Lemma main_get_scheme_prints_nothing_witness :
  stdout (process (fst (@main interpreter serving []
                          (command "get" (Some (str "Task"))
                                   (Some (str "scheme")))
                          (fresh [])))) =
  stdout (process (fresh [])).
Proof.
  apply (@main_get_scheme_prints_nothing interpreter serving []
           (command "get" (Some (str "Task")) (Some (str "scheme")))
           (fresh []) _
           (snd (@main interpreter serving []
                   (command "get" (Some (str "Task"))
                      (Some (str "scheme")))
                   (fresh [])))).
  - reflexivity.
  - reflexivity.
  - apply surjective_pairing.
Defined.

(** [--datastore-host] changes nothing. *)
Lemma main_reads_only_the_command_witness :
  @main interpreter serving []
    (command "list" (Some (str "Task")) None) (fresh []) =
  @main interpreter serving []
    (with_host "http://elsewhere:9000"
       (command "list" (Some (str "Task")) None)) (fresh []).
Proof.
  apply main_reads_only_the_command. unfold same_command.
  repeat split; discriminate.
Defined.

(** The commented query: the request carries the second line only. *)
Lemma main_query_sends_no_comment_witness :
  exists queryString,
    _clean_query
      (AStr (query_text (command "query" (Some commented_query) None)
                        (fresh []))) = Return (queryString, []) /\
    sent (fst (@main interpreter serving []
                 (command "query" (Some commented_query) None)
                 (fresh []))) =
    sent (fresh [])
    ++ [Request POST (endpoint []) (Some (gql queryString))] /\
    Forall (fun line => startswith (str "--") line = false)
           (split 10 queryString).
Proof.
  apply (@main_query_sends_no_comment interpreter serving []
           (command "query" (Some commented_query) None) (fresh []) _
           (snd (@main interpreter serving []
                   (command "query" (Some commented_query) None)
                   (fresh [])))).
  - reflexivity.
  - apply surjective_pairing.
Defined.

(** "query" with the flag [--format]: the body of the response. *)
Lemma main_query_prints_body_witness :
  exists body r,
    serving (Request POST (endpoint []) (Some body)) = Some r /\
    if (status_code r =? 200)%Z
    then stdout (process
                   (fst (@main interpreter serving []
                           (with_format_flag
                              (command "query"
                                 (Some (str "SELECT * FROM Task")) None))
                           (fresh [])))) =
         stdout (process (fresh [])) ++ [PrintText (text r)]
    else process
           (fst (@main interpreter serving []
                   (with_format_flag
                      (command "query"
                         (Some (str "SELECT * FROM Task")) None))
                   (fresh []))) = process (fresh []).
Proof.
  apply (@main_query_prints_body interpreter serving []
           (with_format_flag
              (command "query" (Some (str "SELECT * FROM Task")) None))
           (fresh [])).
  - reflexivity.
  - reflexivity.
  - reflexivity.
  - vm_compute. reflexivity.
Defined.

(** The Task batch: "done" is sampled as a booleanValue. *)
Lemma scheme_entry_of_typed_property_witness :
  at_pair task_scheme (VStr (str "Task")) (str "done") =
  Some (Some (str "boolean")).
Proof.
  apply (@scheme_entry_of_typed_property interpreter task_data task_state
           task_state task_scheme [VRef 9]).
  - exact task_scheme_inferred.
  - reflexivity.
  - reflexivity.
  - discriminate.
  - exists (VRef 3), [ (str "booleanValue", VBool true) ].
    split; [|split; [reflexivity|by left]].
    exists (VRef 9), (VStr (str "Task")),
      [ (str "done", VRef 3); (str "note", VRef 4);
        (str "tag", VRef 5); (str "m", VRef 6) ].
    repeat split; try reflexivity; by left.
  - intros opt ->%task_sampled_done.
    exists [ (str "booleanValue", VBool true) ].
    split; [reflexivity|]. intros k [<-|[]]. by left.
Defined.

(** "list Task" and "get Task scheme". *)
Lemma main_list_and_scheme_send_the_same_witness :
  sent (fst (@main interpreter serving []
               (command "list" (Some (str "Task")) None) (fresh []))) =
  sent (fst (@main interpreter serving []
               (command "get" (Some (str "Task")) (Some (str "scheme")))
               (fresh []))).
Proof.
  apply main_list_and_scheme_send_the_same; try reflexivity.
  discriminate.
Defined.

End Sessions.



(** * The entry of a pair *)

Section Observed.
Context `{Interpreter}.
Import Datastore Runs.

(** The tags the sets of the code hold are the tags observed. *)
Lemma observed_iff (h : heap) (results : list value) (kind : value)
    (property t : pystr) :
  observed h results kind property t <->
  In t (observed_tags h results kind property).
Proof.
  rewrite observed_tags_sampled. unfold observed, opt_tags. split.
  - intros (opt & keys & key & Hs & Hkeys & Hin & Hmeta & -> & Hnull).
    exists opt. split; [done|]. rewrite Hkeys. apply value_tags_in.
    exists key. split; [done|]. split; [|done]. unfold is_tag.
    apply eqb_neq in Hnull as ->. by apply eqb_neq in Hmeta as ->.
  - intros (opt & Hs & Hin).
    destruct (iterate h (Some opt)) as [keys|] eqn:Hkeys; [|destruct Hin].
    apply value_tags_in in Hin as (key & Hin & Htag & ->).
    unfold is_tag in Htag.
    apply andb_true_iff in Htag as [Hnull%negb_true_iff Hmeta%negb_true_iff].
    apply eqb_neq in Hnull, Hmeta. by exists opt, keys, key.
Qed.

(** The pairs that have an entry are the pairs of the batch. *)
Lemma scheme_pairs (data : value) (st st' : state) (sch : scheme)
    (results : list value) :
  generate_scheme data st = (st', Return sch) ->
  results_of (objects st) data = Return results ->
  forall kind property,
    is_Some (at_pair sch kind property) <->
    exists opt, sampled (objects st) results kind property opt.
Proof.
  intros Hrun Hres kind property.
  apply generate_scheme_inv in Hrun
    as (_ & results' & sets & Hres' & Hscan & Hat & _).
  rewrite Hres in Hres'. injection Hres' as <-.
  apply scan_entities_entries in Hscan as [Ha _].
  rewrite Hat, is_Some_option_map, Ha.
  split; [|by right]. by intros [[x Hx]|Hex].
Qed.

(** An entry is the collapse of a set that holds the observed tags. *)
Lemma scheme_entry_collapsed (data : value) (st st' : state) (sch : scheme)
    (results : list value) (kind : value) (property : pystr)
    (r : option pystr) :
  generate_scheme data st = (st', Return sch) ->
  results_of (objects st) data = Return results ->
  at_pair sch kind property = Some r ->
  exists tags,
    r = collapsed tags /\
    forall t, In t tags <-> observed (objects st) results kind property t.
Proof.
  intros Hrun Hres Hr.
  destruct (generate_scheme_sound data st st' sch Hrun)
    as (_ & results' & sets & Hres' & [Ha _] & Hat).
  rewrite Hres in Hres'. injection Hres' as <-.
  rewrite Hat in Hr.
  destruct (at_pair sets kind property) as [tags|] eqn:Htags; [|done].
  injection Hr as <-. exists tags. split; [done|]. intros t.
  rewrite observed_iff. by apply Ha.
Qed.

(** What an entry is, from the tags observed. *)
Lemma scheme_entry_observed (data : value) (st st' : state) (sch : scheme)
    (results : list value) (kind : value) (property : pystr)
    (r : option pystr) :
  generate_scheme data st = (st', Return sch) ->
  results_of (objects st) data = Return results ->
  at_pair sch kind property = Some r ->
  match r with
  | Some t => observed (objects st) results kind property t
  | None => forall t, ~ observed (objects st) results kind property t
  end.
Proof.
  intros Hrun Hres Hr.
  destruct (scheme_entry_collapsed data st st' sch results kind property r
              Hrun Hres Hr) as (tags & -> & Htags).
  destruct (collapsed tags) as [t|] eqn:Hc.
  - apply Htags. by apply collapsed_some.
  - apply collapsed_none in Hc as ->. intros t Ht. by apply Htags in Ht.
Qed.

(** C1: when scheme inference returns, the scheme has an entry for
    exactly the (kind, property) pairs of the batch, and the entry of a
    pair is one of the tags observed for it when there is one, and
    [None] when there is none; a tag is observed when a sampled
    TaggedValue has a key other than "excludeFromIndexes" that, with
    "Value" removed, is that tag and is not "null".  In particular the
    entry is [None] when every sampled value of the pair is
    [{"nullValue": ...}].  And scheme inference does return on every
    batch of well-formed entities. *)
Theorem scheme_entry_is_observed_tag (data : value) (st : state) :
  (forall st' sch,
     generate_scheme data st = (st', Return sch) ->
     exists results,
       results_of (objects st) data = Return results /\
       forall kind property,
         (is_Some (at_pair sch kind property) <->
          exists opt, sampled (objects st) results kind property opt) /\
         forall r,
           at_pair sch kind property = Some r ->
           match r with
           | Some t => observed (objects st) results kind property t
           | None =>
               forall t, ~ observed (objects st) results kind property t
           end /\
           ((forall opt,
               sampled (objects st) results kind property opt ->
               exists v,
                 as_dict (objects st) opt = Some [(str "nullValue", v)]) ->
            r = None)) /\
  (forall results,
     results_of (objects st) data = Return results ->
     Forall (well_formed_entity (objects st)) results ->
     exists sch, generate_scheme data st = (st, Return sch)).
Proof.
  split; [|apply generate_scheme_returns].
  intros st' sch Hrun.
  destruct (generate_scheme_sound data st st' sch Hrun)
    as (_ & results & _ & Hres & _).
  exists results. split; [done|]. intros kind property.
  split; [by apply (scheme_pairs data st st' sch results)|].
  intros r Hr.
  pose proof (scheme_entry_observed data st st' sch results kind property r
                Hrun Hres Hr) as Hentry.
  split; [done|]. intros Hnull. destruct r as [t|]; [|done].
  destruct Hentry as (opt & keys & key & Hs & Hkeys & Hin & _ & -> & Ht).
  destruct (Hnull opt Hs) as [v Hv]. unfold as_dict in Hv.
  unfold iterate in Hkeys. destruct opt as [| | | | |l]; try done.
  destruct (objects st !! l) as [[d|]|]; try done.
  injection Hv as ->. injection Hkeys as <-.
  destruct Hin as [[= <-]|[]]. by destruct Ht.
Qed.

End Observed.

(** * A key that is no typed key *)

Section Untyped.
Context `{Interpreter}.
Import Datastore Runs.

(** The key "null" gives no tag. *)
Lemma opt_tags_null_key (h : heap) (opt : value)
    (d : list (pystr * value)) :
  as_dict h opt = Some d ->
  (forall k, In k (List.map fst d) ->
             k = str "null" \/ k = str "excludeFromIndexes") ->
  forall t, ~ In t (opt_tags h opt).
Proof.
  intros Hd Hkeys t. unfold opt_tags, iterate. unfold as_dict in Hd.
  destruct opt as [| | | | |l]; try done.
  destruct (h !! l) as [[d0|]|]; try done. injection Hd as ->.
  rewrite value_tags_in. intros (v & Hv & Hvtag & _).
  apply in_map_iff in Hv as ([k x] & Hk & Hkd).
  cbn [fst] in Hk. injection Hk as ->.
  assert (In v (List.map fst d)) as Hin.
  { apply in_map_iff. by exists (v, x). }
  destruct (Hkeys v Hin) as [->| ->]; by vm_compute in Hvtag.
Qed.

(** C10, as the code has it: when every TaggedValue sampled for a pair
    has, besides "excludeFromIndexes", the one key [key], and [key] does
    not contain "Value" and is not "excludeFromIndexes", the scheme
    has an entry for the pair, which is [key] unless [key] is "null",
    and [None] when it is; the flattener sets the property to [None]
    in both cases. *)
Theorem untyped_key_inferred_but_flattened_to_none (data : value)
    (st st' : state) (sch : scheme) (results : list value) (kind : value)
    (property key : pystr) :
  generate_scheme data st = (st', Return sch) ->
  results_of (objects st) data = Return results ->
  contains (str "Value") key = false ->
  key <> str "excludeFromIndexes" ->
  (exists opt, sampled (objects st) results kind property opt) ->
  (forall opt,
     sampled (objects st) results kind property opt ->
     exists d,
       as_dict (objects st) opt = Some d /\
       In key (List.map fst d) /\
       forall k, In k (List.map fst d) ->
                 k = key \/ k = str "excludeFromIndexes") ->
  at_pair sch kind property =
    Some (if Str.eqb key (str "null") then None else Some key) /\
  forall opt p d0,
    sampled (objects st) results kind property opt ->
    objects st !! p = Some (ODict d0) ->
    opt <> VRef p ->
    parse_property (VRef p) tt (property, opt) st =
    (State (<[p := ODict (set_key Str.eqb property VNone d0)]> (objects st))
           (stdout st), Return tt).
Proof.
  intros Hrun Hres Hvalue Hmeta [opt0 Hs0] Hshape. split.
  - assert (is_Some (at_pair sch kind property)) as [r Hr].
    { apply (scheme_pairs data st st' sch results Hrun Hres). by exists opt0. }
    rewrite Hr. f_equal.
    destruct (scheme_entry_collapsed data st st' sch results kind property r
                Hrun Hres Hr) as (tags & -> & Htags).
    destruct (Str.eqb key (str "null")) eqn:Hnull.
    + apply eqb_eq in Hnull. subst key.
      destruct tags as [|t tags]; [done|].
      assert (In t (t :: tags)) as Ht by by left.
      apply Htags, observed_iff, observed_tags_sampled in Ht
        as (opt & Hs & Hin).
      destruct (Hshape opt Hs) as (d & Hd & _ & Hks).
      by destruct (opt_tags_null_key _ opt d Hd Hks t).
    + apply eqb_neq in Hnull.
      assert (forall t, In t tags <-> t = key) as Hobs.
      { intros t. rewrite Htags, observed_iff, observed_tags_sampled. split.
        - intros (opt & Hs & Hin).
          destruct (Hshape opt Hs) as (d & Hd & Hk & Hks).
          by apply (opt_tags_untyped _ opt key d Hd).
        - intros ->. exists opt0. split; [done|].
          destruct (Hshape opt0 Hs0) as (d & Hd & Hk & Hks).
          by apply (opt_tags_untyped _ opt0 key d Hd). }
      destruct (collapsed tags) as [t|] eqn:Hc.
      * apply collapsed_some, Hobs in Hc. by subst.
      * apply collapsed_none in Hc as ->.
        by destruct (proj2 (Hobs key) eq_refl).
  - intros opt p d0 Hs Hp Hopt. rewrite (parse_property_run p d0) by done.
    destruct (Hshape opt Hs) as (d & Hd & Hk & Hks).
    unfold decoded, items. rewrite Hd. cbn [and_then].
    rewrite decode_items_no_key; [done|]. apply typed_key_none.
    intros k [->| ->]%Hks; [done|by vm_compute].
Qed.

End Untyped.

(** * The coercion of the identifier *)

Section Coercion.
Context `{Interpreter}.
Import Datastore Literal.

(** [int()] on a value whose integer value the language fixes. *)
Lemma int_reads (v : value) :
  reads_literals -> specified v ->
  match integer_value v with
  | Some n => int v = Return n
  | None => exists e, int v = Raise e /\ conversion_error e
  end.
Proof.
  intros Hlaw Hv. unfold conversion_error.
  destruct v as [| b | n | [s | s | | s m e] | s | l];
    cbn [integer_value int]; try done; try by eexists; auto.
  - destruct (0 <=? e)%Z eqn:He; f_equal.
    + destruct s; [|done]. by rewrite <- Z.mul_opp_l.
    + apply Z.leb_gt in He.
      assert (0 < 2 ^ (- e))%Z as Hpow by (apply Z.pow_pos_nonneg; lia).
      rewrite Z.shiftr_div_pow2 by lia.
      destruct s.
      * change (Z.neg m) with (- Z.pos m)%Z.
        rewrite Z.quot_opp_l by lia. f_equal.
        rewrite Z.quot_div_nonneg; [done|lia|done].
      * rewrite Z.quot_div_nonneg; [done|lia|done].
  - cbn [specified] in Hv. rewrite (Hlaw s Hv).
    destruct (int_literal s); [done|]. eexists. auto.
Qed.

(** An entity whose key path resolves is a mapping, so that its
    properties can be asked for. *)
Lemma entity_properties_return (h : heap) (entity : option value)
    (segment : value) :
  segment_in h entity = Return segment ->
  exists props, get_or_empty h entity (str "properties") = Return props.
Proof.
  unfold segment_in, and_then, subscript_str, get_or_empty, as_dict.
  destruct entity as [[| | | | |l]|]; try done.
  destruct (h !! l) as [[d|]|]; try done. intros _. by eexists.
Qed.

Lemma subscript_dict (h : heap) (v : value) (d : list (pystr * value))
    (k : pystr) :
  as_dict h v = Some d ->
  subscript_str h (Some v) k =
  match lookup_key Str.eqb k d with
  | Some x => Return x
  | None => Raise (KeyError (VStr k))
  end.
Proof.
  unfold as_dict, subscript_str. destruct v as [| | | | |l]; try done.
  destruct (h !! l) as [[d0|]|]; try done. by intros [= ->].
Qed.

(** The kind is read first: what its lookup raises, flattening raises. *)
Lemma flatten_entity_no_kind (entities : list flat_entity) (_entity : value)
    (st : state) (entity : option value) (segment : value) (e : exn) :
  get_or_empty (objects st) (Some _entity) (str "entity") = Return entity ->
  segment_in (objects st) entity = Return segment ->
  subscript_str (objects st) (Some segment) (str "kind") = Raise e ->
  flatten_entity entities _entity st = (st, Raise e).
Proof.
  intros He Hseg Hkind. unfold flatten_entity.
  rewrite bind_run. unfold read at 1. rewrite He.
  rewrite bind_run, entity_kind_run. unfold kind_in. rewrite Hseg.
  cbn [and_then]. by rewrite Hkind.
Qed.

(** C7, as the code has it: on an entity whose first key-path segment is
    a mapping, flattening reads the kind member, then the id member, and
    coerces the id with [int()] before it touches the properties.
    Without a kind member it raises [KeyError('kind')], without an id
    member [KeyError('id')].  With an id member that has no integer
    value it raises the error of [int()] and changes nothing.  With one
    that has an integer value, every record it returns carries that
    value, every exception it raises is raised by the flattening of the
    properties, and it does return when the properties decode. *)
Theorem flatten_entity_coerces_id (entities : list flat_entity)
    (_entity : value) (st : state) (segment : value)
    (d : list (pystr * value)) :
  reads_literals ->
  segment_of (objects st) _entity = Return segment ->
  as_dict (objects st) segment = Some d ->
  (lookup_key Str.eqb (str "kind") d = None ->
   flatten_entity entities _entity st =
   (st, Raise (KeyError (VStr (str "kind"))))) /\
  (forall kind,
     lookup_key Str.eqb (str "kind") d = Some kind ->
     (lookup_key Str.eqb (str "id") d = None ->
      flatten_entity entities _entity st =
      (st, Raise (KeyError (VStr (str "id"))))) /\
     (forall id_field,
        lookup_key Str.eqb (str "id") d = Some id_field ->
        specified id_field ->
        match integer_value id_field with
        | None =>
            exists e,
              int id_field = Raise e /\
              flatten_entity entities _entity st = (st, Raise e) /\
              conversion_error e
        | Some n =>
            (forall st' out,
               flatten_entity entities _entity st = (st', Return out) ->
               exists props,
                 out = entities ++ [FlatEntity kind n props]) /\
            (forall st' e,
               flatten_entity entities _entity st = (st', Raise e) ->
               exists props st1,
                 stdout st1 = stdout st /\
                 _parse_properties props st1 = (st', Raise e)) /\
            (forall p ps ps',
               properties_ref (objects st) _entity
                 = Return (Some (VRef p)) ->
               objects st !! p = Some (ODict ps) ->
               NoDup (List.map fst ps) -> no_self p ps ->
               decodes_to (objects st) ps ps' ->
               flatten_entity entities _entity st =
               (State (<[p := ODict ps']> (objects st)) (stdout st),
                Return (entities ++ [FlatEntity kind n (VRef p)])))
        end)).
Proof.
  intros Hlaw Hseg Hd.
  destruct (segment_of_inv _ _ _ Hseg) as (entity & He & Hsegin).
  split.
  { intros Hkind.
    apply (flatten_entity_no_kind entities _entity st entity segment);
      [done|done|].
    by rewrite (subscript_dict _ _ d), Hkind. }
  intros kind Hkind.
  rewrite (flatten_entity_run entities _entity st entity segment kind);
    [|done|done|by rewrite (subscript_dict _ _ d), Hkind].
  rewrite (subscript_dict _ _ d) by done.
  split; [by intros ->|].
  intros id_field Hid Hspec. rewrite Hid.
  pose proof (int_reads id_field Hlaw Hspec) as Hint.
  destruct (integer_value id_field) as [n|].
  - rewrite Hint.
    destruct (entity_properties_return _ _ _ Hsegin) as [props Hprops].
    rewrite Hprops, bind_run.
    destruct (match props with Some p => ret p | None => _ end st)
      as [st1 [p|e1]] eqn:Hp; [|by destruct props].
    assert (stdout st1 = stdout st) as Hout.
    { destruct props; [by injection Hp as <- _|].
      unfold alloc in Hp. by injection Hp as <- _. }
    rewrite bind_run. split; [|split].
    + intros st' out.
      destruct (_parse_properties p st1) as [st2 [p'|e2]]; [|done].
      intros [= <- <-]. by exists p'.
    + intros st' e.
      destruct (_parse_properties p st1) as [st2 [p'|e2]] eqn:Hparse;
        [done|].
      intros [= <- <-]. by exists p, st1.
    + intros q ps ps' Href Hq Hnodup Hself Hdec.
      unfold properties_ref in Href. rewrite He in Href.
      cbn [and_then] in Href. rewrite Hprops in Href.
      injection Href as ->. injection Hp as <- <-.
      by rewrite (parse_properties_returns q ps ps').
  - destruct Hint as (e & Hint & Hconv). rewrite Hint. by exists e.
Qed.

End Coercion.

(** * The three theorems at work on the Task batch *)

Section Batches.
Import Datastore Runs Literal Example Session.

Lemma task_sampled_tag (opt : value) :
  sampled (objects task_state) [VRef 9] (VStr (str "Task")) (str "tag")
    opt ->
  opt = VRef 5.
Proof.
  intros (e & k & its & He & Hk & Heq & Hits & Hopt).
  destruct He as [<-|[]]. vm_compute in Hits. injection Hits as <-.
  repeat (destruct Hopt as [Hopt|Hopt]; [by inversion Hopt|]).
  destruct Hopt.
Qed.

Lemma task_sampled (property : pystr) (opt : value) :
  In (property, opt)
     [ (str "done", VRef 3); (str "note", VRef 4);
       (str "tag", VRef 5); (str "m", VRef 6) ] ->
  sampled (objects task_state) [VRef 9] (VStr (str "Task")) property opt.
Proof.
  intros Hin.
  exists (VRef 9), (VStr (str "Task")),
    [ (str "done", VRef 3); (str "note", VRef 4);
      (str "tag", VRef 5); (str "m", VRef 6) ].
  repeat split; try reflexivity; [by left|done].
Qed.

(** The Task batch: the property "tag", sampled only as
    [{"nullValue": null}], has the entry [None]. *)
Lemma scheme_entry_is_observed_tag_witness :
  @generate_scheme interpreter task_data task_state =
    (task_state, Return task_scheme) /\
  at_pair task_scheme (VStr (str "Task")) (str "tag") = Some None.
Proof.
  split; [exact task_scheme_inferred|].
  destruct (proj1 (@scheme_entry_is_observed_tag interpreter task_data
                     task_state)
              task_state task_scheme task_scheme_inferred)
    as (results & Hres & Hall).
  vm_compute in Hres. injection Hres as <-.
  destruct (Hall (VStr (str "Task")) (str "tag")) as [Hpair Hentry].
  assert (is_Some (at_pair task_scheme (VStr (str "Task")) (str "tag")))
    as [r Hr].
  { apply Hpair. exists (VRef 5). apply task_sampled. by do 2 right; left. }
  rewrite Hr. f_equal. apply (Hentry r Hr).
  intros opt ->%task_sampled_tag. by exists VNone.
Defined.

(** The Task batch: "m" is inferred as "meaning" and flattened to
    [None]. *)
Lemma untyped_key_inferred_but_flattened_to_none_witness :
  @generate_scheme interpreter task_data task_state =
    (task_state, Return task_scheme) /\
  at_pair task_scheme (VStr (str "Task")) (str "m") =
    Some (Some (str "meaning")) /\
  parse_property (VRef 7) tt (str "m", VRef 6) task_state =
  (State (<[7 := ODict [ (str "done", VRef 3); (str "note", VRef 4);
                         (str "tag", VRef 5); (str "m", VNone) ]]>
            (objects task_state))
         (stdout task_state), Return tt).
Proof.
  assert (sampled (objects task_state) [VRef 9] (VStr (str "Task"))
            (str "m") (VRef 6)) as Hsampled.
  { apply task_sampled. by do 3 right; left. }
  destruct (@untyped_key_inferred_but_flattened_to_none interpreter
              task_data task_state task_state task_scheme [VRef 9]
              (VStr (str "Task")) (str "m") (str "meaning")
              task_scheme_inferred eq_refl eq_refl) as [Hr Hflat].
  - discriminate.
  - by exists (VRef 6).
  - intros opt ->%task_sampled_m. exists [ (str "meaning", VInt 3) ].
    split; [reflexivity|]. split; [by left|].
    intros k [<-|[]]. by left.
  - split; [exact task_scheme_inferred|]. split; [exact Hr|].
    apply (Hflat (VRef 6) 7 _ Hsampled task_properties). discriminate.
Defined.

(** The Task batch: the id "42" is read as 42 and the properties are
    flattened. *)
Lemma flatten_entity_coerces_id_witness :
  @flatten_entity reader [] (VRef 9) task_state =
  (State (<[7 := ODict task_flattened]> (objects task_state))
         (stdout task_state),
   Return [FlatEntity (VStr (str "Task")) 42 (VRef 7)]).
Proof.
  assert (@reads_literals reader) as Hlaw by (intros s _; reflexivity).
  pose proof (proj2 (proj2 (@flatten_entity_coerces_id reader [] (VRef 9)
                              task_state (VRef 0) _ Hlaw eq_refl eq_refl)
                       (VStr (str "Task")) eq_refl)
                (VStr (str "42")) eq_refl eq_refl) as Hid.
  change (integer_value (VStr (str "42"))) with (Some 42%Z) in Hid.
  destruct Hid as (_ & _ & Hrun).
  apply (Hrun 7 _ task_flattened eq_refl task_properties).
  - by apply task_names_distinct.
  - repeat constructor; discriminate.
  - repeat constructor.
Defined.

End Batches.
